(** * Datasets-Convertor: a shallow embedding of [app.py]

    The development follows the source file top-down:
    - Python values, text and bytes as the code manipulates them;
    - the builtins the code relies on ([bytes.decode], [str], [re.sub],
      [json.dumps], text-mode file writes), modelled after CPython;
    - [sanitize_value] and [dataset_converter] with its five branches,
      written over an explicit world (disk and network log) and an error
      monad for Python exceptions;
    - the properties of the specification, stated on these definitions. *)

From Stdlib Require Import NArith ZArith List Ascii String Lia.
From Stdlib Require Import DecimalString DecimalN DecimalFacts.
From Stdlib.Strings Require Import Byte.
From stdpp Require Import gmap strings list fin_maps.


(** ** Text and bytes

    A Python [str] is a sequence of Unicode code points; a [bytes] object is
    a sequence of octets. *)

Abbreviation codepoint := N (only parsing).
Abbreviation str := (list N) (only parsing).
Abbreviation bytes := (list byte) (only parsing).

(** Source literals are ASCII; [u] turns a literal into a [str]. *)
Definition u (s : string) : str :=
  map N_of_ascii (list_ascii_of_string s).

Definition str_eqb (a b : str) : bool := bool_decide (a = b).

(** U+FFFD REPLACEMENT CHARACTER, the placeholder of [errors="replace"]. *)
Definition REPLACEMENT : codepoint := 0xFFFD%N.

Section Utf8.
Local Open Scope N_scope.

Definition is_continuation (b : N) : bool := (0x80 <=? b) && (b <=? 0xBF).

(** Second byte of a three-byte sequence: a continuation byte, not an
    overlong form after E0, not a surrogate after ED. *)
Definition second_of_3 (c0 b1 : N) : bool :=
  is_continuation b1
  && negb (if b1 <? 0xA0 then c0 =? 0xE0 else c0 =? 0xED).

(** Second byte of a four-byte sequence: not overlong after F0, not
    above U+10FFFF after F4. *)
Definition second_of_4 (c0 b1 : N) : bool :=
  is_continuation b1
  && negb (if b1 <? 0x90 then c0 =? 0xF0 else c0 =? 0xF4).

Definition cp2 (c0 c1 : N) : N := (c0 - 0xC0) * 64 + (c1 - 0x80).
Definition cp3 (c0 c1 c2 : N) : N :=
  (c0 - 0xE0) * 4096 + (c1 - 0x80) * 64 + (c2 - 0x80).
Definition cp4 (c0 c1 c2 c3 : N) : N :=
  (c0 - 0xF0) * 262144 + (c1 - 0x80) * 4096 + (c2 - 0x80) * 64 + (c3 - 0x80).

(** [val.decode("utf-8", errors="replace")]: CPython's decoder.  An
    invalid start byte, or a sequence broken by a byte that cannot
    continue it, yields one U+FFFD for the bytes read so far and decoding
    resumes at the offending byte; a sequence cut by the end of the data
    yields one U+FFFD. *)
Fixpoint utf8_decode_replace (bs : bytes) : str :=
  match bs with
  | [] => []
  | b0 :: r0 =>
    let c0 := Byte.to_N b0 in
    if c0 <? 0x80 then c0 :: utf8_decode_replace r0
    else if c0 <? 0xC2 then REPLACEMENT :: utf8_decode_replace r0
    else if c0 <? 0xE0 then
      match r0 with
      | [] => [REPLACEMENT]
      | b1 :: r1 =>
        let c1 := Byte.to_N b1 in
        if is_continuation c1 then cp2 c0 c1 :: utf8_decode_replace r1
        else REPLACEMENT :: utf8_decode_replace r0
      end
    else if c0 <? 0xF0 then
      match r0 with
      | [] => [REPLACEMENT]
      | b1 :: r1 =>
        let c1 := Byte.to_N b1 in
        if second_of_3 c0 c1 then
          match r1 with
          | [] => [REPLACEMENT]
          | b2 :: r2 =>
            let c2 := Byte.to_N b2 in
            if is_continuation c2
            then cp3 c0 c1 c2 :: utf8_decode_replace r2
            else REPLACEMENT :: utf8_decode_replace r1
          end
        else REPLACEMENT :: utf8_decode_replace r0
      end
    else if c0 <? 0xF5 then
      match r0 with
      | [] => [REPLACEMENT]
      | b1 :: r1 =>
        let c1 := Byte.to_N b1 in
        if second_of_4 c0 c1 then
          match r1 with
          | [] => [REPLACEMENT]
          | b2 :: r2 =>
            let c2 := Byte.to_N b2 in
            if is_continuation c2 then
              match r2 with
              | [] => [REPLACEMENT]
              | b3 :: r3 =>
                let c3 := Byte.to_N b3 in
                if is_continuation c3
                then cp4 c0 c1 c2 c3 :: utf8_decode_replace r3
                else REPLACEMENT :: utf8_decode_replace r2
              end
            else REPLACEMENT :: utf8_decode_replace r1
          end
        else REPLACEMENT :: utf8_decode_replace r0
      end
    else REPLACEMENT :: utf8_decode_replace r0
  end.

Definition byte_of (n : N) : byte :=
  match Byte.of_N n with Some b => b | None => x00 end.

Definition is_surrogate (c : N) : bool := (0xD800 <=? c) && (c <=? 0xDFFF).

(** UTF-8 encoding of one code point; surrogates and values above
    U+10FFFF cannot be encoded ([UnicodeEncodeError]). *)
Definition utf8_encode_char (c : N) : option bytes :=
  if c <? 0x80 then Some [byte_of c]
  else if c <? 0x800 then
    Some [byte_of (0xC0 + c / 64); byte_of (0x80 + c mod 64)]
  else if is_surrogate c then None
  else if c <? 0x10000 then
    Some [byte_of (0xE0 + c / 4096); byte_of (0x80 + (c / 64) mod 64);
          byte_of (0x80 + c mod 64)]
  else if c <? 0x110000 then
    Some [byte_of (0xF0 + c / 262144); byte_of (0x80 + (c / 4096) mod 64);
          byte_of (0x80 + (c / 64) mod 64); byte_of (0x80 + c mod 64)]
  else None.

Fixpoint utf8_encode (s : str) : option bytes :=
  match s with
  | [] => Some []
  | c :: r =>
    match utf8_encode_char c, utf8_encode r with
    | Some b, Some br => Some (b ++ br)
    | _, _ => None
    end
  end.
End Utf8.

(** ** Python values

    The objects that reach the code: table cells, nested records, and the
    arguments of [dataset_converter]. *)

(** A float is either non-finite or carries the decimal literal that
    [float.__repr__] prints for it: sign, integer digits, fraction digits
    ([Nil] when the literal has no fraction) and decimal exponent. *)
Inductive pyfloat :=
| FNaN
| FInf (negative : bool)
| FFinite (negative : bool) (int_part : N) (frac : Decimal.uint) (exp : option Z).

#[warnings="-register-all"]
Inductive pyval :=
| PNone
| PBool (b : bool)
| PInt (z : Z)
| PFloat (f : pyfloat)
| PStr (s : str)
| PBytes (b : bytes)
| PList (l : list pyval)
| PTuple (l : list pyval)
| PDict (d : list (pyval * pyval))
  (** Any object of another class ([numpy.int64], [numpy.ndarray],
      [pandas.Timestamp], ...), with the text its [__repr__] returns. *)
| PObj (cls : string) (repr : str).

(** Induction over values that reaches inside containers. *)
Section PyvalInd.
Variable P : pyval → Prop.
Hypothesis HNone : P PNone.
Hypothesis HBool : ∀ b, P (PBool b).
Hypothesis HInt : ∀ z, P (PInt z).
Hypothesis HFloat : ∀ f, P (PFloat f).
Hypothesis HStr : ∀ s, P (PStr s).
Hypothesis HBytes : ∀ b, P (PBytes b).
Hypothesis HList : ∀ l, Forall P l → P (PList l).
Hypothesis HTuple : ∀ l, Forall P l → P (PTuple l).
Hypothesis HDict : ∀ d, Forall (λ kv, P kv.1 ∧ P kv.2) d → P (PDict d).
Hypothesis HObj : ∀ c r, P (PObj c r).

Fixpoint pyval_nested_ind (v : pyval) : P v :=
  match v with
  | PNone => HNone
  | PBool b => HBool b
  | PInt z => HInt z
  | PFloat f => HFloat f
  | PStr s => HStr s
  | PBytes b => HBytes b
  | PList l =>
    HList l ((fix go (l : list pyval) : Forall P l :=
                match l with
                | [] => List.Forall_nil P
                | x :: r => List.Forall_cons P x r (pyval_nested_ind x) (go r)
                end) l)
  | PTuple l =>
    HTuple l ((fix go (l : list pyval) : Forall P l :=
                 match l with
                 | [] => List.Forall_nil P
                 | x :: r => List.Forall_cons P x r (pyval_nested_ind x) (go r)
                 end) l)
  | PDict d =>
    HDict d ((fix go (d : list (pyval * pyval))
                : Forall (λ kv, P kv.1 ∧ P kv.2) d :=
                match d with
                | [] => List.Forall_nil _
                | (k, x) :: r =>
                  List.Forall_cons (λ kv, P kv.1 ∧ P kv.2) (k, x) r
                    (conj (pyval_nested_ind k) (pyval_nested_ind x)) (go r)
                end) d)
  | PObj c r => HObj c r
  end.
End PyvalInd.

(** ** Printing numbers *)

Section Digits.
Local Open Scope N_scope.

Fixpoint uint_chars (d : Decimal.uint) : str :=
  match d with
  | Decimal.Nil => []
  | Decimal.D0 d => 48 :: uint_chars d
  | Decimal.D1 d => 49 :: uint_chars d
  | Decimal.D2 d => 50 :: uint_chars d
  | Decimal.D3 d => 51 :: uint_chars d
  | Decimal.D4 d => 52 :: uint_chars d
  | Decimal.D5 d => 53 :: uint_chars d
  | Decimal.D6 d => 54 :: uint_chars d
  | Decimal.D7 d => 55 :: uint_chars d
  | Decimal.D8 d => 56 :: uint_chars d
  | Decimal.D9 d => 57 :: uint_chars d
  end.

Definition N_chars (n : N) : str := uint_chars (N.to_uint n).

(** [int.__repr__] *)
Definition int_repr (z : Z) : str :=
  if (z <? 0)%Z then 45 :: N_chars (Z.abs_N z) else N_chars (Z.abs_N z).

(** The exponent of a float literal: a sign and at least two digits. *)
Definition exp_chars (e : Z) : str :=
  101 :: (if (e <? 0)%Z then 45 else 43)
      :: (if (Z.abs e <? 10)%Z then 48 :: N_chars (Z.abs_N e)
          else N_chars (Z.abs_N e)).

Definition finite_chars (neg : bool) (i : N) (frac : Decimal.uint)
    (e : option Z) : str :=
  (if neg then [45] else [])
  ++ N_chars i
  ++ match frac with Decimal.Nil => [] | _ => 46 :: uint_chars frac end
  ++ match e with Some e => exp_chars e | None => [] end.

(** [float.__repr__] *)
Definition float_repr (f : pyfloat) : str :=
  match f with
  | FNaN => u "nan"
  | FInf false => u "inf"
  | FInf true => u "-inf"
  | FFinite neg i frac e => finite_chars neg i frac e
  end.

Definition hex_digit (n : N) : N := if n <? 10 then 48 + n else 87 + n.
Definition hex2 (c : N) : str := [hex_digit (c / 16 mod 16); hex_digit (c mod 16)].
Definition hex4 (c : N) : str := hex2 (c / 256) ++ hex2 c.
Definition hex8 (c : N) : str := hex4 (c / 65536) ++ hex4 c.
End Digits.

(** ** [repr] and [str]

    Which non-ASCII code points are printable, and how non-ASCII text is
    lower-cased, is decided by the Unicode database of the interpreter. *)

Class UnicodeData := {
  isprintable : codepoint → bool;
  unicode_lower : str → str;
}.

Definition join (sep : str) (parts : list str) : str :=
  match parts with
  | [] => []
  | p :: ps => p ++ concat (map (λ q, sep ++ q) ps)
  end.

Section Repr.
Context `{UnicodeData}.
Local Open Scope N_scope.

Definition mem (c : N) (s : list N) : bool := existsb (N.eqb c) s.

(** Single quotes, unless the text has a single quote and no double one. *)
Definition repr_quote (s : list N) : N :=
  if mem 39 s && negb (mem 34 s) then 34 else 39.

Definition str_repr_char (quote c : N) : str :=
  if (c =? quote) || (c =? 92) then [92; c]
  else if c =? 9 then [92; 116]
  else if c =? 10 then [92; 110]
  else if c =? 13 then [92; 114]
  else if (c <? 32) || (c =? 127) then 92 :: 120 :: hex2 c
  else if c <? 127 then [c]
  else if isprintable c then [c]
  else if c <=? 0xFF then 92 :: 120 :: hex2 c
  else if c <=? 0xFFFF then 92 :: 117 :: hex4 c
  else 92 :: 85 :: hex8 c.

(** [str.__repr__] *)
Definition str_repr (s : str) : str :=
  let q := repr_quote s in
  q :: concat (map (str_repr_char q) s) ++ [q].

Definition bytes_repr_char (quote c : N) : str :=
  if (c =? quote) || (c =? 92) then [92; c]
  else if c =? 9 then [92; 116]
  else if c =? 10 then [92; 110]
  else if c =? 13 then [92; 114]
  else if (c <? 32) || (127 <=? c) then 92 :: 120 :: hex2 c
  else [c].

(** [bytes.__repr__] *)
Definition bytes_repr (b : bytes) : str :=
  let cs := map Byte.to_N b in
  let q := repr_quote cs in
  98 :: q :: concat (map (bytes_repr_char q) cs) ++ [q].

(** [repr(val)] *)
Fixpoint py_repr (v : pyval) : str :=
  match v with
  | PNone => u "None"
  | PBool true => u "True"
  | PBool false => u "False"
  | PInt z => int_repr z
  | PFloat f => float_repr f
  | PStr s => str_repr s
  | PBytes b => bytes_repr b
  | PList l => u "[" ++ join (u ", ") (map py_repr l) ++ u "]"
  | PTuple l =>
    u "(" ++ join (u ", ") (map py_repr l)
      ++ (match l with [_] => u "," | _ => [] end) ++ u ")"
  | PDict d =>
    u "{" ++ join (u ", ")
               (map (λ kv, match kv with
                           | (k, x) => py_repr k ++ u ": " ++ py_repr x
                           end) d)
      ++ u "}"
  | PObj _ r => r
  end.

(** [str(val)]: the text itself for a [str], the [repr] otherwise. *)
Definition py_str (v : pyval) : str :=
  match v with
  | PStr s => s
  | _ => py_repr v
  end.

(** [str.lower()]: ASCII letters directly, any other text through the
    Unicode database. *)
Definition lower_ascii (c : N) : N :=
  if (65 <=? c) && (c <=? 90) then c + 32 else c.

Definition py_lower (s : str) : str :=
  if forallb (λ c, c <? 128) s then map lower_ascii s else unicode_lower s.
End Repr.

(** ** The sanitizer (app.py, [sanitize_value]) *)

Section Sanitizer.
Context `{UnicodeData}.
Local Open Scope N_scope.

(** The character class [[\x00-\x08\x0B\x0C\x0E-\x1F]]. *)
Definition illegal_char (c : N) : bool :=
  (c <=? 0x08) || (c =? 0x0B) || (c =? 0x0C) || ((0x0E <=? c) && (c <=? 0x1F)).

(** [re.sub(r'[\x00-\x08\x0B\x0C\x0E-\x1F]', '', s)] *)
Definition strip_illegal (s : str) : str :=
  List.filter (λ c, negb (illegal_char c)) s.

(** [errors="replace"] never raises, so the [except] arm of the source is
    dead and [s] is always the decoded text. *)
Definition sanitize_value (val : pyval) : pyval :=
  match val with
  | PBytes b => PStr (strip_illegal (utf8_decode_replace b))
  | PStr s => PStr (strip_illegal s)
  | PDict _ | PList _ => PStr (strip_illegal (py_str val))
  | _ => val
  end.
End Sanitizer.

(** The newline (0x0A) and tab (0x09) characters of a text, in order. *)
Definition newlines_tabs (s : str) : str :=
  List.filter (λ c, (c =? 0x0A) || (c =? 0x09))%N s.

(** ** [json.dumps]

    The encoder of the standard library with its default arguments
    ([skipkeys=False], [allow_nan=True], the default separators),
    parameterised by [ensure_ascii].  [None] stands for the [TypeError]
    raised on an object that is not JSON serializable. *)

Fixpoint sequence_opt {A} (l : list (option A)) : option (list A) :=
  match l with
  | [] => Some []
  | Some x :: r =>
    match sequence_opt r with Some xs => Some (x :: xs) | None => None end
  | None :: _ => None
  end.

Section JsonEncode.
Local Open Scope N_scope.

(** The two-character escapes shared by both string encoders. *)
Definition short_escape (c : N) : option N :=
  if c =? 34 then Some 34        (* quote *)
  else if c =? 92 then Some 92   (* backslash *)
  else if c =? 10 then Some 110  (* n *)
  else if c =? 13 then Some 114  (* r *)
  else if c =? 9 then Some 116   (* t *)
  else if c =? 12 then Some 102  (* f *)
  else if c =? 8 then Some 98    (* b *)
  else None.

Definition u_escape (c : N) : str := 92 :: 117 :: hex4 c.

(** [ensure_ascii=True]: printable ASCII is kept, anything else is
    escaped, code points beyond the BMP as a surrogate pair. *)
Definition escape_ascii (c : N) : str :=
  match short_escape c with
  | Some e => [92; e]
  | None =>
    if (32 <=? c) && (c <=? 126) then [c]
    else if 0x10000 <=? c then
      u_escape (0xD800 + (c - 0x10000) / 1024)
      ++ u_escape (0xDC00 + (c - 0x10000) mod 1024)
    else u_escape c
  end.

(** [ensure_ascii=False]: only the quote, the backslash and the control
    characters below U+0020 are escaped. *)
Definition escape_unicode (c : N) : str :=
  match short_escape c with
  | Some e => [92; e]
  | None => if c <=? 0x1F then u_escape c else [c]
  end.

Variable ensure_ascii : bool.

Definition escape_char (c : N) : str :=
  if ensure_ascii then escape_ascii c else escape_unicode c.

Definition encode_string (s : str) : str :=
  34 :: concat (map escape_char s) ++ [34].

(** Floats: the non-finite ones as JavaScript tokens. *)
Definition floatstr (f : pyfloat) : str :=
  match f with
  | FNaN => u "NaN"
  | FInf false => u "Infinity"
  | FInf true => u "-Infinity"
  | FFinite _ _ _ _ => float_repr f
  end.

(** Dictionary keys are coerced to text; other keys are a [TypeError]. *)
Definition json_key (k : pyval) : option str :=
  match k with
  | PStr s => Some s
  | PFloat f => Some (floatstr f)
  | PBool true => Some (u "true")
  | PBool false => Some (u "false")
  | PNone => Some (u "null")
  | PInt z => Some (int_repr z)
  | _ => None
  end.

Definition encode_array (items : list str) : str :=
  u "[" ++ join (u ", ") items ++ u "]".

Definition encode_object (members : list str) : str :=
  u "{" ++ join (u ", ") members ++ u "}".

Definition encode_member (key value : str) : str :=
  encode_string key ++ u ": " ++ value.

Fixpoint json_encode (v : pyval) : option str :=
  match v with
  | PNone => Some (u "null")
  | PBool true => Some (u "true")
  | PBool false => Some (u "false")
  | PInt z => Some (int_repr z)
  | PFloat f => Some (floatstr f)
  | PStr s => Some (encode_string s)
  | PList l | PTuple l =>
    match sequence_opt (map json_encode l) with
    | Some items => Some (encode_array items)
    | None => None
    end
  | PDict d =>
    match sequence_opt
            (map (λ kv, match kv with
                        | (k, x) =>
                          match json_key k, json_encode x with
                          | Some ks, Some xs => Some (encode_member ks xs)
                          | _, _ => None
                          end
                        end) d) with
    | Some members => Some (encode_object members)
    | None => None
    end
  | PBytes _ | PObj _ _ => None
  end.
End JsonEncode.

(** [json.dumps(obj)] and [json.dumps(obj, ensure_ascii=False)]. *)
Definition json_dumps (ensure_ascii : bool) (obj : pyval) : option str :=
  json_encode ensure_ascii obj.

(** ** Exceptions, the world, and the monad of the conversion

    [dataset_converter] reads and writes files, may fetch a URL and may
    raise.  The world holds what survives a call: the disk and the log of
    HTTP requests issued. *)

Inductive exn :=
| ValueError (msg : str)                 (* raised by the code itself *)
| HTTPError (status : Z)                 (* [response.raise_for_status()] *)
| ConnectionError (url : str)            (* [requests.get] could not complete *)
| FileNotFoundError (path : str)         (* [open] *)
| KeyError (label : str)                 (* [row[column]] *)
| TypeError                              (* [json.dumps] on an unsupported object *)
| UnicodeEncodeError                     (* text-mode write of unencodable text *)
| LibraryError (origin : string)         (* raised inside pandas, pyarrow or openpyxl *)
| RequestException (kind : string).      (* any other exception of [requests.get] *)

(** The error classes of the specification. *)
Definition is_InvalidInput (e : exn) : bool :=
  match e with ValueError _ => true | _ => false end.

Definition is_RemoteFetchError (e : exn) : bool :=
  match e with HTTPError _ | ConnectionError _ => true | _ => false end.

Inductive result (A : Type) :=
| Ok (a : A)
| Raise (e : exn).
Arguments Ok {A} a.
Arguments Raise {A} e.

Record world := World {
  disk : gmap str bytes;
  net_log : list str;     (* URLs fetched so far, oldest first *)
}.

Definition M (A : Type) : Type := world → result A * world.

Definition ret {A} (a : A) : M A := λ w, (Ok a, w).
Definition raise {A} (e : exn) : M A := λ w, (Raise e, w).
Definition bind {A B} (m : M A) (k : A → M B) : M B :=
  λ w, match m w with
       | (Ok a, w') => k a w'
       | (Raise e, w') => (Raise e, w')
       end.
Definition lift {A} (r : result A) : M A := λ w, (r, w).

Notation "x <- m ;; k" := (bind m (λ x, k))
  (at level 100, m at next level, right associativity).
Notation "m ;; k" := (bind m (λ _, k))
  (at level 100, right associativity).

(** [open(path, "rb").read()].  The disk of the model holds the regular
    files that are open to reading, and nothing else: of the ways [open]
    can fail, the one it has is the name that is not there.  A directory,
    a file closed to reading and a name [open] refuses are not part of
    this world. *)
Definition read_file (path : str) : M bytes :=
  λ w, match disk w !! path with
       | Some data => (Ok data, w)
       | None => (Raise (FileNotFoundError path), w)
       end.

(** A library writer handing its finished output to the disk. *)
Definition write_file (path : str) (data : bytes) : M unit :=
  λ w, (Ok tt, World (<[path := data]> (disk w)) (net_log w)).

(** [open(path, "w", encoding="utf-8")]: the file is created or truncated. *)
Definition open_truncate (path : str) : M unit := write_file path [].

(** [f.write(text)]: the text is encoded, then appended. *)
Definition append_text (path : str) (text : str) : M unit :=
  λ w, match utf8_encode text with
       | Some data =>
         (Ok tt, World (<[path := default [] (disk w !! path) ++ data]> (disk w))
                       (net_log w))
       | None => (Raise UnicodeEncodeError, w)
       end.

(** ** The libraries behind the code *)

(** A pandas [Series] as [iterrows] yields it: labelled values.  Labels of
    a frame built by [read_csv] are unique, so a label selects one value. *)
Abbreviation Series := (list (str * pyval)) (only parsing).

Class Pandas := {
  DataFrame : Type;
  (** [pd.read_csv(BytesIO(data))] and, with [Some enc], [encoding=enc] *)
  read_csv : bytes → option string → result DataFrame;
  (** [pd.read_parquet(BytesIO(data))] *)
  read_parquet : bytes → result DataFrame;
  (** the file [df.to_parquet(path, index=False)] writes *)
  to_parquet : DataFrame → result bytes;
  (** the file [df.to_csv(path, index=False)] writes *)
  to_csv : DataFrame → result bytes;
  (** [df.columns] *)
  df_columns : DataFrame → list str;
  (** the rows of [df.iterrows()], index dropped *)
  iterrows : DataFrame → list Series;
  (** [df.to_dict(orient="records")] *)
  to_dict_records : DataFrame → list (list (str * pyval));
  (** [df.itertuples(index=False, name=None)] *)
  itertuples : DataFrame → list (list pyval);
  (** [df.head(10).to_string(index=False)] *)
  head_to_string : DataFrame → str;
}.

Class Openpyxl := {
  (** A write-only workbook with one sheet: the rows appended with
      [ws.append], then [wb.save]; appending a cell the sheet cannot hold
      raises before anything is saved. *)
  save_workbook : list (list pyval) → result bytes;
}.

Record response := Response {
  status_code : Z;
  content : bytes;
}.

Class Network := {
  (** The answer to one [requests.get(url)]; [None] when no response
      arrives. *)
  http_get : str → option response;
  (** Without a response: the exception [requests.get(url)] raises, and
      whether the request went out before it.  A URL that [requests]
      refuses (no scheme, no host, a scheme it has no adapter for) raises
      before anything is sent; a connection that fails or times out
      raises after. *)
  http_failure : str → exn * bool;
}.

(** [requests.get(url)] *)
Definition requests_get `{Network} (url : str) : M response :=
  λ w, let w' := World (disk w) (net_log w ++ [url]) in
       match http_get url with
       | Some r => (Ok r, w')
       | None => (Raise (http_failure url).1,
                  if (http_failure url).2 then w' else w)
       end.

(** [response.raise_for_status()]: client and server errors raise. *)
Definition raise_for_status (r : response) : result unit :=
  if ((400 <=? status_code r) && (status_code r <? 600))%Z
  then Raise (HTTPError (status_code r))
  else Ok tt.

(** ** The input resolver (app.py, lines 51-65) *)

(** What the caller passes as [input_file]. *)
Inductive file_input :=
| FileObject (name : str) (data : bytes)   (* has [read()] and [name] *)
| FilePath (path : str).                   (* a plain path: the file is opened *)

Fixpoint split_on (sep : N) (s : str) : list str :=
  match s with
  | [] => [[]]
  | c :: r =>
    if (c =? sep)%N then [] :: split_on sep r
    else match split_on sep r with
         | [] => [[c]]
         | p :: ps => (c :: p) :: ps
         end
  end.

(** [file_name.lower().split('.')[-1]] *)
Definition extension_of `{UnicodeData} (file_name : str) : str :=
  List.last (split_on 46 (py_lower file_name)) [].

Record source_file := SourceFile {
  file_bytes : bytes;
  file_name : str;
  file_extension : str;
}.

Definition read_input (f : file_input) : M (bytes * str) :=
  match f with
  | FileObject name data => ret (data, name)
  | FilePath path => data <- read_file path ;; ret (data, path)
  end.

Definition resolve_input `{UnicodeData} (input_file : option file_input)
    : M (option source_file) :=
  match input_file with
  | None => ret None
  | Some f =>
    bn <- read_input f ;;
    ret (Some (SourceFile bn.1 bn.2 (extension_of bn.2)))
  end.

(** ** The conversion engine (app.py, lines 67-172) *)

Section Engine.
Context `{UnicodeData, Pandas, Openpyxl, Network}.

(** What a branch leaves for the summary: the output file, the format
    label, the preview and the name shown as input file. *)
Record outcome := Outcome {
  output_file : str;
  converted_format : str;
  preview_str : str;
  shown_name : option str;
}.

Definition page_emoji : str := [0x1F4C4%N].
Definition globe_emoji : str := [0x1F310%N].
Definition warning_emoji : str := [0x26A0%N; 0xFE0F%N].
Definition rocket_emoji : str := [0x1F680%N].

(** *** CSV to Parquet *)
Definition csv_to_parquet (src : option source_file) : M outcome :=
  match src with
  | Some s =>
    if str_eqb (file_extension s) (u "csv") then
      df <- lift (read_csv (file_bytes s) None) ;;
      data <- lift (to_parquet df) ;;
      write_file (u "output.parquet") data ;;
      ret (Outcome (u "output.parquet") (u "Parquet") (head_to_string df)
                   (Some (file_name s)))
    else raise (ValueError
      (u "For CSV to Parquet conversion, please upload a CSV file. " ++ page_emoji))
  | None => raise (ValueError
      (u "For CSV to Parquet conversion, please upload a CSV file. " ++ page_emoji))
  end.

(** *** Parquet to CSV *)
Definition parquet_to_csv (src : option source_file) : M outcome :=
  match src with
  | Some s =>
    if str_eqb (file_extension s) (u "parquet") then
      df <- lift (read_parquet (file_bytes s)) ;;
      data <- lift (to_csv df) ;;
      write_file (u "output.csv") data ;;
      ret (Outcome (u "output.csv") (u "CSV") (head_to_string df)
                   (Some (file_name s)))
    else raise (ValueError
      (u "For Parquet to CSV conversion, please upload a Parquet file. " ++ page_emoji))
  | None => raise (ValueError
      (u "For Parquet to CSV conversion, please upload a Parquet file. " ++ page_emoji))
  end.

(** *** CSV to JSONL *)

(** [row[column]] *)
Definition series_getitem (row : Series) (column : str) : result pyval :=
  match List.find (λ kv, str_eqb kv.1 column) row with
  | Some kv => Ok kv.2
  | None => Raise (KeyError column)
  end.

Definition key_is (k : pyval) (key : str) : bool :=
  match k with PStr s => str_eqb s key | _ => false end.

(** [data[key] = value] on an insertion-ordered dictionary with text
    keys. *)
Fixpoint dict_set (data : list (pyval * pyval)) (key : str) (value : pyval)
    : list (pyval * pyval) :=
  match data with
  | [] => [(PStr key, value)]
  | (k, x) :: r =>
    if key_is k key then (k, value) :: r
    else (k, x) :: dict_set r key value
  end.

(** The inner loop over [df.columns]: the state is [data] and
    [file_name_val]. *)
Fixpoint collect_columns (row : Series) (columns : list str)
    (data : list (pyval * pyval)) (file_name_val : pyval)
    : result (list (pyval * pyval) * pyval) :=
  match columns with
  | [] => Ok (data, file_name_val)
  | column :: rest =>
    match series_getitem row column with
    | Ok x =>
      collect_columns row rest (dict_set data column x)
        (if str_eqb column (u "file_name") then x else file_name_val)
    | Raise e => Raise e
    end
  end.

(** The body of the loop over [df.iterrows()]: one [row_data]. *)
Definition make_row_data (columns : list str) (row : Series) : result pyval :=
  match collect_columns row columns [] PNone with
  | Ok (data, file_name_val) =>
    match json_dumps true (PDict data) with
    | Some ground_truth =>
      Ok (PDict [(PStr (u "file_name"), file_name_val);
                 (PStr (u "ground_truth"), PStr ground_truth)])
    | None => Raise TypeError
    end
  | Raise e => Raise e
  end.

Fixpoint make_total_data (columns : list str) (rows : list Series)
    : result (list pyval) :=
  match rows with
  | [] => Ok []
  | row :: rest =>
    match make_row_data columns row with
    | Ok row_data =>
      match make_total_data columns rest with
      | Ok total => Ok (row_data :: total)
      | Raise e => Raise e
      end
    | Raise e => Raise e
    end
  end.

(** [for item in items: f.write(json.dumps(prepare(item), ...) + "\n")] *)
Fixpoint write_json_lines (path : str) (ensure_ascii : bool)
    (prepare : pyval → pyval) (items : list pyval) : M unit :=
  match items with
  | [] => ret tt
  | item :: rest =>
    match json_dumps ensure_ascii (prepare item) with
    | Some line =>
      append_text path (line ++ [10%N]) ;;
      write_json_lines path ensure_ascii prepare rest
    | None => raise TypeError
    end
  end.

Definition csv_to_jsonl (src : option source_file) : M outcome :=
  match src with
  | Some s =>
    if str_eqb (file_extension s) (u "csv") then
      df <- lift (read_csv (file_bytes s) (Some "latin1"%string)) ;;
      total_data <- lift (make_total_data (df_columns df) (iterrows df)) ;;
      open_truncate (u "metadata.jsonl") ;;
      write_json_lines (u "metadata.jsonl") true id total_data ;;
      ret (Outcome (u "metadata.jsonl") (u "JSONL") (head_to_string df)
                   (Some (file_name s)))
    else raise (ValueError
      (u "For CSV to JSONL conversion, please upload a CSV file. " ++ page_emoji))
  | None => raise (ValueError
      (u "For CSV to JSONL conversion, please upload a CSV file. " ++ page_emoji))
  end.

(** *** The table of the two Parquet branches that accept a URL *)

(** [if parquet_url:] *)
Definition truthy (parquet_url : option str) : option str :=
  match parquet_url with
  | Some (c :: r) => Some (c :: r)
  | _ => None
  end.

Definition load_parquet (src : option source_file) (parquet_url : option str)
    (missing : str) : M (DataFrame * option str) :=
  match src with
  | Some s =>
    df <- lift (read_parquet (file_bytes s)) ;;
    ret (df, Some (file_name s))
  | None =>
    match truthy parquet_url with
    | Some url =>
      response <- requests_get url ;;
      lift (raise_for_status response) ;;
      df <- lift (read_parquet (content response)) ;;
      ret (df, Some (u "from_url.parquet"))
    | None => raise (ValueError missing)
    end
  end.

(** *** Parquet to JSONL *)

Fixpoint recursive_sanitize (val : pyval) : pyval :=
  match val with
  | PBytes b => PStr (utf8_decode_replace b)
  | PDict d =>
    PDict (map (λ kv, match kv with (k, x) => (k, recursive_sanitize x) end) d)
  | PList l => PList (map recursive_sanitize l)
  | _ => val
  end.

Definition record_dict (record : list (str * pyval)) : pyval :=
  PDict (map (λ kv, (PStr kv.1, kv.2)) record).

Definition parquet_to_jsonl (src : option source_file)
    (parquet_url : option str) : M outcome :=
  loaded <- load_parquet src parquet_url
    (u "For Parquet to JSONL conversion, please upload a file or provide a URL. "
       ++ globe_emoji) ;;
  let df := loaded.1 in
  let records := map record_dict (to_dict_records df) in
  open_truncate (u "output.jsonl") ;;
  write_json_lines (u "output.jsonl") false recursive_sanitize records ;;
  ret (Outcome (u "output.jsonl") (u "JSONL") (head_to_string df) loaded.2).

(** *** Parquet to XLS *)

Definition parquet_to_xls (src : option source_file)
    (parquet_url : option str) : M outcome :=
  loaded <- load_parquet src parquet_url
    (u "For Parquet to XLS conversion, please upload a file or provide a URL. "
       ++ globe_emoji) ;;
  let df := loaded.1 in
  let header := map PStr (df_columns df) in
  let rows := map (map sanitize_value) (itertuples df) in
  data <- lift (save_workbook (header :: rows)) ;;
  write_file (u "output.xlsx") data ;;
  ret (Outcome (u "output.xlsx") (u "XLS") (head_to_string df) loaded.2).

(** *** Dispatch and summary *)

(** [conversion_type == label] *)
Definition selected (conversion_type : option str) (label : string) : bool :=
  match conversion_type with
  | Some t => str_eqb t (u label)
  | None => false
  end.

Definition info_message (o : outcome) : str :=
  u "Input file: "
    ++ match shown_name o with Some n => n | None => u "N/A" end ++ [10%N]
    ++ u "Converted file format: " ++ converted_format o ++ [10%N; 10%N]
    ++ u "Preview (Top 10 Rows):" ++ [10%N] ++ preview_str o ++ [10%N; 10%N]
    ++ u "Community: https://discord.gg/openfreeai " ++ rocket_emoji.

Definition invalid_type_message : str :=
  u "Invalid conversion type selected. " ++ warning_emoji.

Definition run_selected (src : option source_file)
    (conversion_type : option str) (parquet_url : option str) : M outcome :=
  if selected conversion_type "CSV to Parquet" then csv_to_parquet src
  else if selected conversion_type "Parquet to CSV" then parquet_to_csv src
  else if selected conversion_type "CSV to JSONL" then csv_to_jsonl src
  else if selected conversion_type "Parquet to JSONL"
    then parquet_to_jsonl src parquet_url
  else if selected conversion_type "Parquet to XLS"
    then parquet_to_xls src parquet_url
  else raise (ValueError invalid_type_message).

Definition dataset_converter (input_file : option file_input)
    (conversion_type : option str) (parquet_url : option str)
    : M (str * str) :=
  src <- resolve_input input_file ;;
  o <- run_selected src conversion_type parquet_url ;;
  ret (output_file o, info_message o).
End Engine.

(** ** The dispatch as the specification words it

    The specification describes a request as carrying a value of a closed
    enumeration, and the engine as a switch over it. *)

Inductive conversion :=
| CsvToParquet
| ParquetToCsv
| CsvToJsonl
| ParquetToJsonl
| ParquetToXls.

Definition conversion_label (c : conversion) : string :=
  match c with
  | CsvToParquet => "CSV to Parquet"
  | ParquetToCsv => "Parquet to CSV"
  | CsvToJsonl => "CSV to JSONL"
  | ParquetToJsonl => "Parquet to JSONL"
  | ParquetToXls => "Parquet to XLS"
  end.

Definition all_conversions : list conversion :=
  [CsvToParquet; ParquetToCsv; CsvToJsonl; ParquetToJsonl; ParquetToXls].

(** The enumeration value a selector text stands for, if any. *)
Definition conversion_of (conversion_type : option str) : option conversion :=
  List.find (λ c, selected conversion_type (conversion_label c)) all_conversions.

(** The fixed output name of each conversion. *)
Definition output_name (c : conversion) : str :=
  match c with
  | CsvToParquet => u "output.parquet"
  | ParquetToCsv => u "output.csv"
  | CsvToJsonl => u "metadata.jsonl"
  | ParquetToJsonl => u "output.jsonl"
  | ParquetToXls => u "output.xlsx"
  end.

Definition format_label (c : conversion) : str :=
  match c with
  | CsvToParquet => u "Parquet"
  | ParquetToCsv => u "CSV"
  | CsvToJsonl | ParquetToJsonl => u "JSONL"
  | ParquetToXls => u "XLS"
  end.

Definition run_conversion `{UnicodeData, Pandas, Openpyxl, Network}
    (c : conversion) (src : option source_file) (parquet_url : option str)
    : M outcome :=
  match c with
  | CsvToParquet => csv_to_parquet src
  | ParquetToCsv => parquet_to_csv src
  | CsvToJsonl => csv_to_jsonl src
  | ParquetToJsonl => parquet_to_jsonl src parquet_url
  | ParquetToXls => parquet_to_xls src parquet_url
  end.

Definition dispatch_by_type `{UnicodeData, Pandas, Openpyxl, Network}
    (conversion_type : option str) (src : option source_file)
    (parquet_url : option str) : M outcome :=
  match conversion_of conversion_type with
  | Some c => run_conversion c src parquet_url
  | None => raise (ValueError invalid_type_message)
  end.

(** ** Concrete libraries for running the model

    Stand-ins with which the definitions above evaluate: a Unicode
    database that is only consulted outside ASCII, a pandas whose readers
    know a given set of files, an openpyxl that refuses what the real one
    refuses, and a network that serves a given set of URLs. *)

Definition plain_unicode : UnicodeData :=
  {| isprintable := λ c, (0xA0 <? c)%N; unicode_lower := λ s, s |}.

Record frame := Frame {
  frame_columns : list str;
  frame_rows : list (list pyval);
}.

Definition lookup_file {A} (files : list (bytes * A)) (data : bytes) : option A :=
  match List.find (λ p, bool_decide (map Byte.to_N p.1 = map Byte.to_N data)) files with
  | Some p => Some p.2
  | None => None
  end.

Definition labelled (f : frame) : list (list (str * pyval)) :=
  map (λ r, combine (frame_columns f) r) (frame_rows f).

Definition table_pandas (csv_files parquet_files : list (bytes * frame)) : Pandas :=
  {| DataFrame := frame;
     read_csv data _ :=
       match lookup_file csv_files data with
       | Some f => Ok f
       | None => Raise (LibraryError "pandas.read_csv")
       end;
     read_parquet data :=
       match lookup_file parquet_files data with
       | Some f => Ok f
       | None => Raise (LibraryError "pandas.read_parquet")
       end;
     to_parquet f := Ok [x50; x41; x52; x31];
     to_csv f := Ok [];
     df_columns := frame_columns;
     iterrows := labelled;
     to_dict_records := labelled;
     itertuples := frame_rows;
     head_to_string f := [] |}.

(** openpyxl accepts numbers, text, booleans and [None] as cell values,
    and text only if it is free of the characters the sanitizer strips. *)
Definition cell_ok (v : pyval) : bool :=
  match v with
  | PNone | PBool _ | PInt _ | PFloat _ => true
  | PStr s => forallb (λ c, negb (illegal_char c)) s
  | _ => false
  end.

Definition strict_openpyxl : Openpyxl :=
  {| save_workbook rows :=
       if forallb (forallb cell_ok) rows
       then Ok [x50; x4b]
       else Raise (LibraryError "openpyxl") |}.

(** The text begins with the prefix. *)
Fixpoint starts_with (prefix s : str) : bool :=
  match prefix, s with
  | [], _ => true
  | p :: prefix', c :: s' => (p =? c)%N && starts_with prefix' s'
  | _ :: _, [] => false
  end.

(** A network that answers the URLs it serves.  Of the others, one that
    begins [http://] or [https://] is requested and goes unanswered; any
    other is refused before a request is made, for a scheme without an
    adapter when it has a colon and for its missing scheme when not. *)
Definition table_network (served : list (str * response)) : Network :=
  {| http_get url :=
       match List.find (λ p, str_eqb p.1 url) served with
       | Some p => Some p.2
       | None => None
       end;
     http_failure url :=
       if starts_with (u "http://") url || starts_with (u "https://") url
       then (ConnectionError url, true)
       else if existsb (λ c, c =? 58)%N url
       then (RequestException "InvalidSchema", false)
       else (RequestException "MissingSchema", false) |}.

Definition empty_world : world := World ∅ [].

(** ** Vocabulary of the properties *)

(** The line feeds and tabs of the input of the sanitizer: those of the
    text itself, of the raw bytes, or of the textual representation. *)
Definition input_newlines_tabs `{UnicodeData} (val : pyval) : str :=
  match val with
  | PStr s => newlines_tabs s
  | PBytes b => newlines_tabs (map Byte.to_N b)
  | _ => newlines_tabs (py_str val)
  end.

Definition is_dict_or_list (v : pyval) : bool :=
  match v with PDict _ | PList _ => true | _ => false end.

(** The input can be read: it is absent, an open file object, or a path
    to a file on the disk. *)
Definition readable (w : world) (input_file : option file_input) : bool :=
  match input_file with
  | Some (FilePath path) => bool_decide (is_Some (disk w !! path))
  | _ => true
  end.

(** The two conversions that take their table from a file or a URL. *)
Definition accepts_url (c : conversion) : bool :=
  match c with ParquetToJsonl | ParquetToXls => true | _ => false end.

Definition type_of (c : conversion) : option str := Some (u (conversion_label c)).

Definition missing_source_message (c : conversion) : str :=
  u "For " ++ u (conversion_label c)
    ++ u " conversion, please upload a file or provide a URL. " ++ globe_emoji.

(** The extension each conversion insists on, if it checks one. *)
Definition required_extension (c : conversion) : option str :=
  match c with
  | CsvToParquet | CsvToJsonl => Some (u "csv")
  | ParquetToCsv => Some (u "parquet")
  | ParquetToJsonl | ParquetToXls => None
  end.

Definition upload_message (c : conversion) : str :=
  u "For " ++ u (conversion_label c) ++ u " conversion, please upload a "
    ++ match c with ParquetToCsv => u "Parquet" | _ => u "CSV" end
    ++ u " file. " ++ page_emoji.

(** A small table, as file content and as the frame pandas reads from it. *)
Definition animals_csv : bytes :=
  map byte_of (u "file_name,label
a.png,cat
b.png,dog
").

Definition animals : frame :=
  Frame [u "file_name"; u "label"]
        [[PStr (u "a.png"); PStr (u "cat")]; [PStr (u "b.png"); PStr (u "dog")]].

Definition numbers_csv : bytes :=
  map byte_of (u "label,score
cat,1.5
").

Definition numbers : frame :=
  Frame [u "label"; u "score"]
        [[PStr (u "cat"); PFloat (FFinite false 1 (Decimal.D5 Decimal.Nil) None)]].

Definition demo_pandas : Pandas :=
  table_pandas [(animals_csv, animals); (numbers_csv, numbers)] [].

(** ** Vocabulary of the JSONL properties *)

(** The bytes that [write_json_lines] appends, and how the loop ends: the
    lines of the items up to the first one that cannot be serialized or
    encoded. *)
Fixpoint encode_lines (ensure_ascii : bool) (prepare : pyval → pyval)
    (items : list pyval) : bytes * result unit :=
  match items with
  | [] => ([], Ok tt)
  | item :: rest =>
    match json_dumps ensure_ascii (prepare item) with
    | None => ([], Raise TypeError)
    | Some line =>
      match utf8_encode (line ++ [10%N]) with
      | None => ([], Raise UnicodeEncodeError)
      | Some data =>
        let more := encode_lines ensure_ascii prepare rest in
        (data ++ more.1, more.2)
      end
    end
  end.

(** Some text of the value, as a dictionary key or as a value at any
    depth, has a character outside ASCII. *)
Fixpoint has_non_ascii (v : pyval) : bool :=
  match v with
  | PStr s => existsb (λ c, 128 <=? c)%N s
  | PList l | PTuple l => existsb has_non_ascii l
  | PDict d =>
    existsb (λ kv, match kv with
                   | (k, x) => has_non_ascii k || has_non_ascii x
                   end) d
  | _ => false
  end.

Definition is_ascii (s : str) : Prop := Forall (λ c, c < 128)%N s.

Definition non_ascii (c : N) : Prop := (128 ≤ c)%N.

(** Printable ASCII: U+0020 to U+007E. *)
Definition is_plain (s : str) : Prop := Forall (λ c, 32 ≤ c ≤ 126)%N s.

(** The lines of a file: the pieces between line feeds, the last line
    feed ending the last line. *)
Fixpoint file_lines (data : list N) : list (list N) :=
  match data with
  | [] => []
  | c :: r =>
    if (c =? 10)%N then [] :: file_lines r
    else match file_lines r with
         | [] => [[c]]
         | l :: ls => (c :: l) :: ls
         end
  end.

(** A literal between double quotes. *)
Definition quoted (s : string) : str := 34%N :: u s ++ [34%N].

(** [row[column]] when it is defined. *)
Definition series_value (row : Series) (column : str) : pyval :=
  match series_getitem row column with
  | Ok x => x
  | Raise _ => PNone
  end.

(** The keys of a dictionary after assigning the labels in order: a
    repeated label keeps its first position. *)
Definition merge_labels (seen labels : list str) : list str :=
  fold_left (λ acc c, if bool_decide (c ∈ acc) then acc else acc ++ [c])
            labels seen.

Definition distinct_labels (labels : list str) : list str :=
  merge_labels [] labels.

(** The full column-to-value mapping of a row. *)
Definition row_mapping (columns : list str) (row : Series)
    : list (pyval * pyval) :=
  map (λ c, (PStr c, series_value row c)) (distinct_labels columns).

(** The value of the column named [file_name], [None] without one. *)
Definition row_file_name (columns : list str) (row : Series) : pyval :=
  if bool_decide (u "file_name" ∈ columns)
  then series_value row (u "file_name")
  else PNone.

(** The line written for a row: every column is read from the row, the
    mapping is serialized to [ground_truth], and the line is the
    serialization of the two-key dictionary. *)
Definition row_line (columns : list str) (row : Series) (line : str) : Prop :=
  Forall (λ c, series_getitem row c = Ok (series_value row c)) columns
  ∧ ∃ ground_truth,
      json_dumps true (PDict (row_mapping columns row)) = Some ground_truth
      ∧ json_dumps true
          (PDict [(PStr (u "file_name"), row_file_name columns row);
                  (PStr (u "ground_truth"), PStr ground_truth)])
        = Some line.

(** A tabular file with a nullable list column, as pyarrow hands it to
    pandas: a missing list is [None], a list is a [numpy.ndarray]. *)
Definition tags_parquet : bytes := [x50; x41; x52; x31].

Definition tags : frame :=
  Frame [u "name"; u "tags"]
        [[PStr (u "a"); PNone];
         [PStr (u "b"); PObj "numpy.ndarray" (u "array(['x'], dtype=object)")]].

Definition tags_pandas : Pandas := table_pandas [] [(tags_parquet, tags)].

(** ** JSON texts (RFC 8259)

    The properties of the JSONL output speak of lines that parse as JSON.
    This is the grammar of the standard: the tokens [NaN], [Infinity] and
    [-Infinity], which [json.dumps] writes for non-finite floats, are not
    part of it. *)

(** A JSON value.  A number keeps the parts of its literal; a string is a
    sequence of UTF-16 code units, the unit of the [\uXXXX] escape. *)
#[warnings="-register-all"]
Inductive json :=
| JNull
| JBool (b : bool)
| JNumber (negative : bool) (int_part : N) (frac : Decimal.uint) (exp : option Z)
| JString (units : list N)
| JArray (items : list json)
| JObject (members : list (list N * json)).

Section JsonParse.
Local Open Scope N_scope.

Definition is_ws (c : N) : bool :=
  (c =? 32) || (c =? 9) || (c =? 10) || (c =? 13).

Fixpoint skip_ws (s : str) : str :=
  match s with
  | c :: r => if is_ws c then skip_ws r else s
  | [] => []
  end.

Definition is_digit (c : N) : bool := (48 <=? c) && (c <=? 57).

Definition cons_digit (c : N) (d : Decimal.uint) : Decimal.uint :=
  if c =? 48 then Decimal.D0 d
  else if c =? 49 then Decimal.D1 d
  else if c =? 50 then Decimal.D2 d
  else if c =? 51 then Decimal.D3 d
  else if c =? 52 then Decimal.D4 d
  else if c =? 53 then Decimal.D5 d
  else if c =? 54 then Decimal.D6 d
  else if c =? 55 then Decimal.D7 d
  else if c =? 56 then Decimal.D8 d
  else Decimal.D9 d.

(** The longest run of digits at the head of the text. *)
Fixpoint take_digits (s : str) : Decimal.uint * str :=
  match s with
  | c :: r =>
    if is_digit c
    then let dr := take_digits r in (cons_digit c dr.1, dr.2)
    else (Decimal.Nil, s)
  | [] => (Decimal.Nil, [])
  end.

(** An integer part is [0] or starts with a non-zero digit. *)
Definition int_digits_ok (d : Decimal.uint) : bool :=
  match d with
  | Decimal.Nil => false
  | Decimal.D0 Decimal.Nil => true
  | Decimal.D0 _ => false
  | _ => true
  end.

Definition parse_frac (s : str) : option (Decimal.uint * str) :=
  match s with
  | c :: r =>
    if c =? 46 then
      let dr := take_digits r in
      match dr.1 with
      | Decimal.Nil => None
      | _ => Some dr
      end
    else Some (Decimal.Nil, s)
  | [] => Some (Decimal.Nil, [])
  end.

Definition parse_exp_digits (negative : bool) (s : str) : option (option Z * str) :=
  let dr := take_digits s in
  match dr.1 with
  | Decimal.Nil => None
  | d =>
    let n := Z.of_N (N.of_uint d) in
    Some (Some (if negative then (- n)%Z else n), dr.2)
  end.

Definition parse_exp (s : str) : option (option Z * str) :=
  match s with
  | c :: r =>
    if (c =? 101) || (c =? 69) then
      match r with
      | sign :: r' =>
        if sign =? 45 then parse_exp_digits true r'
        else if sign =? 43 then parse_exp_digits false r'
        else parse_exp_digits false r
      | [] => None
      end
    else Some (None, s)
  | [] => Some (None, [])
  end.

Definition parse_number (s : str) : option (json * str) :=
  let signed :=
    match s with
    | c :: r => if c =? 45 then (true, r) else (false, s)
    | [] => (false, [])
    end in
  let int_rest := take_digits signed.2 in
  if int_digits_ok int_rest.1 then
    match parse_frac int_rest.2 with
    | Some (frac, s2) =>
      match parse_exp s2 with
      | Some (e, s3) => Some (JNumber signed.1 (N.of_uint int_rest.1) frac e, s3)
      | None => None
      end
    | None => None
    end
  else None.

Definition hex_value (c : N) : option N :=
  if is_digit c then Some (c - 48)
  else if (97 <=? c) && (c <=? 102) then Some (c - 87)
  else if (65 <=? c) && (c <=? 70) then Some (c - 55)
  else None.

Definition parse_hex4 (s : str) : option (N * str) :=
  match s with
  | a :: b :: c :: d :: r =>
    match hex_value a, hex_value b, hex_value c, hex_value d with
    | Some x, Some y, Some z, Some t => Some (((x * 16 + y) * 16 + z) * 16 + t, r)
    | _, _, _, _ => None
    end
  | _ => None
  end.

Definition unescape (e : N) : option N :=
  if e =? 34 then Some 34
  else if e =? 92 then Some 92
  else if e =? 47 then Some 47
  else if e =? 98 then Some 8
  else if e =? 102 then Some 12
  else if e =? 110 then Some 10
  else if e =? 114 then Some 13
  else if e =? 116 then Some 9
  else None.

(** The UTF-16 code units of a character; units are 16 bits wide. *)
Definition utf16_units (c : N) : list N :=
  if c <? 0x10000 then [c]
  else [(0xD800 + (c - 0x10000) / 1024) mod 0x10000;
        0xDC00 + (c - 0x10000) mod 1024].

Definition utf16 (s : str) : list N := concat (map utf16_units s).

(** The characters of a string, after the opening quote and up to the
    closing one; control characters must be escaped. *)
Fixpoint parse_chars (s : str) : option (list N * str) :=
  match s with
  | [] => None
  | c :: r =>
    if c =? 34 then Some ([], r)
    else if c =? 92 then
      match r with
      | [] => None
      | e :: r' =>
        if e =? 117 then
          match r' with
          | a :: b :: x :: d :: r'' =>
            match parse_hex4 [a; b; x; d], parse_chars r'' with
            | Some (unit, _), Some (units, rest) => Some (unit :: units, rest)
            | _, _ => None
            end
          | _ => None
          end
        else
          match unescape e, parse_chars r' with
          | Some x, Some (units, rest) => Some (x :: units, rest)
          | _, _ => None
          end
      end
    else if c <? 32 then None
    else
      match parse_chars r with
      | Some (units, rest) => Some (utf16_units c ++ units, rest)
      | None => None
      end
  end.

Fixpoint strip_prefix (prefix s : str) : option str :=
  match prefix, s with
  | [], _ => Some s
  | p :: ps, c :: r => if p =? c then strip_prefix ps r else None
  | _ :: _, [] => None
  end.

Definition parse_literal (word : string) (value : json) (s : str)
    : option (json * str) :=
  match strip_prefix (u word) s with
  | Some rest => Some (value, rest)
  | None => None
  end.

(** Values, the items of an array after its bracket, and the members of
    an object after its brace.  The fuel bounds the work; the length of
    the text is enough. *)
Fixpoint parse_value (fuel : nat) (s : str) : option (json * str) :=
  match fuel with
  | O => None
  | S fuel =>
    match skip_ws s with
    | [] => None
    | c :: r =>
      if c =? 34 then
        match parse_chars r with
        | Some (units, rest) => Some (JString units, rest)
        | None => None
        end
      else if c =? 91 then
        match skip_ws r with
        | c' :: r' =>
          if c' =? 93 then Some (JArray [], r')
          else match parse_items fuel r with
               | Some (items, rest) => Some (JArray items, rest)
               | None => None
               end
        | [] => None
        end
      else if c =? 123 then
        match skip_ws r with
        | c' :: r' =>
          if c' =? 125 then Some (JObject [], r')
          else match parse_members fuel r with
               | Some (members, rest) => Some (JObject members, rest)
               | None => None
               end
        | [] => None
        end
      else if c =? 110 then parse_literal "null" JNull (c :: r)
      else if c =? 116 then parse_literal "true" (JBool true) (c :: r)
      else if c =? 102 then parse_literal "false" (JBool false) (c :: r)
      else parse_number (c :: r)
    end
  end
with parse_items (fuel : nat) (s : str) : option (list json * str) :=
  match fuel with
  | O => None
  | S fuel =>
    match parse_value fuel s with
    | Some (item, rest) =>
      match skip_ws rest with
      | c :: r =>
        if c =? 44 then
          match parse_items fuel r with
          | Some (items, rest') => Some (item :: items, rest')
          | None => None
          end
        else if c =? 93 then Some ([item], r)
        else None
      | [] => None
      end
    | None => None
    end
  end
with parse_members (fuel : nat) (s : str)
    : option (list (list N * json) * str) :=
  match fuel with
  | O => None
  | S fuel =>
    match skip_ws s with
    | q :: r =>
      if q =? 34 then
        match parse_chars r with
        | Some (key, rest) =>
          match skip_ws rest with
          | colon :: r1 =>
            if colon =? 58 then
              match parse_value fuel r1 with
              | Some (value, rest1) =>
                match skip_ws rest1 with
                | c :: r2 =>
                  if c =? 44 then
                    match parse_members fuel r2 with
                    | Some (members, rest') => Some ((key, value) :: members, rest')
                    | None => None
                    end
                  else if c =? 125 then Some ([(key, value)], r2)
                  else None
                | [] => None
                end
              | None => None
              end
            else None
          | [] => None
          end
        | None => None
        end
      else None
    | [] => None
    end
  end.

(** A whole text: one value, then nothing but white space. *)
Definition json_loads (s : str) : option json :=
  match parse_value (S (List.length s)) s with
  | Some (value, rest) =>
    match skip_ws rest with
    | [] => Some value
    | _ :: _ => None
    end
  | None => None
  end.
End JsonParse.

(** The JSON value a Python value is serialized as; none for a value
    that has no encoding, or whose encoding is not JSON (a non-finite
    float). *)
Fixpoint to_json (v : pyval) : option json :=
  match v with
  | PNone => Some JNull
  | PBool b => Some (JBool b)
  | PInt z => Some (JNumber (z <? 0)%Z (Z.abs_N z) Decimal.Nil None)
  | PFloat (FFinite negative i frac e) => Some (JNumber negative i frac e)
  | PFloat _ => None
  | PStr s => Some (JString (utf16 s))
  | PList l | PTuple l =>
    match sequence_opt (map to_json l) with
    | Some items => Some (JArray items)
    | None => None
    end
  | PDict d =>
    match sequence_opt
            (map (λ kv, match kv with
                        | (k, x) =>
                          match json_key k, to_json x with
                          | Some ks, Some j => Some (utf16 ks, j)
                          | _, _ => None
                          end
                        end) d) with
    | Some members => Some (JObject members)
    | None => None
    end
  | PBytes _ | PObj _ _ => None
  end.

(** No float of the value, at any depth, is NaN or an infinity. *)
Fixpoint all_finite (v : pyval) : bool :=
  match v with
  | PFloat FNaN | PFloat (FInf _) => false
  | PList l | PTuple l => forallb all_finite l
  | PDict d => forallb (λ kv, match kv with (_, x) => all_finite x end) d
  | _ => true
  end.

(** A literal between escaped double quotes, as inside a JSON string. *)
Definition escaped_quoted (s : string) : str :=
  [92%N; 34%N] ++ u s ++ [92%N; 34%N].

(** A table with an empty cell, as file content and as the frame pandas
    reads from it: the missing value is a float NaN. *)
Definition unnamed_csv : bytes :=
  map byte_of (u "file_name,label
,cat
").

Definition unnamed : frame :=
  Frame [u "file_name"; u "label"] [[PFloat FNaN; PStr (u "cat")]].

Definition unnamed_pandas : Pandas := table_pandas [(unnamed_csv, unnamed)] [].

(** What may follow a value inside the encoder's output: the end of the
    text, a comma, or a closing bracket or brace. *)
Definition ends_value (rest : str) : Prop :=
  match rest with
  | [] => True
  | c :: _ => c = 44%N ∨ c = 93%N ∨ c = 125%N
  end.

Definition no_digit_ahead (rest : str) : Prop :=
  match rest with
  | [] => True
  | c :: _ => is_digit c = false
  end.

(** Reading back: the encoding of a value, followed by something that
    may follow a value, parses as the JSON value of the value. *)
Definition reads_back (x : pyval) : Prop :=
  ∀ enc j rest fuel,
    json_encode true x = Some enc → to_json x = Some j →
    ends_value rest → (List.length enc ≤ fuel)%nat →
    parse_value fuel (enc ++ rest) = Some (j, rest).

(** ** What a computation may change in the world *)

(** [keeps R m]: every run of [m], successful or not, relates the world
    before to the world after. *)
Definition keeps {A} (R : relation world) (m : M A) : Prop :=
  ∀ w r w', m w = (r, w') → R w w'.

Definition same_log : relation world := λ w w', net_log w' = net_log w.
Definition same_disk : relation world := λ w w', disk w' = disk w.
Definition same_elsewhere (path : str) : relation world :=
  λ w w', ∀ p, p ≠ path → disk w' !! p = disk w !! p.

(** Two URLs for concrete runs. *)
Definition not_found_url : str := u "https://example.org/missing.parquet".
Definition not_modified_url : str := u "https://example.org/cached.parquet".

(** [t] occurs in [s] as a contiguous piece. *)
Definition occurs_in (t s : str) : Prop := ∃ before after, s = before ++ t ++ after.

(** ** Vocabulary of the further properties *)

(** The name a request shows as its input file: the name of the file
    object, the path, or the fixed name of a table fetched from a URL. *)
Definition input_name (input_file : option file_input) : str :=
  match input_file with
  | Some (FileObject name _) => name
  | Some (FilePath path) => path
  | None => u "from_url.parquet"
  end.

(** The world after a run that wrote [written] (if anything) to [path]
    and fetched the URLs [fetched]. *)
Definition world_after (w : world) (path : str) (written : option bytes)
    (fetched : list str) : world :=
  World (match written with
         | Some data => <[path := data]> (disk w)
         | None => disk w
         end)
        (net_log w ++ fetched).

(** The input is not a path to be opened. *)
Definition in_memory (input_file : option file_input) : bool :=
  match input_file with
  | Some (FilePath _) => false
  | _ => true
  end.

(** A Unicode scalar value: a code point up to U+10FFFF that is not a
    surrogate.  These are the code points UTF-8 encodes. *)
Definition is_scalar (c : N) : bool :=
  (c <? 0x110000)%N && negb (is_surrogate c).

(** A text the sanitizer has nothing to remove from. *)
Definition legal (s : str) : Prop := Forall (λ c, illegal_char c = false) s.

(** Every object of a class of its own inside the value, at any depth
    and in any position, prints without a character the sanitizer
    strips. *)
Fixpoint clean_objects (v : pyval) : bool :=
  match v with
  | PObj _ r => forallb (λ c, negb (illegal_char c)) r
  | PList l | PTuple l => forallb clean_objects l
  | PDict d =>
    forallb (λ kv, match kv with
                   | (k, x) => clean_objects k && clean_objects x
                   end) d
  | _ => true
  end.

(** Reading back with either encoder: the encoding of a value, followed
    by something that may follow a value, parses as the JSON value of
    the value. *)
Definition reads_back_as (ensure_ascii : bool) (x : pyval) : Prop :=
  ∀ enc j rest fuel,
    json_encode ensure_ascii x = Some enc → to_json x = Some j →
    ends_value rest → (List.length enc ≤ fuel)%nat →
    parse_value fuel (enc ++ rest) = Some (j, rest).

(** A dictionary key that [json.dumps] accepts and whose text can be
    written to a UTF-8 file. *)
Definition plain_key (k : pyval) : bool :=
  match json_key k with
  | Some text => forallb is_scalar text
  | None => false
  end.

(** The values [recursive_sanitize] makes serializable and writable:
    [None], booleans, numbers, text without lone surrogates, bytes, and
    lists and dictionaries of these. *)
Fixpoint plain_data (v : pyval) : bool :=
  match v with
  | PNone | PBool _ | PInt _ | PFloat _ | PBytes _ => true
  | PStr s => forallb is_scalar s
  | PList l => forallb plain_data l
  | PDict d =>
    forallb (λ kv, match kv with (k, x) => plain_key k && plain_data x end) d
  | PTuple _ | PObj _ _ => false
  end.

(** The cells [sanitize_value] turns into a number, a boolean, [None]
    or text: anything but a tuple or an object of another class. *)
Definition plain_cell (v : pyval) : bool :=
  match v with
  | PTuple _ | PObj _ _ => false
  | _ => true
  end.

(** Where the table of a URL conversion comes from. *)
Definition table_source `{Pandas, Network} (src : option source_file)
    (parquet_url : option str) (df : DataFrame) : Prop :=
  match src with
  | Some s => read_parquet (file_bytes s) = Ok df
  | None =>
    ∃ url r, truthy parquet_url = Some url ∧ http_get url = Some r
             ∧ raise_for_status r = Ok tt
             ∧ read_parquet (content r) = Ok df
  end.

(** A Parquet file with a text and a bytes cell, and where it is served. *)
Definition notes_parquet : bytes := [x50; x41; x52; x31; x00].

Definition notes : frame :=
  Frame [u "id"; u "note"]
        [[PInt 1; PStr [0x63; 0x61; 0x66; 0xE9]%N];
         [PInt 2; PBytes [x68; x07; x69]]].

Definition notes_pandas : Pandas :=
  table_pandas [(animals_csv, animals)] [(notes_parquet, notes)].

Definition notes_url : str := u "https://example.org/notes.parquet".

Definition notes_network : Network :=
  table_network [(notes_url, Response 200 notes_parquet)].

(** The same table under a column label that holds a bell character. *)
Definition alarms : frame :=
  Frame [u "id"; [0x62; 0x07]%N] (frame_rows notes).

Definition alarms_pandas : Pandas := table_pandas [] [(notes_parquet, alarms)].

(** The escapes [json.dumps] writes for a character outside ASCII: one
    [\uXXXX], or the two of a surrogate pair beyond U+FFFF. *)
Definition unicode_escapes (c : N) : list str :=
  if (c <? 0x10000)%N then [u_escape c]
  else [u_escape (0xD800 + (c - 0x10000) / 1024);
        u_escape (0xDC00 + (c - 0x10000) mod 1024)]%N.

(** A CSV file in Latin-1 with an accent in a column label and in a
    cell, and the table pandas reads from it. *)
Definition cafes_csv : bytes :=
  map byte_of (u "file_name,caf") ++ [xe9; x0a]
  ++ map byte_of (u "a.png,cr") ++ [xe8] ++ map byte_of (u "me") ++ [x0a].

Definition cafes : frame :=
  Frame [u "file_name"; [0x63; 0x61; 0x66; 0xE9]%N]
        [[PStr (u "a.png"); PStr [0x63; 0x72; 0xE8; 0x6D; 0x65]%N]].

Definition cafes_pandas : Pandas :=
  table_pandas [(cafes_csv, cafes)] [(notes_parquet, notes)].
(** * Properties *)

(** ** Text, bytes and numbers *)

Lemma str_eqb_eq a b : str_eqb a b = true ↔ a = b.
Proof. unfold str_eqb. apply bool_decide_eq_true. Qed.

Lemma str_eqb_neq a b : str_eqb a b = false ↔ a ≠ b.
Proof. unfold str_eqb. apply bool_decide_eq_false. Qed.

Example utf8_decode_euro :
  utf8_decode_replace [xe2; x82; xac; x41] = [0x20AC; 0x41]%N.
Proof. reflexivity. Qed.

Example utf8_decode_truncated :
  utf8_decode_replace [x41; xe2; x82] = [0x41; 0xFFFD]%N.
Proof. reflexivity. Qed.

Example utf8_decode_broken :
  utf8_decode_replace [xe2; x82; x0a; xff; x09] = [0xFFFD; 0x0A; 0xFFFD; 0x09]%N.
Proof. reflexivity. Qed.

Example utf8_encode_euro :
  utf8_encode [0x20AC; 0x41]%N = Some [xe2; x82; xac; x41].
Proof. reflexivity. Qed.

Example int_repr_neg : int_repr (-120) = u "-120".
Proof. reflexivity. Qed.

Example float_repr_sci :
  float_repr (FFinite false 1 (Decimal.D5 Decimal.Nil) (Some (-7)%Z)) = u "1.5e-07".
Proof. reflexivity. Qed.

Example hex4_eacute : hex4 0xE9 = u "00e9".
Proof. reflexivity. Qed.

(** ** Facts about the sanitizer's building blocks *)

Section StripFacts.
Local Open Scope N_scope.

Lemma strip_illegal_legal s :
  Forall (λ c, illegal_char c = false) (strip_illegal s).
Proof.
  unfold strip_illegal. induction s as [|c s IH]; simpl.
  - constructor.
  - destruct (illegal_char c) eqn:E; simpl; [done|].
    constructor; done.
Qed.

Lemma strip_illegal_idem s : strip_illegal (strip_illegal s) = strip_illegal s.
Proof.
  unfold strip_illegal. induction s as [|c s IH]; simpl; [done|].
  destruct (illegal_char c) eqn:E; simpl; [done|].
  by rewrite E, IH.
Qed.

Lemma newlines_tabs_strip s : newlines_tabs (strip_illegal s) = newlines_tabs s.
Proof.
  unfold newlines_tabs, strip_illegal.
  induction s as [|c s IH]; simpl; [done|].
  destruct (illegal_char c) eqn:E; simpl.
  - assert ((c =? 10) || (c =? 9) = false) as ->; [|done].
    unfold illegal_char in E.
    destruct (N.eqb_spec c 10) as [->|]; [done|].
    destruct (N.eqb_spec c 9) as [->|]; done.
  - by rewrite IH.
Qed.

Lemma newlines_tabs_high c s :
  0x80 <= c → newlines_tabs (c :: s) = newlines_tabs s.
Proof.
  intros Hc. unfold newlines_tabs. simpl.
  destruct (N.eqb_spec c 10); [lia|].
  destruct (N.eqb_spec c 9); [lia|]. done.
Qed.

Lemma newlines_tabs_cons c s t :
  newlines_tabs s = newlines_tabs t →
  newlines_tabs (c :: s) = newlines_tabs (c :: t).
Proof.
  unfold newlines_tabs. simpl. intros ->. done.
Qed.

Ltac split_numeric_tests :=
  repeat match goal with
  | H : (_ <? _) = true |- _ => apply N.ltb_lt in H
  | H : (_ <? _) = false |- _ => apply N.ltb_ge in H
  | H : (_ <=? _) = true |- _ => apply N.leb_le in H
  | H : (_ <=? _) = false |- _ => apply N.leb_gt in H
  | H : (_ =? _) = true |- _ => apply N.eqb_eq in H
  | H : (_ =? _) = false |- _ => apply N.eqb_neq in H
  | H : (_ && _) = true |- _ => apply andb_true_iff in H as [? ?]
  | H : negb _ = true |- _ => apply negb_true_iff in H
  end.

(** Decoding neither adds nor drops line feeds and tabs: an ASCII byte
    is never swallowed by a broken sequence, and every code point that a
    multi-byte sequence or a replacement produces is above U+007F. *)
Lemma newlines_tabs_decode bs :
  newlines_tabs (utf8_decode_replace bs) = newlines_tabs (map Byte.to_N bs).
Proof.
  remember (List.length bs) as n eqn:Hn.
  revert bs Hn. induction n as [n IH] using lt_wf_ind. intros bs Hn.
  assert (Hrec : ∀ r, (List.length r < List.length bs)%nat →
    newlines_tabs (utf8_decode_replace r) = newlines_tabs (map Byte.to_N r)).
  { intros r Hr. eapply IH; [|reflexivity]. lia. }
  clear IH Hn.
  destruct bs as [|b0 r0]; [done|].
  cbn [utf8_decode_replace map].
  destruct (Byte.to_N b0 <? 0x80) eqn:E0.
  { apply newlines_tabs_cons, Hrec. simpl; lia. }
  assert (Hhigh0 : 0x80 <= Byte.to_N b0) by (apply N.ltb_ge; done).
  rewrite (newlines_tabs_high (Byte.to_N b0)) by done.
  assert (HR : newlines_tabs (REPLACEMENT :: utf8_decode_replace r0)
               = newlines_tabs (map Byte.to_N r0)).
  { rewrite newlines_tabs_high by (unfold REPLACEMENT; lia).
    apply Hrec. simpl; lia. }
  assert (HE : newlines_tabs [REPLACEMENT] = newlines_tabs []).
  { apply newlines_tabs_high. unfold REPLACEMENT; lia. }
  destruct (Byte.to_N b0 <? 0xC2) eqn:E1; [done|].
  destruct (Byte.to_N b0 <? 0xE0) eqn:E2.
  { destruct r0 as [|b1 r1]; [done|].
    destruct (is_continuation (Byte.to_N b1)) eqn:C1; [|done].
    unfold is_continuation in C1. split_numeric_tests.
    cbn [map]. rewrite !newlines_tabs_high; [|lia|unfold cp2; lia].
    apply Hrec. simpl; lia. }
  destruct (Byte.to_N b0 <? 0xF0) eqn:E3.
  { destruct r0 as [|b1 r1]; [done|].
    destruct (second_of_3 (Byte.to_N b0) (Byte.to_N b1)) eqn:C1; [|done].
    unfold second_of_3, is_continuation in C1. split_numeric_tests.
    assert (Hhigh1 : 0x80 <= Byte.to_N b1) by lia.
    assert (HR1 : newlines_tabs (REPLACEMENT :: utf8_decode_replace r1)
               = newlines_tabs (map Byte.to_N r1)).
    { rewrite newlines_tabs_high by (unfold REPLACEMENT; lia).
      apply Hrec. simpl; lia. }
    cbn [map]. rewrite (newlines_tabs_high (Byte.to_N b1)) by done.
    destruct r1 as [|b2 r2]; [done|].
    destruct (is_continuation (Byte.to_N b2)) eqn:C2; [|done].
    unfold is_continuation in C2. split_numeric_tests.
    cbn [map]. rewrite !newlines_tabs_high; [apply Hrec; simpl; lia|lia|].
    unfold cp3.
    destruct (Byte.to_N b1 <? 0xA0) eqn:EA; split_numeric_tests; lia. }
  destruct (Byte.to_N b0 <? 0xF5) eqn:E4; [|done].
  destruct r0 as [|b1 r1]; [done|].
  destruct (second_of_4 (Byte.to_N b0) (Byte.to_N b1)) eqn:C1; [|done].
  unfold second_of_4, is_continuation in C1. split_numeric_tests.
  assert (Hhigh1 : 0x80 <= Byte.to_N b1) by lia.
  assert (HR1 : newlines_tabs (REPLACEMENT :: utf8_decode_replace r1)
             = newlines_tabs (map Byte.to_N r1)).
  { rewrite newlines_tabs_high by (unfold REPLACEMENT; lia).
    apply Hrec. simpl; lia. }
  cbn [map]. rewrite (newlines_tabs_high (Byte.to_N b1)) by done.
  destruct r1 as [|b2 r2]; [done|].
  destruct (is_continuation (Byte.to_N b2)) eqn:C2; [|done].
  unfold is_continuation in C2. split_numeric_tests.
  assert (HR2 : newlines_tabs (REPLACEMENT :: utf8_decode_replace r2)
             = newlines_tabs (map Byte.to_N r2)).
  { rewrite newlines_tabs_high by (unfold REPLACEMENT; lia).
    apply Hrec. simpl; lia. }
  cbn [map]. rewrite (newlines_tabs_high (Byte.to_N b2)) by lia.
  destruct r2 as [|b3 r3]; [done|].
  destruct (is_continuation (Byte.to_N b3)) eqn:C3; [|done].
  unfold is_continuation in C3. split_numeric_tests.
  cbn [map]. rewrite !newlines_tabs_high; [apply Hrec; simpl; lia|lia|].
  unfold cp4.
  destruct (Byte.to_N b1 <? 0x90) eqn:EA; split_numeric_tests; lia.
Qed.
End StripFacts.

(** ** The sanitizer *)

(** C5. Whenever [sanitize_value] returns text, the text has no character
    in 0x00-0x08, 0x0B-0x0C, 0x0E-0x1F, and it has exactly the line feeds
    (0x0A) and tabs (0x09) of the input, in the same order. *)
Theorem sanitize_value_strips_controls `{UnicodeData} (val : pyval) (s : str) :
  sanitize_value val = PStr s →
  Forall (λ c, illegal_char c = false) s
  ∧ newlines_tabs s = input_newlines_tabs val.
Proof.
  intros Hs.
  assert (Hgen : ∀ t, newlines_tabs t = input_newlines_tabs val →
            PStr (strip_illegal t) = PStr s →
            Forall (λ c, illegal_char c = false) s
            ∧ newlines_tabs s = input_newlines_tabs val).
  { intros t Ht [= <-]. split; [apply strip_illegal_legal|].
    by rewrite newlines_tabs_strip. }
  destruct val; try discriminate.
  - by apply (Hgen s0).
  - apply (Hgen (utf8_decode_replace b)); [|done].
    apply newlines_tabs_decode.
  - by apply (Hgen (py_str (PList l))).
  - by apply (Hgen (py_str (PDict d))).
Qed.

Lemma sanitize_value_strips_controls_witness :
  Forall (λ c, illegal_char c = false) [0x61; 0x0A; 0x09; 0xFFFD; 0x62]%N
  ∧ newlines_tabs [0x61; 0x0A; 0x09; 0xFFFD; 0x62]%N
    = @input_newlines_tabs plain_unicode
        (PBytes [x61; x00; x0a; x09; x1f; xff; x62]).
Proof.
  apply (@sanitize_value_strips_controls plain_unicode
           (PBytes [x61; x00; x0a; x09; x1f; xff; x62])).
  reflexivity.
Defined.

(** C6. [sanitize_value] is idempotent. *)
Theorem sanitize_value_idempotent `{UnicodeData} (val : pyval) :
  sanitize_value (sanitize_value val) = sanitize_value val.
Proof.
  destruct val; simpl; try reflexivity; by rewrite strip_illegal_idem.
Qed.

(** C7.  The claim fails on the code, and the code is at fault: its
    comment and docstring promise that complex types are converted to a
    string, yet the test of line 32 admits only [dict] and [list].  A
    tuple comes back as the tuple it was, with its control character
    still inside, and so does the array that a list cell of a Parquet
    table is in pandas: neither is text. *)
Lemma sanitize_value_tuple_is_kept :
  (@sanitize_value plain_unicode (PTuple [PInt 1; PStr [0x07%N]])
     = PTuple [PInt 1; PStr [0x07%N]]
   ∧ ∀ s, @sanitize_value plain_unicode (PTuple [PInt 1; PStr [0x07%N]])
          ≠ PStr s)
  ∧ (@sanitize_value plain_unicode
       (PObj "numpy.ndarray" (u "array(['x'], dtype=object)"))
     = PObj "numpy.ndarray" (u "array(['x'], dtype=object)")).
Proof. split; [split; [reflexivity | intros s; discriminate] | reflexivity]. Qed.

(** Where the claim does hold: for every [dict] and every [list],
    [sanitize_value] returns text, the textual representation [str(val)]
    with the control characters in 0x00-0x08, 0x0B-0x0C, 0x0E-0x1F
    removed. *)
Lemma sanitize_value_dict_list `{UnicodeData} (val : pyval) :
  is_dict_or_list val = true →
  sanitize_value val = PStr (strip_illegal (py_str val))
  ∧ Forall (λ c, illegal_char c = false) (strip_illegal (py_str val)).
Proof.
  intros Hv. split; [|apply strip_illegal_legal].
  destruct val; try discriminate; reflexivity.
Qed.

(** The array cell at work: Parquet to XLS hands it to the sheet as it
    is, and the sheet refuses it. *)
Example parquet_to_xls_array_cell :
  @dataset_converter plain_unicode tags_pandas strict_openpyxl
     (table_network [])
     (Some (FileObject (u "tags.parquet") tags_parquet))
     (Some (u "Parquet to XLS")) None empty_world
  = (Raise (LibraryError "openpyxl"), empty_world).
Proof. reflexivity. Qed.

Example sanitize_value_list_text :
  @sanitize_value plain_unicode
     (PList [PStr (u "a"); PObj "Cell" [0x3C; 0x01; 0x3E]%N; PInt 2])
  = PStr (u "['a', <>, 2]").
Proof. reflexivity. Qed.

Example sanitize_value_dict_text :
  @sanitize_value plain_unicode
     (PDict [(PStr (u "k"), PStr [0x61; 0x00; 0x0A]%N); (PInt 1, PNone)])
  = PStr (u "{'k': 'a\x00\n', 1: None}").
Proof. reflexivity. Qed.

(** ** Resolver and dispatch *)

Ltac run_monad :=
  cbv beta iota delta [bind ret raise lift read_input read_file] in *.

Section Dispatch.
Context `{UnicodeData, Pandas, Openpyxl, Network}.

Lemma conversion_of_label c : conversion_of (type_of c) = Some c.
Proof. by destruct c. Qed.

(** The chain of comparisons of the source is the switch of the
    specification. *)
Lemma run_selected_dispatch src t url :
  run_selected src t url = dispatch_by_type t src url.
Proof.
  unfold run_selected, dispatch_by_type, conversion_of, all_conversions.
  cbn [List.find conversion_label].
  repeat case_match; simplify_eq; reflexivity.
Qed.

Lemma resolve_input_readable input w :
  readable w input = true →
  ∃ src, resolve_input input w = (Ok src, w).
Proof.
  destruct input as [[name data|path]|]; simpl; intros Hr.
  - eexists. reflexivity.
  - apply bool_decide_eq_true in Hr as [data Hd].
    unfold resolve_input. run_monad. rewrite Hd. eexists. reflexivity.
  - eexists. reflexivity.
Qed.

Lemma resolve_input_world input w r w' :
  resolve_input input w = (r, w') → w' = w.
Proof.
  destruct input as [[name data|path]|]; unfold resolve_input; run_monad.
  - by intros [= _ <-].
  - destruct (disk w !! path); by intros [= _ <-].
  - by intros [= _ <-].
Qed.
End Dispatch.

(** C2, as stated, fails when the input is a path that cannot be opened:
    the resolver runs before the dispatch and its error wins. *)
Lemma unknown_type_unreadable_path :
  @dataset_converter plain_unicode (table_pandas [] []) strict_openpyxl
     (table_network [])
     (Some (FilePath (u "missing.csv"))) (Some (u "XML to CSV")) None empty_world
  = (Raise (FileNotFoundError (u "missing.csv")), empty_world)
  ∧ is_InvalidInput (FileNotFoundError (u "missing.csv")) = false.
Proof. split; reflexivity. Qed.

(** C2, amended. A request whose conversion type is none of the five
    labels always fails and leaves the world as it was: no routine runs,
    no file is written, no URL is fetched.  When its input can be read
    (no input, a file object, or a path to an existing file), the error
    is the [ValueError] with the message
    [Invalid conversion type selected. ⚠️]. *)
Theorem unknown_type_is_rejected `{UnicodeData, Pandas, Openpyxl, Network}
    (input_file : option file_input) (conversion_type parquet_url : option str)
    (w : world) :
  conversion_of conversion_type = None →
  (∃ e, dataset_converter input_file conversion_type parquet_url w = (Raise e, w))
  ∧ (readable w input_file = true →
     dataset_converter input_file conversion_type parquet_url w
     = (Raise (ValueError invalid_type_message), w)).
Proof.
  intros Hnone.
  assert (Hrun : ∀ src, run_selected src conversion_type parquet_url w
                        = (Raise (ValueError invalid_type_message), w)).
  { intros src. rewrite run_selected_dispatch. unfold dispatch_by_type.
    by rewrite Hnone. }
  split.
  - unfold dataset_converter, bind.
    destruct (resolve_input input_file w) as [r w'] eqn:Hres.
    pose proof (resolve_input_world _ _ _ _ Hres) as ->.
    destruct r as [src|e].
    + rewrite Hrun. eauto.
    + eauto.
  - intros Hr. destruct (resolve_input_readable _ _ Hr) as [src Hsrc].
    unfold dataset_converter, bind. by rewrite Hsrc, Hrun.
Qed.

Lemma unknown_type_is_rejected_witness :
  (∃ e, @dataset_converter plain_unicode (table_pandas [] []) strict_openpyxl
          (table_network [])
          (Some (FileObject (u "data.csv") [x61; x0a; x31; x0a]))
          (Some (u "CSV to XLS")) None empty_world = (Raise e, empty_world))
  ∧ (readable empty_world (Some (FileObject (u "data.csv") [x61; x0a; x31; x0a]))
       = true →
     @dataset_converter plain_unicode (table_pandas [] []) strict_openpyxl
          (table_network [])
          (Some (FileObject (u "data.csv") [x61; x0a; x31; x0a]))
          (Some (u "CSV to XLS")) None empty_world
     = (Raise (ValueError invalid_type_message), empty_world)).
Proof.
  apply (@unknown_type_is_rejected plain_unicode (table_pandas [] [])
           strict_openpyxl (table_network [])).
  reflexivity.
Defined.

(** ** The extension *)

Section Extension.
Local Open Scope N_scope.

Lemma split_on_nonempty sep s : split_on sep s ≠ [].
Proof.
  destruct s as [|c r]; simpl; [done|].
  destruct (c =? sep); [done|]. by destruct (split_on sep r).
Qed.

Lemma split_on_without sep s : sep ∉ s → split_on sep s = [s].
Proof.
  induction s as [|c r IH]; simpl; [done|].
  intros Hs. apply not_elem_of_cons in Hs as [Hc Hr].
  destruct (N.eqb_spec c sep); [congruence|].
  by rewrite IH.
Qed.

(** [(a + sep + b).split(sep) == a.split(sep) + b.split(sep)] *)
Lemma split_on_app sep pre post :
  split_on sep (pre ++ sep :: post) = split_on sep pre ++ split_on sep post.
Proof.
  induction pre as [|c r IH]; simpl.
  - by rewrite N.eqb_refl.
  - destruct (c =? sep); [by rewrite IH|].
    rewrite IH. pose proof (split_on_nonempty sep r).
    by destruct (split_on sep r).
Qed.

Lemma last_split_on sep pre ext :
  sep ∉ ext → List.last (split_on sep (pre ++ sep :: ext)) [] = ext.
Proof.
  intros Hext. rewrite split_on_app, (split_on_without sep ext) by done.
  apply last_last.
Qed.
End Extension.

(** C3, as stated, fails on a name without a dot: the whole lower-cased
    name is taken as the extension, so a file called [csv] has the
    extension [csv] and passes the check of a CSV conversion. *)
Lemma dotless_name_is_its_own_extension :
  (46%N ∉ u "csv")
  ∧ @extension_of plain_unicode (u "csv") = u "csv"
  ∧ @extension_of plain_unicode (u "csv") ≠ []
  ∧ ∃ message w',
      @dataset_converter plain_unicode demo_pandas strict_openpyxl
        (table_network [])
        (Some (FileObject (u "csv") animals_csv)) (Some (u "CSV to Parquet")) None
        empty_world
      = (Ok (u "output.parquet", message), w').
Proof.
  split; [|split; [reflexivity|split; [discriminate|]]].
  - intros Hin%list_elem_of_In. vm_compute in Hin. intuition discriminate.
  - eexists _, _. vm_compute. reflexivity.
Qed.

(** C3, amended. For a file whose lower-cased name contains a dot, the
    extension is the text after the last dot of the lower-cased name.
    CSV to Parquet and CSV to JSONL reject any other extension than
    [csv], Parquet to CSV any other than [parquet]; Parquet to JSONL and
    Parquet to XLS never look at the extension. *)
Theorem extension_after_last_dot `{UnicodeData, Pandas, Openpyxl, Network}
    (name pre ext : str) :
  py_lower name = pre ++ 46%N :: ext →
  46%N ∉ ext →
  extension_of name = ext
  ∧ (∀ c required data url w,
       required_extension c = Some required → ext ≠ required →
       dataset_converter (Some (FileObject name data)) (type_of c) url w
       = (Raise (ValueError (upload_message c)), w))
  ∧ (∀ c data url other,
       required_extension c = None →
       run_conversion c (Some (SourceFile data name ext)) url
       = run_conversion c (Some (SourceFile data name other)) url).
Proof.
  intros Hlow Hext.
  assert (Hextension : extension_of name = ext).
  { unfold extension_of. rewrite Hlow. by apply last_split_on. }
  split; [done|split].
  - intros c required data url w Hreq Hne.
    unfold dataset_converter, resolve_input. run_monad. cbn [fst snd].
    rewrite run_selected_dispatch.
    unfold dispatch_by_type. rewrite conversion_of_label.
    rewrite Hextension.
    destruct c; simplify_eq/=;
      unfold csv_to_parquet, parquet_to_csv, csv_to_jsonl; cbn [file_extension];
      match goal with
      | |- context [str_eqb ?a ?b] =>
        destruct (str_eqb a b) eqn:E; [by apply str_eqb_eq in E|]
      end;
      reflexivity.
  - intros c data url other Hreq. by destruct c.
Qed.

Lemma extension_after_last_dot_witness :
  @extension_of plain_unicode (u "Archive.tar.GZ") = u "gz"
  ∧ (∀ c required data url w,
       required_extension c = Some required → u "gz" ≠ required →
       @dataset_converter plain_unicode demo_pandas strict_openpyxl
         (table_network [])
         (Some (FileObject (u "Archive.tar.GZ") data)) (type_of c) url w
       = (Raise (ValueError (upload_message c)), w))
  ∧ (∀ c data url other,
       required_extension c = None →
       @run_conversion plain_unicode demo_pandas strict_openpyxl
         (table_network []) c
         (Some (SourceFile data (u "Archive.tar.GZ") (u "gz"))) url
       = @run_conversion plain_unicode demo_pandas strict_openpyxl
         (table_network []) c
         (Some (SourceFile data (u "Archive.tar.GZ") other)) url).
Proof.
  apply (@extension_after_last_dot plain_unicode demo_pandas strict_openpyxl
           (table_network []) (u "Archive.tar.GZ") (u "archive.tar") (u "gz")).
  - reflexivity.
  - intros Hin%list_elem_of_In. vm_compute in Hin. intuition discriminate.
Defined.

(** ** What a computation may change in the world *)

Section Keeps.
Context (R : relation world) `{!PreOrder R}.

Lemma keeps_ret {A} (a : A) : keeps R (ret a).
Proof. intros w r w' [= _ <-]. reflexivity. Qed.

Lemma keeps_raise {A} e : keeps R (@raise A e).
Proof. intros w r w' [= _ <-]. reflexivity. Qed.

Lemma keeps_lift {A} (x : result A) : keeps R (lift x).
Proof. intros w r w' [= _ <-]. reflexivity. Qed.

Lemma keeps_bind {A B} (m : M A) (k : A → M B) :
  keeps R m → (∀ a, keeps R (k a)) → keeps R (bind m k).
Proof.
  intros Hm Hk w r w'. unfold bind.
  destruct (m w) as [[a|e] w1] eqn:E; intros Hr.
  - transitivity w1; [by eapply Hm | by eapply Hk].
  - injection Hr as _ <-. by eapply Hm.
Qed.

Lemma keeps_write_json_lines path ea prepare items :
  (∀ text, keeps R (append_text path text)) →
  keeps R (write_json_lines path ea prepare items).
Proof.
  intros Happ. induction items as [|item rest IH]; cbn [write_json_lines].
  - apply keeps_ret.
  - destruct (json_dumps ea (prepare item)); [|apply keeps_raise].
    apply keeps_bind; [apply Happ | done].
Qed.
End Keeps.

#[local] Instance same_log_preorder : PreOrder same_log.
Proof. split; [done|]. intros x y z Hxy Hyz. unfold same_log in *. congruence. Qed.

#[local] Instance same_disk_preorder : PreOrder same_disk.
Proof. split; [done|]. intros x y z Hxy Hyz. unfold same_disk in *. congruence. Qed.

#[local] Instance same_elsewhere_preorder path : PreOrder (same_elsewhere path).
Proof.
  split; [done|]. intros x y z Hxy Hyz p Hp. by rewrite Hyz, Hxy.
Qed.

Section WorldEffects.
Context `{UnicodeData, Pandas, Openpyxl, Network}.

Lemma write_file_log path data : keeps same_log (write_file path data).
Proof. by intros w r w' [= _ <-]. Qed.

Lemma append_text_log path text : keeps same_log (append_text path text).
Proof.
  intros w r w'. unfold append_text.
  destruct (utf8_encode text); by intros [= _ <-].
Qed.

Lemma write_file_elsewhere path data :
  keeps (same_elsewhere path) (write_file path data).
Proof.
  intros w r w' [= _ <-] p Hp. simpl. by rewrite lookup_insert_ne.
Qed.

Lemma append_text_elsewhere path text :
  keeps (same_elsewhere path) (append_text path text).
Proof.
  intros w r w'. unfold append_text.
  destruct (utf8_encode text); intros [= _ <-] p Hp; [|done].
  simpl. by rewrite lookup_insert_ne.
Qed.

Lemma requests_get_disk url : keeps same_disk (requests_get url).
Proof.
  intros w r w'. unfold requests_get.
  destruct (http_get url); [by intros [= _ <-]|].
  destruct (http_failure url).2; by intros [= _ <-].
Qed.

Lemma requests_get_elsewhere path url :
  keeps (same_elsewhere path) (requests_get url).
Proof.
  intros w r w' Hr p _. by rewrite (requests_get_disk url w r w' Hr).
Qed.

Ltac keeps_steps :=
  repeat first
    [ apply keeps_bind; try apply _; [|intros ?]
    | apply keeps_ret; apply _ | apply keeps_raise; apply _
    | apply keeps_lift; apply _
    | apply requests_get_elsewhere
    | apply write_file_elsewhere | apply write_file_log
    | apply keeps_write_json_lines; try apply _;
      [intros; first [apply append_text_elsewhere | apply append_text_log]] ].

Lemma load_parquet_elsewhere path src url msg :
  keeps (same_elsewhere path) (load_parquet src url msg).
Proof.
  unfold load_parquet. destruct src as [s|]; [|destruct (truthy url)];
    keeps_steps.
Qed.

Lemma load_parquet_disk src url msg :
  keeps same_disk (load_parquet src url msg).
Proof.
  unfold load_parquet. destruct src as [s|]; [|destruct (truthy url)];
    repeat first
      [ apply keeps_bind; try apply _; [|intros ?]
      | apply keeps_ret; apply _ | apply keeps_raise; apply _
      | apply keeps_lift; apply _ | apply requests_get_disk ].
Qed.

Lemma load_parquet_file_log s url msg :
  keeps same_log (load_parquet (Some s) url msg).
Proof. unfold load_parquet. keeps_steps. Qed.

(** A conversion touches no file but its own output. *)
Lemma run_conversion_elsewhere c src url :
  keeps (same_elsewhere (output_name c)) (run_conversion c src url).
Proof.
  destruct c; cbn [run_conversion output_name];
    unfold csv_to_parquet, parquet_to_csv, csv_to_jsonl, parquet_to_jsonl,
      parquet_to_xls, open_truncate;
    try (destruct src as [s|]; [case_match|]); keeps_steps;
    apply load_parquet_elsewhere.
Qed.

(** With a file supplied, no conversion touches the network. *)
Lemma run_conversion_file_log c s url :
  keeps same_log (run_conversion c (Some s) url).
Proof.
  destruct c; cbn [run_conversion];
    unfold csv_to_parquet, parquet_to_csv, csv_to_jsonl, parquet_to_jsonl,
      parquet_to_xls, open_truncate;
    try case_match; keeps_steps; apply load_parquet_file_log.
Qed.
End WorldEffects.

(** ** The source of the two Parquet conversions that accept a URL *)

(** C4, as stated, fails for a status that is neither a success nor an
    error for [raise_for_status]: a 304 response passes the check, its
    empty body goes to the Parquet reader, and the request ends with the
    reader's error, not with a fetch error. *)
Lemma not_modified_is_not_a_fetch_error :
  @dataset_converter plain_unicode demo_pandas strict_openpyxl
     (table_network [(not_modified_url, Response 304 [])])
     None (type_of ParquetToJsonl) (Some not_modified_url) empty_world
  = (Raise (LibraryError "pandas.read_parquet"), World ∅ [not_modified_url])
  ∧ is_RemoteFetchError (LibraryError "pandas.read_parquet") = false.
Proof. split; reflexivity. Qed.

(** C4, amended. For Parquet to JSONL and Parquet to XLS:
    - a supplied file is used whatever the URL is, and the network is not
      touched;
    - with neither a file nor a (non-empty) URL the conversion fails with
      the [ValueError] asking for a file or a URL, the world unchanged;
    - with a URL whose response has a client or server error status (400
      to 599, what [raise_for_status] raises on) the conversion fails with
      that [HTTPError], nothing is written, and the URL has been fetched
      exactly once;
    - a response with any other status is handed to the Parquet reader. *)
Theorem parquet_source_rules `{UnicodeData, Pandas, Openpyxl, Network}
    (c : conversion) (w : world) :
  accepts_url c = true →
  (∀ f url url',
     dataset_converter (Some f) (type_of c) url w
     = dataset_converter (Some f) (type_of c) url' w
     ∧ net_log (dataset_converter (Some f) (type_of c) url w).2 = net_log w)
  ∧ (∀ url, truthy url = None →
       dataset_converter None (type_of c) url w
       = (Raise (ValueError (missing_source_message c)), w))
  ∧ (∀ url r,
       url ≠ [] → http_get url = Some r →
       (400 ≤ status_code r < 600)%Z →
       dataset_converter None (type_of c) (Some url) w
       = (Raise (HTTPError (status_code r)),
          World (disk w) (net_log w ++ [url]))
       ∧ is_RemoteFetchError (HTTPError (status_code r)) = true)
  ∧ (∀ url r message,
       url ≠ [] → http_get url = Some r →
       ¬ (400 ≤ status_code r < 600)%Z →
       load_parquet None (Some url) message w
       = (match read_parquet (content r) with
          | Ok df => Ok (df, Some (u "from_url.parquet"))
          | Raise e => Raise e
          end,
          World (disk w) (net_log w ++ [url]))).
Proof.
  intros Hc. split; [|split; [|split]].
  - intros f url url'.
    unfold dataset_converter. unfold bind at 1 3 5.
    destruct (resolve_input (Some f) w) as [r w1] eqn:Hres.
    pose proof (resolve_input_world _ _ _ _ Hres) as ->.
    destruct r as [src|e]; [|done].
    assert (∃ s, src = Some s) as [s ->].
    { revert Hres. unfold resolve_input. run_monad.
      destruct f as [name data|path]; [intros [= <-]; eauto|].
      destruct (disk w !! path); intros [= <-]; eauto. }
    rewrite !run_selected_dispatch. unfold dispatch_by_type.
    rewrite conversion_of_label.
    split.
    + by destruct c.
    + unfold bind.
      destruct (run_conversion c (Some s) url w) as [[o|e] w'] eqn:Hrun;
        by apply run_conversion_file_log in Hrun.
  - intros url Hurl. unfold dataset_converter, resolve_input. run_monad.
    rewrite run_selected_dispatch. unfold dispatch_by_type.
    rewrite conversion_of_label.
    destruct c; try discriminate; cbn [run_conversion];
      unfold parquet_to_jsonl, parquet_to_xls, load_parquet; run_monad;
      by rewrite Hurl.
  - intros url r Hurl Hget Hstatus. split; [|done].
    unfold dataset_converter, resolve_input. run_monad.
    rewrite run_selected_dispatch. unfold dispatch_by_type.
    rewrite conversion_of_label.
    assert (truthy (Some url) = Some url) as Htruthy by (by destruct url).
    assert (raise_for_status r = Raise (HTTPError (status_code r))) as Hraise.
    { unfold raise_for_status.
      destruct (Z.leb_spec 400 (status_code r)); [|lia].
      destruct (Z.ltb_spec (status_code r) 600); [done|lia]. }
    destruct c; try discriminate; cbn [run_conversion];
      unfold parquet_to_jsonl, parquet_to_xls, load_parquet, requests_get;
      run_monad; by rewrite Htruthy, Hget, Hraise.
  - intros url r message Hurl Hget Hstatus.
    assert (truthy (Some url) = Some url) as Htruthy by (by destruct url).
    assert (raise_for_status r = Ok tt) as Hraise.
    { unfold raise_for_status.
      destruct (Z.leb_spec 400 (status_code r)); [|done].
      destruct (Z.ltb_spec (status_code r) 600); [lia|done]. }
    unfold load_parquet, requests_get. run_monad.
    rewrite Htruthy, Hget, Hraise.
    by destruct (read_parquet (content r)).
Qed.

Lemma parquet_source_rules_witness :
  @dataset_converter plain_unicode demo_pandas strict_openpyxl
     (table_network [(not_found_url, Response 404 [])])
     None (type_of ParquetToXls) (Some not_found_url) empty_world
  = (Raise (HTTPError 404), World ∅ [not_found_url])
  ∧ is_RemoteFetchError (HTTPError 404) = true.
Proof.
  destruct (@parquet_source_rules plain_unicode demo_pandas strict_openpyxl
              (table_network [(not_found_url, Response 404 [])])
              ParquetToXls empty_world eq_refl) as (_ & _ & Hfetch & _).
  apply (Hfetch not_found_url (Response 404 [])).
  - discriminate.
  - reflexivity.
  - simpl. lia.
Defined.

(** ** Dispatch depends on the conversion type alone *)

(** C9. The routine that runs is a function of [conversion_type] alone:
    the chain of comparisons of the source is the switch of the
    specification over the selected label.  Hence any two requests with
    the same conversion type that both succeed return the same output
    file name and the same format label, the ones fixed for that type,
    whatever their files (names, extensions, bytes), URLs and worlds
    are; and they change no file other than that one. *)
Theorem dispatch_on_type_alone `{UnicodeData, Pandas, Openpyxl, Network}
    (conversion_type : option str)
    (input1 input2 : option file_input) (url1 url2 : option str)
    (w1 w2 w1' w2' : world) (out1 out2 message1 message2 : str) :
  dataset_converter input1 conversion_type url1 w1 = (Ok (out1, message1), w1') →
  dataset_converter input2 conversion_type url2 w2 = (Ok (out2, message2), w2') →
  out1 = out2
  ∧ (∀ src url, run_selected src conversion_type url
                = dispatch_by_type conversion_type src url)
  ∧ ∃ c, conversion_of conversion_type = Some c
         ∧ out1 = output_name c
         ∧ (∃ o1 o2, message1 = info_message o1 ∧ message2 = info_message o2
                     ∧ converted_format o1 = format_label c
                     ∧ converted_format o2 = format_label c)
         ∧ same_elsewhere (output_name c) w1 w1'
         ∧ same_elsewhere (output_name c) w2 w2'.
Proof.
  assert (Hone : ∀ input url w w' out message,
    dataset_converter input conversion_type url w = (Ok (out, message), w') →
    ∃ c, conversion_of conversion_type = Some c ∧ out = output_name c
         ∧ (∃ o, message = info_message o ∧ converted_format o = format_label c)
         ∧ same_elsewhere (output_name c) w w').
  { intros input url w w' out message. unfold dataset_converter.
    unfold bind at 1.
    destruct (resolve_input input w) as [r w0] eqn:Hres.
    pose proof (resolve_input_world _ _ _ _ Hres) as ->.
    destruct r as [src|e]; [|done].
    rewrite run_selected_dispatch. unfold dispatch_by_type, bind.
    destruct (conversion_of conversion_type) as [c|]; [|done].
    destruct (run_conversion c src url w) as [[o|e] w0] eqn:Hrun; [|done].
    intros [= <- <- <-]. exists c.
    assert (output_file o = output_name c ∧ converted_format o = format_label c)
      as [Hout Hformat].
    { revert Hrun. clear.
      destruct c; cbn [run_conversion];
        unfold csv_to_parquet, parquet_to_csv, csv_to_jsonl, parquet_to_jsonl,
          parquet_to_xls; run_monad;
        repeat case_match; intros; simplify_eq; done. }
    split; [done|]. split; [done|]. split; [by exists o|].
    by eapply run_conversion_elsewhere. }
  intros H1' H2'.
  destruct (Hone _ _ _ _ _ _ H1') as (c1 & Hc1 & -> & (o1 & Hm1 & Hf1) & Hw1).
  destruct (Hone _ _ _ _ _ _ H2') as (c2 & Hc2 & -> & (o2 & Hm2 & Hf2) & Hw2).
  assert (c2 = c1) as -> by congruence.
  split; [done|]. split; [intros src url; apply run_selected_dispatch|].
  exists c1. split; [done|]. split; [done|]. split; [|done].
  by exists o1, o2.
Qed.

Lemma dispatch_on_type_alone_witness :
  let run1 :=
    @dataset_converter plain_unicode demo_pandas strict_openpyxl (table_network [])
      (Some (FileObject (u "animals.csv") animals_csv))
      (Some (u "CSV to JSONL")) None empty_world in
  let run2 :=
    @dataset_converter plain_unicode demo_pandas strict_openpyxl (table_network [])
      (Some (FilePath (u "scores.CSV")))
      (Some (u "CSV to JSONL")) (Some (u "https://example.org/x.parquet"))
      (World {[ u "scores.CSV" := numbers_csv ]} []) in
  u "metadata.jsonl" = u "metadata.jsonl"
  ∧ (∀ src url,
       @run_selected plain_unicode demo_pandas strict_openpyxl (table_network [])
         src (Some (u "CSV to JSONL")) url
       = @dispatch_by_type plain_unicode demo_pandas strict_openpyxl
           (table_network []) (Some (u "CSV to JSONL")) src url)
  ∧ ∃ c, conversion_of (Some (u "CSV to JSONL")) = Some c
         ∧ u "metadata.jsonl" = output_name c
         ∧ (∃ o1 o2,
              match run1.1 with Ok r => r.2 | Raise _ => [] end
                = info_message o1
              ∧ match run2.1 with Ok r => r.2 | Raise _ => [] end
                = info_message o2
              ∧ converted_format o1 = format_label c
              ∧ converted_format o2 = format_label c)
         ∧ same_elsewhere (output_name c) empty_world run1.2
         ∧ same_elsewhere (output_name c)
             (World {[ u "scores.CSV" := numbers_csv ]} []) run2.2.
Proof.
  intros run1 run2.
  apply (@dispatch_on_type_alone plain_unicode demo_pandas strict_openpyxl
           (table_network []) (Some (u "CSV to JSONL"))
           (Some (FileObject (u "animals.csv") animals_csv))
           (Some (FilePath (u "scores.CSV")))
           None (Some (u "https://example.org/x.parquet"))
           empty_world (World {[ u "scores.CSV" := numbers_csv ]} [])
           run1.2 run2.2
           (u "metadata.jsonl") (u "metadata.jsonl")
           (match run1.1 with Ok r => r.2 | Raise _ => [] end)
           (match run2.1 with Ok r => r.2 | Raise _ => [] end));
    vm_compute; reflexivity.
Defined.

(** ** The JSON encoder *)

Section EncoderFacts.
Local Open Scope N_scope.

Lemma sequence_opt_map {A B} (f : A → option B) l ys :
  sequence_opt (map f l) = Some ys → Forall2 (λ x y, f x = Some y) l ys.
Proof.
  revert ys. induction l as [|x l IH]; simpl; intros ys.
  - intros [= <-]. constructor.
  - destruct (f x) as [y|] eqn:Hy; [|done].
    destruct (sequence_opt (map f l)) as [ys'|]; [|done].
    intros [= <-]. constructor; [done|]. by apply IH.
Qed.

Lemma sequence_opt_map_some {A B} (f : A → option B) l :
  Forall (λ x, is_Some (f x)) l → is_Some (sequence_opt (map f l)).
Proof.
  induction 1 as [|x l [y Hy] _ [ys Hys]]; simpl; [by eexists|].
  rewrite Hy, Hys. by eexists.
Qed.

Lemma is_plain_app s t : is_plain s → is_plain t → is_plain (s ++ t).
Proof. apply Forall_app_2. Qed.

Lemma is_plain_u s :
  forallb (λ c, (32 <=? c) && (c <=? 126)) (u s) = true → is_plain (u s).
Proof.
  intros Hs. apply Forall_forall. intros c Hc.
  rewrite forallb_forall in Hs. apply list_elem_of_In, Hs in Hc.
  apply andb_true_iff in Hc as [?%N.leb_le ?%N.leb_le]. done.
Qed.

Lemma is_plain_concat (parts : list str) :
  Forall is_plain parts → is_plain (concat parts).
Proof.
  induction 1; simpl; [constructor | by apply is_plain_app].
Qed.

Lemma is_plain_join sep parts :
  is_plain sep → Forall is_plain parts → is_plain (join sep parts).
Proof.
  intros Hsep [|p ps Hp Hps]; simpl; [constructor|].
  apply is_plain_app; [done|]. apply is_plain_concat.
  apply Forall_map. eapply Forall_impl; [exact Hps|].
  intros q Hq. by apply is_plain_app.
Qed.

Lemma uint_chars_digits d : Forall (λ c, 48 <= c <= 57) (uint_chars d).
Proof. induction d; simpl; constructor; (lia || done). Qed.

Lemma is_plain_uint_chars d : is_plain (uint_chars d).
Proof.
  eapply Forall_impl; [apply uint_chars_digits|]. simpl. lia.
Qed.

Lemma is_plain_int_repr z : is_plain (int_repr z).
Proof.
  unfold int_repr, N_chars. destruct (z <? 0)%Z.
  - constructor; [lia | apply is_plain_uint_chars].
  - apply is_plain_uint_chars.
Qed.

Lemma is_plain_exp_chars e : is_plain (exp_chars e).
Proof.
  unfold exp_chars, N_chars.
  constructor; [lia|]. constructor; [destruct (e <? 0)%Z; lia|].
  destruct (Z.abs e <? 10)%Z;
    [constructor; [lia|]|]; apply is_plain_uint_chars.
Qed.

Lemma is_plain_floatstr f : is_plain (floatstr f).
Proof.
  destruct f as [|[]|neg i frac e]; simpl;
    try (apply is_plain_u; reflexivity).
  unfold finite_chars, N_chars.
  repeat apply is_plain_app.
  - destruct neg; [constructor; [lia|]|]; constructor.
  - apply is_plain_uint_chars.
  - destruct frac; [constructor|..];
      (constructor; [lia|]); apply (is_plain_uint_chars (_ frac)).
  - destruct e; [apply is_plain_exp_chars | constructor].
Qed.

Lemma hex_digit_ascii n : n < 16 → 32 <= hex_digit n <= 126.
Proof. unfold hex_digit. destruct (n <? 10); lia. Qed.

Lemma is_plain_hex2 c : is_plain (hex2 c).
Proof.
  unfold hex2. repeat constructor; apply hex_digit_ascii;
    apply N.mod_upper_bound; lia.
Qed.

Lemma is_plain_hex4 c : is_plain (hex4 c).
Proof. unfold hex4. apply is_plain_app; apply is_plain_hex2. Qed.

Lemma is_plain_u_escape c : is_plain (u_escape c).
Proof.
  unfold u_escape. constructor; [lia|]. constructor; [lia|].
  apply is_plain_hex4.
Qed.

Lemma short_escape_ascii c e : short_escape c = Some e → 32 <= e <= 126.
Proof.
  unfold short_escape. repeat case_match; intros; simplify_eq; lia.
Qed.

Lemma is_plain_escape_ascii c : is_plain (escape_ascii c).
Proof.
  unfold escape_ascii. destruct (short_escape c) as [e|] eqn:He.
  - constructor; [lia|]. constructor; [|constructor].
    by eapply short_escape_ascii.
  - destruct ((32 <=? c) && (c <=? 126)) eqn:Hp.
    + apply andb_true_iff in Hp as [Hl%N.leb_le Hp%N.leb_le].
      constructor; [lia | constructor].
    + destruct (0x10000 <=? c).
      * apply is_plain_app; apply is_plain_u_escape.
      * apply is_plain_u_escape.
Qed.

Lemma is_plain_encode_string s : is_plain (encode_string true s).
Proof.
  unfold encode_string. constructor; [lia|].
  apply is_plain_app; [|constructor; [lia|constructor]].
  apply is_plain_concat, Forall_map, Forall_forall.
  intros c _. apply is_plain_escape_ascii.
Qed.

(** With [ensure_ascii=True] the encoder emits printable ASCII only. *)
Lemma json_encode_plain v s : json_encode true v = Some s → is_plain s.
Proof.
  revert s. induction v as [|b|z|f|t|b|l IH|l IH|d IH|c r]
    using pyval_nested_ind; intros s; cbn [json_encode].
  - intros [= <-]. apply is_plain_u; reflexivity.
  - destruct b; intros [= <-]; apply is_plain_u; reflexivity.
  - intros [= <-]. apply is_plain_int_repr.
  - intros [= <-]. apply is_plain_floatstr.
  - intros [= <-]. apply is_plain_encode_string.
  - done.
  - destruct (sequence_opt _) as [items|] eqn:Hitems; [|done].
    intros [= <-]. apply sequence_opt_map in Hitems.
    unfold encode_array. repeat apply is_plain_app;
      try (apply is_plain_u; reflexivity).
    apply is_plain_join; [apply is_plain_u; reflexivity|].
    clear -IH Hitems. induction Hitems as [|x y l ys Hxy _ IH'];
      [constructor|].
    inversion IH; subst. constructor; eauto.
  - destruct (sequence_opt _) as [items|] eqn:Hitems; [|done].
    intros [= <-]. apply sequence_opt_map in Hitems.
    unfold encode_array. repeat apply is_plain_app;
      try (apply is_plain_u; reflexivity).
    apply is_plain_join; [apply is_plain_u; reflexivity|].
    clear -IH Hitems. induction Hitems as [|x y l ys Hxy _ IH'];
      [constructor|].
    inversion IH; subst. constructor; eauto.
  - destruct (sequence_opt _) as [members|] eqn:Hm; [|done].
    intros [= <-]. apply sequence_opt_map in Hm.
    unfold encode_object. repeat apply is_plain_app;
      try (apply is_plain_u; reflexivity).
    apply is_plain_join; [apply is_plain_u; reflexivity|].
    clear -IH Hm. induction Hm as [|[k x] y l ys Hxy _ IH'];
      [constructor|].
    inversion IH as [|? ? [_ Hx] Hrest]; subst. constructor; [|eauto].
    destruct (json_key k) as [ks|]; [|done].
    destruct (json_encode true x) as [xs|] eqn:Hxs; [|done].
    injection Hxy as <-. unfold encode_member.
    repeat apply is_plain_app; try (apply is_plain_u; reflexivity).
    + apply is_plain_encode_string.
    + by apply Hx.
  - done.
Qed.
Lemma is_plain_ascii s : is_plain s → is_ascii s.
Proof. intros Hs. eapply Forall_impl; [exact Hs|]. simpl. lia. Qed.

Lemma is_plain_no_newline s : is_plain s → 10 ∉ s.
Proof.
  intros Hs Hin. eapply Forall_forall in Hs; [|exact Hin]. lia.
Qed.
End EncoderFacts.

(** ** Writing JSON lines *)

Section JsonLines.
Context `{UnicodeData, Pandas, Openpyxl, Network}.
Local Open Scope N_scope.

Lemma utf8_encode_ascii s : is_ascii s → utf8_encode s = Some (map byte_of s).
Proof.
  induction 1 as [|c s Hc _ IH]; simpl; [done|].
  unfold utf8_encode_char. apply N.ltb_lt in Hc. by rewrite Hc, IH.
Qed.

Lemma world_eta w : World (disk w) (net_log w) = w.
Proof. by destruct w. Qed.

(** The loop appends exactly [encode_lines] to the open file and ends
    as [encode_lines] ends. *)
Lemma write_json_lines_run path ea prepare items w old :
  disk w !! path = Some old →
  write_json_lines path ea prepare items w
  = ((encode_lines ea prepare items).2,
     World (<[path := old ++ (encode_lines ea prepare items).1]> (disk w))
           (net_log w)).
Proof.
  revert w old. induction items as [|item rest IH]; intros w old Hold;
    cbn [write_json_lines encode_lines].
  - cbn [fst snd]. rewrite app_nil_r, insert_id, world_eta by done. done.
  - destruct (json_dumps ea (prepare item)) as [line|].
    2:{ cbn [fst snd]. rewrite app_nil_r, insert_id, world_eta by done. done. }
    unfold bind, append_text.
    destruct (utf8_encode (line ++ [10])) as [data|].
    2:{ cbn [fst snd]. rewrite app_nil_r, insert_id, world_eta by done. done. }
    rewrite Hold. cbn [default].
    erewrite IH; [|cbn [disk]; apply lookup_insert_eq].
    cbn [fst snd disk net_log]. by rewrite insert_insert_eq, app_assoc.
Qed.

(** When the loop is cut short, the bytes written are the lines of the
    items before the one that failed. *)
Lemma encode_lines_raise ea prepare items data e :
  encode_lines ea prepare items = (data, Raise e) →
  ∃ written bad rest,
    items = written ++ bad :: rest
    ∧ encode_lines ea prepare written = (data, Ok tt)
    ∧ encode_lines ea prepare [bad] = ([], Raise e).
Proof.
  revert data. induction items as [|item rest IH]; intros data;
    cbn [encode_lines]; [done|].
  destruct (json_dumps ea (prepare item)) as [line|] eqn:Hline.
  2:{ intros [= <- <-]. exists [], item, rest. cbn [encode_lines].
      by rewrite Hline. }
  destruct (utf8_encode (line ++ [10])) as [bs|] eqn:Hbs.
  2:{ intros [= <- <-]. exists [], item, rest. cbn [encode_lines].
      by rewrite Hline, Hbs. }
  destruct (encode_lines ea prepare rest) as [more r] eqn:Hrest.
  cbn [fst snd]. intros [= <- ->].
  destruct (IH more eq_refl) as (written & bad & rest' & -> & Hw & Hbad).
  exists (item :: written), bad, rest'. split; [done|]. split; [|done].
  cbn [encode_lines]. by rewrite Hline, Hbs, Hw.
Qed.

(** *** Reading the lines of a written file *)

Lemma to_N_byte_of n : n < 256 → Byte.to_N (byte_of n) = n.
Proof.
  intros Hn. unfold byte_of.
  destruct (Byte.of_N n) as [b|] eqn:Hb.
  - by apply Byte.to_of_N.
  - apply Byte.of_N_None_iff in Hb. lia.
Qed.

Lemma to_N_byte_of_ascii s :
  is_ascii s → map Byte.to_N (map byte_of s) = s.
Proof.
  induction 1 as [|c s Hc _ IH]; [done|].
  cbn [map]. rewrite IH, to_N_byte_of; [done|lia].
Qed.

Lemma file_lines_line line tail :
  10 ∉ line → file_lines (line ++ 10 :: tail) = line :: file_lines tail.
Proof.
  induction line as [|c line IH]; intros Hline; cbn [app file_lines].
  - by change (10 =? 10) with true.
  - apply not_elem_of_cons in Hline as [Hc Hline].
    destruct (N.eqb_spec c 10); [done|]. by rewrite IH.
Qed.

Lemma file_lines_concat lines :
  Forall (λ line, 10 ∉ line) lines →
  file_lines (concat (map (λ l, l ++ [10]) lines)) = lines.
Proof.
  induction 1 as [|line lines Hline _ IH]; [done|].
  cbn [map concat]. rewrite <- app_assoc. cbn [app].
  by rewrite file_lines_line, IH.
Qed.

Lemma metadata_lines lines :
  Forall is_plain lines →
  file_lines (map Byte.to_N (map byte_of (concat (map (λ l, l ++ [10]) lines))))
  = lines.
Proof.
  intros Hplain. rewrite to_N_byte_of_ascii.
  - apply file_lines_concat. eapply Forall_impl; [exact Hplain|].
    apply is_plain_no_newline.
  - apply Forall_concat, Forall_map. eapply Forall_impl; [exact Hplain|].
    intros line Hline. apply Forall_app_2; [by apply is_plain_ascii|].
    constructor; [|constructor]. lia.
Qed.

(** *** The rows of CSV to JSONL *)

End JsonLines.

Section CsvRows.
Context `{UnicodeData, Pandas, Openpyxl, Network}.
Local Open Scope N_scope.

Lemma dict_set_mapping row seen c :
  dict_set (map (λ c, (PStr c, series_value row c)) seen) c (series_value row c)
  = map (λ c, (PStr c, series_value row c))
        (if bool_decide (c ∈ seen) then seen else seen ++ [c]).
Proof.
  induction seen as [|a seen IH]; simpl; [done|].
  destruct (str_eqb a c) eqn:E.
  - apply str_eqb_eq in E as ->.
    rewrite bool_decide_eq_true_2 by left. done.
  - apply str_eqb_neq in E. rewrite IH.
    destruct (bool_decide (c ∈ seen)) eqn:Hc.
    + apply bool_decide_eq_true in Hc.
      rewrite bool_decide_eq_true_2 by (by right). done.
    + apply bool_decide_eq_false in Hc.
      rewrite bool_decide_eq_false_2; [done|].
      intros [->|?]%elem_of_cons; done.
Qed.

Lemma collect_columns_run row columns seen fnv data fnv' :
  collect_columns row columns
    (map (λ c, (PStr c, series_value row c)) seen) fnv = Ok (data, fnv') →
  data = map (λ c, (PStr c, series_value row c)) (merge_labels seen columns)
  ∧ fnv' = (if bool_decide (u "file_name" ∈ columns)
            then series_value row (u "file_name") else fnv).
Proof.
  revert seen fnv. induction columns as [|c rest IH]; intros seen fnv;
    cbn [collect_columns].
  - intros [= <- <-]. done.
  - destruct (series_getitem row c) as [x|e] eqn:Hx; [|done].
    assert (x = series_value row c) as -> by (unfold series_value; by rewrite Hx).
    rewrite dict_set_mapping. intros Hrun. apply IH in Hrun as [-> ->].
    split; [done|]. clear IH Hx.
    destruct (str_eqb c (u "file_name")) eqn:E;
      [apply str_eqb_eq in E as -> | apply str_eqb_neq in E];
      repeat case_bool_decide; try done; exfalso;
      repeat match goal with
      | Hn : ¬ _ ∈ _ :: _ |- _ => apply not_elem_of_cons in Hn as [? ?]
      | Hi : _ ∈ _ :: _ |- _ => apply elem_of_cons in Hi as [?|?]
      end; done.
Qed.

Lemma merge_labels_seen seen labels c :
  c ∈ seen → c ∈ merge_labels seen labels.
Proof.
  revert seen. induction labels as [|a labels IH]; intros seen Hc; [done|].
  apply IH. destruct (bool_decide (a ∈ seen)); [done|].
  apply elem_of_app. by left.
Qed.

Lemma merge_labels_all seen labels c :
  c ∈ labels → c ∈ merge_labels seen labels.
Proof.
  revert seen. induction labels as [|a labels IH]; intros seen;
    [by intros ?%elem_of_nil|].
  intros [->|Hc]%elem_of_cons; [|by apply IH].
  apply (merge_labels_seen
           (if bool_decide (a ∈ seen) then seen else seen ++ [a]) labels).
  destruct (bool_decide (a ∈ seen)) eqn:Ha.
  - by apply bool_decide_eq_true in Ha.
  - apply elem_of_app. right. by left.
Qed.

Lemma collect_columns_getitem row columns data fnv r :
  collect_columns row columns data fnv = Ok r →
  Forall (λ c, series_getitem row c = Ok (series_value row c)) columns.
Proof.
  revert data fnv. induction columns as [|c rest IH]; intros data fnv;
    cbn [collect_columns]; [constructor|].
  destruct (series_getitem row c) as [x|e] eqn:Hx; [|done].
  intros Hrun. constructor; [|by eapply IH].
  unfold series_value. by rewrite Hx.
Qed.

(** One row of [total_data]: the mapping encodes, and the row is the
    two-key dictionary over it. *)
Lemma make_row_data_run columns row row_data :
  make_row_data columns row = Ok row_data →
  Forall (λ c, series_getitem row c = Ok (series_value row c)) columns
  ∧ ∃ ground_truth,
    json_dumps true (PDict (row_mapping columns row)) = Some ground_truth
    ∧ row_data = PDict [(PStr (u "file_name"), row_file_name columns row);
                        (PStr (u "ground_truth"), PStr ground_truth)].
Proof.
  unfold make_row_data.
  destruct (collect_columns row columns [] PNone) as [[data fnv]|e] eqn:Hc;
    [|done].
  pose proof (collect_columns_getitem _ _ _ _ _ Hc) as Hget.
  apply (collect_columns_run row columns []) in Hc as [-> ->].
  fold (distinct_labels columns). fold (row_mapping columns row).
  fold (row_file_name columns row).
  destruct (json_dumps true (PDict (row_mapping columns row))) as [gt|];
    [|done].
  intros [= <-]. eauto.
Qed.

Lemma row_file_name_encodes columns row ground_truth :
  json_dumps true (PDict (row_mapping columns row)) = Some ground_truth →
  is_Some (json_encode true (row_file_name columns row)).
Proof.
  unfold json_dumps. cbn [json_encode].
  destruct (sequence_opt _) as [members|] eqn:Hm; [|done]. intros _.
  apply sequence_opt_map in Hm.
  unfold row_file_name. case_bool_decide as Hin; [|by eexists].
  assert ((PStr (u "file_name"), series_value row (u "file_name"))
          ∈ row_mapping columns row) as Hmem.
  { unfold row_mapping. apply (list_elem_of_fmap_2 (λ c, (PStr c, series_value row c))).
    by apply merge_labels_all. }
  apply list_elem_of_lookup in Hmem as [i Hi].
  destruct (Forall2_lookup_l _ _ _ _ _ Hm Hi) as (member & _ & Hmember).
  cbn [json_key] in Hmember.
  destruct (json_encode true (series_value row (u "file_name"))); [by eexists|done].
Qed.

Lemma row_data_dumps columns row ground_truth :
  json_dumps true (PDict (row_mapping columns row)) = Some ground_truth →
  ∃ name, json_encode true (row_file_name columns row) = Some name
    ∧ json_dumps true
        (PDict [(PStr (u "file_name"), row_file_name columns row);
                (PStr (u "ground_truth"), PStr ground_truth)])
      = Some (encode_object
                [encode_member true (u "file_name") name;
                 encode_member true (u "ground_truth")
                   (encode_string true ground_truth)]).
Proof.
  intros Hgt. destruct (row_file_name_encodes _ _ _ Hgt) as [name Hname].
  exists name. split; [done|].
  unfold json_dumps. cbn [json_encode map json_key sequence_opt].
  by rewrite Hname.
Qed.

(** The lines of the whole table: everything [make_total_data]
    returns can be written, and is written as printable ASCII. *)
Lemma total_data_lines columns rows total :
  make_total_data columns rows = Ok total →
  ∃ lines,
    Forall2 (row_line columns) rows lines
    ∧ Forall is_plain lines
    ∧ encode_lines true id total
      = (map byte_of (concat (map (λ l, l ++ [10]) lines)), Ok tt).
Proof.
  revert total. induction rows as [|row rows IH]; intros total;
    cbn [make_total_data].
  - intros [= <-]. exists []. split; [constructor|].
    split; [constructor | reflexivity].
  - destruct (make_row_data columns row) as [rd|e] eqn:Hrd; [|done].
    destruct (make_total_data columns rows) as [rest|e]; [|done].
    intros [= <-]. destruct (IH rest eq_refl) as (lines & Hrows & Hplain & Hlines).
    apply make_row_data_run in Hrd as (Hget & gt & Hgt & ->).
    destruct (row_data_dumps _ _ _ Hgt) as (name & Hname & Hline).
    eexists (_ :: lines). split; [|split].
    + constructor; [|exact Hrows]. split; [done|].
      exists gt. split; [done|]. exact Hline.
    + constructor; [|done]. eapply json_encode_plain. exact Hline.
    + cbn [encode_lines]. unfold id at 1. rewrite Hline.
      rewrite utf8_encode_ascii.
      2:{ apply Forall_app_2; [|constructor; [lia|constructor]].
          apply is_plain_ascii. eapply json_encode_plain. exact Hline. }
      rewrite Hlines. cbn [fst snd map concat].
      f_equal. symmetry. apply List.map_app.
Qed.
End CsvRows.

(** ** What the two JSONL branches leave on the disk *)

Section JsonlBranches.
Context `{UnicodeData, Pandas, Openpyxl, Network}.
Local Open Scope N_scope.

Lemma bind_lift {A B} (x : result A) (k : A → M B) w :
  bind (lift x) k w
  = match x with Ok a => k a w | Raise e => (Raise e, w) end.
Proof. by destruct x. Qed.

Lemma open_then_write {A} path ea prepare items (k : M A) w :
  bind (open_truncate path)
       (λ _, bind (write_json_lines path ea prepare items) (λ _, k)) w
  = let w' := World (<[path := (encode_lines ea prepare items).1]> (disk w))
                    (net_log w) in
    match (encode_lines ea prepare items).2 with
    | Ok _ => k w'
    | Raise e => (Raise e, w')
    end.
Proof.
  unfold bind, open_truncate, write_file.
  rewrite (write_json_lines_run _ _ _ _ _ [])
    by (cbn [disk]; apply lookup_insert_eq).
  cbn [disk net_log app]. rewrite insert_insert_eq.
  by destruct (encode_lines ea prepare items).2.
Qed.

(** CSV to JSONL builds every line before it opens the file. *)
Lemma csv_to_jsonl_run src w :
  match csv_to_jsonl src w with
  | (Ok o, w') =>
    ∃ s df lines,
      src = Some s
      ∧ read_csv (file_bytes s) (Some "latin1"%string) = Ok df
      ∧ Forall2 (row_line (df_columns df)) (iterrows df) lines
      ∧ Forall is_plain lines
      ∧ output_file o = u "metadata.jsonl"
      ∧ w' = World (<[u "metadata.jsonl" :=
                       map byte_of (concat (map (λ l, l ++ [10]) lines))]> (disk w))
                   (net_log w)
  | (Raise _, w') => w' = w
  end.
Proof.
  unfold csv_to_jsonl. destruct src as [s|]; [|done].
  destruct (str_eqb (file_extension s) (u "csv")); [|done].
  rewrite bind_lift.
  destruct (read_csv (file_bytes s) (Some "latin1"%string)) as [df|e] eqn:Hdf;
    [|done].
  rewrite bind_lift.
  destruct (make_total_data (df_columns df) (iterrows df)) as [total|e] eqn:Ht;
    [|done].
  destruct (total_data_lines _ _ _ Ht) as (lines & Hrows & Hplain & Hlines).
  rewrite open_then_write, Hlines. cbn [fst snd]. unfold ret.
  exists s, df, lines. done.
Qed.

(** Parquet to JSONL opens the file, then serializes record by record. *)
Lemma parquet_to_jsonl_run src url w :
  match parquet_to_jsonl src url w with
  | (Ok o, w') =>
    ∃ df name w1,
      load_parquet src url
        (u "For Parquet to JSONL conversion, please upload a file or provide a URL. "
           ++ globe_emoji) w = (Ok (df, name), w1)
      ∧ (encode_lines false recursive_sanitize
           (map record_dict (to_dict_records df))).2 = Ok tt
      ∧ output_file o = u "output.jsonl"
      ∧ w' = World (<[u "output.jsonl" :=
                       (encode_lines false recursive_sanitize
                          (map record_dict (to_dict_records df))).1]> (disk w1))
                   (net_log w1)
  | (Raise e, w') =>
    disk w' = disk w
    ∨ ∃ df written bad rest,
        map record_dict (to_dict_records df) = written ++ bad :: rest
        ∧ (encode_lines false recursive_sanitize written).2 = Ok tt
        ∧ encode_lines false recursive_sanitize [bad] = ([], Raise e)
        ∧ disk w' = <[u "output.jsonl" :=
                       (encode_lines false recursive_sanitize written).1]> (disk w)
  end.
Proof.
  unfold parquet_to_jsonl. unfold bind at 1.
  destruct (load_parquet src url _ w) as [[[df name]|e] w1] eqn:Hload.
  2:{ left. by eapply load_parquet_disk. }
  apply load_parquet_disk in Hload as Hdisk. unfold same_disk in Hdisk.
  cbn [fst snd]. rewrite open_then_write. cbn zeta.
  destruct (encode_lines false recursive_sanitize
              (map record_dict (to_dict_records df))) as [data [[]|e]] eqn:Henc;
    cbn [fst snd].
  - unfold ret. exists df, name, w1. by rewrite Henc.
  - right. apply encode_lines_raise in Henc
      as (written & bad & rest & Hsplit & Hwritten & Hbad).
    exists df, written, bad, rest. rewrite Hwritten. cbn [fst snd disk].
    by rewrite Hdisk.
Qed.
End JsonlBranches.

(** ** Failures and the output file *)

Section Failures.
Context `{UnicodeData, Pandas, Openpyxl, Network}.

(** The three branches that hand a finished file to the disk fail, if
    they fail, before that. *)
Lemma run_conversion_raise c src url w e w' :
  c ≠ ParquetToJsonl →
  run_conversion c src url w = (Raise e, w') →
  disk w' = disk w.
Proof.
  intros Hc. destruct c; [| | | done |]; cbn [run_conversion].
  - unfold csv_to_parquet. destruct src as [s|]; [|by intros [= _ <-]].
    case_match; [|by intros [= _ <-]].
    rewrite bind_lift. case_match; [|by intros [= _ <-]].
    rewrite bind_lift. case_match; [|by intros [= _ <-]]. done.
  - unfold parquet_to_csv. destruct src as [s|]; [|by intros [= _ <-]].
    case_match; [|by intros [= _ <-]].
    rewrite bind_lift. case_match; [|by intros [= _ <-]].
    rewrite bind_lift. case_match; [|by intros [= _ <-]]. done.
  - pose proof (csv_to_jsonl_run src w) as Hrun.
    intros Heq. rewrite Heq in Hrun. by subst.
  - unfold parquet_to_xls. unfold bind at 1.
    destruct (load_parquet src url _ w) as [[loaded|e1] w1] eqn:Hload.
    2:{ intros [= _ <-]. by eapply load_parquet_disk. }
    apply load_parquet_disk in Hload. unfold same_disk in Hload.
    rewrite bind_lift. case_match; [done|]. by intros [= _ <-].
Qed.
End Failures.

(** C8, as stated, fails in Parquet to JSONL: the file is opened before
    the records are serialized, so a record that [json.dumps] rejects
    aborts the request with the lines of the earlier records on disk. *)
Lemma parquet_to_jsonl_partial_output :
  let run :=
    @dataset_converter plain_unicode tags_pandas strict_openpyxl
       (table_network [])
       (Some (FileObject (u "tags.parquet") tags_parquet))
       (Some (u "Parquet to JSONL")) None empty_world in
  run.1 = Raise TypeError
  ∧ disk empty_world !! u "output.jsonl" = None
  ∧ disk run.2 !! u "output.jsonl"
    = Some (map byte_of
              (u "{" ++ quoted "name" ++ u ": " ++ quoted "a" ++ u ", "
                 ++ quoted "tags" ++ u ": null}" ++ [10%N])).
Proof. vm_compute. done. Qed.

(** C8, amended. A failing request leaves every file as it was, with one
    exception: when Parquet to JSONL has loaded its table and a record
    cannot be serialized (or its text cannot be encoded), [output.jsonl]
    has been created or truncated and holds the lines of the records
    before that one; no other file is touched. *)
Theorem failure_leaves_disk `{UnicodeData, Pandas, Openpyxl, Network}
    (input_file : option file_input) (conversion_type parquet_url : option str)
    (w w' : world) (e : exn) :
  dataset_converter input_file conversion_type parquet_url w = (Raise e, w') →
  disk w' = disk w
  ∨ (conversion_of conversion_type = Some ParquetToJsonl
     ∧ ∃ df written bad rest,
         map record_dict (to_dict_records df) = written ++ bad :: rest
         ∧ (encode_lines false recursive_sanitize written).2 = Ok tt
         ∧ encode_lines false recursive_sanitize [bad] = ([], Raise e)
         ∧ disk w' = <[u "output.jsonl" :=
                        (encode_lines false recursive_sanitize written).1]> (disk w)).
Proof.
  unfold dataset_converter. unfold bind at 1.
  destruct (resolve_input input_file w) as [r w0] eqn:Hres.
  pose proof (resolve_input_world _ _ _ _ Hres) as ->.
  destruct r as [src|e0]; [|by intros [= _ <-]; left].
  rewrite run_selected_dispatch. unfold dispatch_by_type, bind.
  destruct (conversion_of conversion_type) as [c|] eqn:Hc;
    [|by intros [= _ <-]; left].
  destruct (run_conversion c src parquet_url w) as [[o|e1] w1] eqn:Hrun; [done|].
  intros [= <- <-].
  assert (c = ParquetToJsonl ∨ c ≠ ParquetToJsonl) as [->|Hne]
    by (destruct c; (by left) || (by right)).
  - pose proof (parquet_to_jsonl_run src parquet_url w) as Hpj.
    cbn [run_conversion] in Hrun. rewrite Hrun in Hpj.
    destruct Hpj as [Hdisk|Hpartial]; [by left|]. right. done.
  - left. by eapply run_conversion_raise.
Qed.

Lemma failure_leaves_disk_witness :
  let run :=
    @dataset_converter plain_unicode tags_pandas strict_openpyxl
       (table_network [])
       (Some (FileObject (u "tags.parquet") tags_parquet))
       (Some (u "Parquet to JSONL")) None empty_world in
  disk run.2 = disk empty_world
  ∨ (conversion_of (Some (u "Parquet to JSONL")) = Some ParquetToJsonl
     ∧ ∃ df written bad rest,
         map record_dict (@to_dict_records tags_pandas df) = written ++ bad :: rest
         ∧ (encode_lines false recursive_sanitize written).2 = Ok tt
         ∧ encode_lines false recursive_sanitize [bad] = ([], Raise TypeError)
         ∧ disk run.2 = <[u "output.jsonl" :=
                           (encode_lines false recursive_sanitize written).1]>
                          (disk empty_world)).
Proof.
  intros run.
  apply (@failure_leaves_disk plain_unicode tags_pandas strict_openpyxl
           (table_network [])
           (Some (FileObject (u "tags.parquet") tags_parquet))
           (Some (u "Parquet to JSONL")) None empty_world run.2 TypeError).
  vm_compute. reflexivity.
Defined.

(** ** ASCII escaping *)

Section Escaping.
Context `{UnicodeData, Pandas, Openpyxl, Network}.
Local Open Scope N_scope.


Lemma escape_char_non_ascii c :
  128 <= c →
  escape_char false c = [c]
  ∧ escape_char true c
    = if c <? 0x10000 then u_escape c
      else u_escape (0xD800 + (c - 0x10000) / 1024)
           ++ u_escape (0xDC00 + (c - 0x10000) mod 1024).
Proof.
  intros Hc. unfold escape_char, escape_unicode, escape_ascii, short_escape.
  repeat match goal with
  | |- context [?a =? ?b] =>
    destruct (N.eqb_spec a b); [lia|]
  end.
  destruct (N.leb_spec c 0x1F); [lia|].
  destruct (N.leb_spec c 126); [lia|]. rewrite andb_false_r.
  split; [done|].
  destruct (N.leb_spec 0x10000 c), (N.ltb_spec c 0x10000); (done || lia).
Qed.

Lemma Exists_join (P : N → Prop) sep parts p :
  p ∈ parts → Exists P p → Exists P (join sep parts).
Proof.
  intros Hin Hp. destruct parts as [|q qs]; [by apply elem_of_nil in Hin|].
  simpl. apply Exists_app.
  apply elem_of_cons in Hin as [->|Hin]; [by left|]. right.
  induction qs as [|r rs IH]; [by apply elem_of_nil in Hin|].
  simpl. apply Exists_app.
  apply elem_of_cons in Hin as [->|Hin].
  - left. apply Exists_app. by right.
  - right. by apply IH.
Qed.

Lemma encode_string_non_ascii s :
  existsb (λ c, 128 <=? c) s = true →
  Exists non_ascii (encode_string false s).
Proof.
  intros Hs. apply existsb_exists in Hs as (c & Hc & Hhigh%N.leb_le).
  unfold encode_string. apply Exists_cons_tl, Exists_app. left.
  apply list_elem_of_In in Hc.
  induction s as [|a s IH]; [by apply elem_of_nil in Hc|].
  cbn [map concat]. apply Exists_app.
  apply elem_of_cons in Hc as [<-|Hc]; [|right; by apply IH].
  left. rewrite (proj1 (escape_char_non_ascii c Hhigh)). by left.
Qed.

Lemma json_key_non_ascii k ks :
  has_non_ascii k = true → json_key k = Some ks →
  Exists non_ascii (encode_string false ks).
Proof.
  destruct k; try done. simpl. intros Hs [= <-].
  by apply encode_string_non_ascii.
Qed.

(** With [ensure_ascii=False] a character outside ASCII reaches the
    output as it is. *)
Lemma json_encode_non_ascii v b :
  has_non_ascii v = true → json_encode false v = Some b →
  Exists non_ascii b.
Proof.
  revert b. induction v as [|x|z|f|t|x|l IH|l IH|d IH|c r]
    using pyval_nested_ind; intros b; cbn [json_encode has_non_ascii];
    try done.
  - intros Hs [= <-]. by apply encode_string_non_ascii.
  - intros Hl. destruct (sequence_opt _) as [items|] eqn:Hitems; [|done].
    intros [= <-]. apply sequence_opt_map in Hitems.
    apply existsb_exists in Hl as (x & Hx%list_elem_of_In & Hhigh).
    apply list_elem_of_lookup in Hx as [i Hi].
    destruct (Forall2_lookup_l _ _ _ _ _ Hitems Hi) as (y & Hy & Hxy).
    unfold encode_array. apply Exists_app. right. apply Exists_app. left.
    eapply Exists_join; [by eapply list_elem_of_lookup_2|].
    eapply Forall_lookup_1 in IH; [|exact Hi]. by apply IH.
  - intros Hl. destruct (sequence_opt _) as [items|] eqn:Hitems; [|done].
    intros [= <-]. apply sequence_opt_map in Hitems.
    apply existsb_exists in Hl as (x & Hx%list_elem_of_In & Hhigh).
    apply list_elem_of_lookup in Hx as [i Hi].
    destruct (Forall2_lookup_l _ _ _ _ _ Hitems Hi) as (y & Hy & Hxy).
    unfold encode_array. apply Exists_app. right. apply Exists_app. left.
    eapply Exists_join; [by eapply list_elem_of_lookup_2|].
    eapply Forall_lookup_1 in IH; [|exact Hi]. by apply IH.
  - intros Hd. destruct (sequence_opt _) as [members|] eqn:Hm; [|done].
    intros [= <-]. apply sequence_opt_map in Hm.
    apply existsb_exists in Hd as ([k x] & Hkx%list_elem_of_In & Hhigh).
    apply list_elem_of_lookup in Hkx as [i Hi].
    destruct (Forall2_lookup_l _ _ _ _ _ Hm Hi) as (y & Hy & Hxy).
    unfold encode_object. apply Exists_app. right. apply Exists_app. left.
    eapply Exists_join; [by eapply list_elem_of_lookup_2|].
    eapply Forall_lookup_1 in IH as [IHk IHx]; [|exact Hi].
    destruct (json_key k) as [ks|] eqn:Hks; [|done].
    destruct (json_encode false x) as [xs|] eqn:Hxs; [|done].
    injection Hxy as <-. unfold encode_member.
    apply orb_true_iff in Hhigh as [Hk|Hx].
    + apply Exists_app. left. by eapply json_key_non_ascii.
    + apply Exists_app. right. apply Exists_app. right. by apply IHx.
Qed.

Lemma utf8_encode_char_high c bs :
  128 <= c → utf8_encode_char c = Some bs →
  Exists (λ x, 128 <= Byte.to_N x) bs.
Proof.
  intros Hc. unfold utf8_encode_char.
  destruct (N.ltb_spec c 0x80); [lia|].
  destruct (N.ltb_spec c 0x800).
  { intros [= <-]. left.
    assert (c / 64 < 32) by (apply N.Div0.div_lt_upper_bound; lia).
    generalize dependent (c / 64). intros q Hq.
    rewrite to_N_byte_of; lia. }
  destruct (is_surrogate c); [done|].
  destruct (N.ltb_spec c 0x10000).
  { intros [= <-]. left.
    assert (c / 4096 < 16) by (apply N.Div0.div_lt_upper_bound; lia).
    generalize dependent (c / 4096). intros q Hq.
    rewrite to_N_byte_of; lia. }
  destruct (N.ltb_spec c 0x110000); [|done].
  intros [= <-]. left.
  assert (c / 262144 < 5) by (apply N.Div0.div_lt_upper_bound; lia).
  generalize dependent (c / 262144). intros q Hq.
  rewrite to_N_byte_of; lia.
Qed.

Lemma utf8_encode_high s bs :
  Exists non_ascii s → utf8_encode s = Some bs →
  Exists (λ x, 128 <= Byte.to_N x) bs.
Proof.
  intros Hs. revert bs. induction Hs as [c s Hc|c s _ IH]; intros bs;
    cbn [utf8_encode];
    destruct (utf8_encode_char c) as [b|] eqn:Hb; try done;
    destruct (utf8_encode s) as [br|]; try done;
    intros [= <-]; apply Exists_app.
  - left. by eapply utf8_encode_char_high.
  - right. by apply IH.
Qed.

Lemma recursive_sanitize_non_ascii v :
  has_non_ascii v = true → has_non_ascii (recursive_sanitize v) = true.
Proof.
  induction v as [|x|z|f|t|x|l IH|l IH|d IH|c r] using pyval_nested_ind;
    cbn [recursive_sanitize has_non_ascii]; try done.
  - intros (x & Hx & Hhigh)%existsb_exists. apply existsb_exists.
    exists (recursive_sanitize x). split; [by apply in_map|].
    eapply Forall_forall in IH; [|by apply list_elem_of_In]. by apply IH.
  - intros ([k x] & Hkx & Hhigh)%existsb_exists. apply existsb_exists.
    exists (k, recursive_sanitize x). split.
    + by apply (in_map (λ kv, match kv with (k, x) => (k, recursive_sanitize x) end)
                  d (k, x)).
    + eapply Forall_forall in IH as [_ IHx]; [|by apply list_elem_of_In].
      apply orb_true_iff in Hhigh as [Hk|Hx]; apply orb_true_iff;
        [by left | right; by apply IHx].
Qed.

(** Every line written without ASCII escaping for an item with a
    character outside ASCII has a byte above 0x7F. *)
Lemma encode_lines_high prepare items item :
  (encode_lines false prepare items).2 = Ok tt →
  item ∈ items → has_non_ascii (prepare item) = true →
  Exists (λ x, 128 <= Byte.to_N x) (encode_lines false prepare items).1.
Proof.
  induction items as [|a items IH]; [by intros _ ?%elem_of_nil|].
  cbn [encode_lines].
  destruct (json_dumps false (prepare a)) as [line|] eqn:Hline; [|done].
  destruct (utf8_encode (line ++ [10])) as [data|] eqn:Hdata; [|done].
  cbn [fst snd]. intros Hok [->|Hin]%elem_of_cons Hhigh; apply Exists_app.
  - left. eapply utf8_encode_high; [|exact Hdata].
    apply Exists_app. left. by eapply json_encode_non_ascii.
  - right. by apply IH.
Qed.

(** *** Where the escapes end up *)

Lemma occurs_in_refl t : occurs_in t t.
Proof. exists [], []. by rewrite app_nil_r. Qed.

Lemma occurs_in_trans t s r : occurs_in t s → occurs_in s r → occurs_in t r.
Proof.
  intros (b1 & a1 & ->) (b2 & a2 & ->).
  exists (b2 ++ b1), (a1 ++ a2). by rewrite <- !app_assoc.
Qed.

Lemma occurs_in_app_l t s pre : occurs_in t s → occurs_in t (pre ++ s).
Proof. intros (b & a & ->). exists (pre ++ b), a. by rewrite <- app_assoc. Qed.

Lemma occurs_in_app_r t s post : occurs_in t s → occurs_in t (s ++ post).
Proof. intros (b & a & ->). exists b, (a ++ post). by rewrite <- !app_assoc. Qed.

Lemma occurs_in_concat t (parts : list str) p :
  p ∈ parts → occurs_in t p → occurs_in t (concat parts).
Proof.
  intros Hin Ht. induction parts as [|q qs IH]; [by apply elem_of_nil in Hin|].
  cbn [concat]. apply elem_of_cons in Hin as [->|Hin].
  - by apply occurs_in_app_r.
  - by apply occurs_in_app_l, IH.
Qed.

Lemma occurs_in_join t sep parts p :
  p ∈ parts → occurs_in t p → occurs_in t (join sep parts).
Proof.
  intros Hin Ht. destruct parts as [|q qs]; [by apply elem_of_nil in Hin|].
  cbn [join]. apply elem_of_cons in Hin as [->|Hin].
  - by apply occurs_in_app_r.
  - apply occurs_in_app_l.
    apply (occurs_in_concat t _ (sep ++ p)).
    + by apply (list_elem_of_fmap_2 (λ q, sep ++ q)).
    + by apply occurs_in_app_l.
Qed.

Lemma occurs_in_encode_string ea c s :
  c ∈ s → occurs_in (escape_char ea c) (encode_string ea s).
Proof.
  intros Hc. unfold encode_string.
  apply (occurs_in_app_l _ _ [34]), occurs_in_app_r.
  apply (occurs_in_concat _ _ (escape_char ea c)); [|apply occurs_in_refl].
  by apply (list_elem_of_fmap_2 (escape_char ea)).
Qed.

(** Escaping commutes with taking a piece. *)
Lemma occurs_in_escaped ea t s :
  occurs_in t s →
  occurs_in (concat (map (escape_char ea) t)) (encode_string ea s).
Proof.
  intros (b & a & ->). unfold encode_string.
  apply (occurs_in_app_l _ _ [34]), occurs_in_app_r.
  rewrite !List.map_app, !concat_app. eexists _, _. reflexivity.
Qed.

Lemma escape_ascii_hex_digit d : d < 16 → escape_ascii (hex_digit d) = [hex_digit d].
Proof.
  intros Hd. unfold hex_digit.
  destruct (N.ltb_spec d 10).
  - assert (d = 0 ∨ d = 1 ∨ d = 2 ∨ d = 3 ∨ d = 4 ∨ d = 5 ∨ d = 6 ∨ d = 7
            ∨ d = 8 ∨ d = 9) as Hcases by lia.
    repeat destruct Hcases as [->|Hcases]; try reflexivity. by subst.
  - assert (d = 10 ∨ d = 11 ∨ d = 12 ∨ d = 13 ∨ d = 14 ∨ d = 15) as Hcases by lia.
    repeat destruct Hcases as [->|Hcases]; try reflexivity. by subst.
Qed.

(** Inside a JSON string, an escape [\uXXXX] is written with its
    backslash doubled; the escape itself is still there. *)
Lemma u_escape_escaped x :
  concat (map (escape_char true) (u_escape x)) = 92 :: u_escape x.
Proof.
  unfold u_escape, hex4, hex2. cbn [app map concat]. unfold escape_char.
  rewrite !escape_ascii_hex_digit by (apply N.mod_upper_bound; lia).
  reflexivity.
Qed.
End Escaping.

(** ** Reading back what the encoder writes *)

Section Tokens.
Local Open Scope N_scope.

Lemma ends_value_no_digit rest : ends_value rest → no_digit_ahead rest.
Proof. destruct rest as [|c r]; [done|]. by intros [->| [->| ->]]. Qed.

Lemma take_digits_stop rest :
  no_digit_ahead rest → take_digits rest = (Decimal.Nil, rest).
Proof. destruct rest as [|c r]; [done|]. simpl. by intros ->. Qed.

Lemma take_digits_uint_chars d rest :
  no_digit_ahead rest → take_digits (uint_chars d ++ rest) = (d, rest).
Proof.
  intros Hrest. induction d; cbn [uint_chars app];
    [by apply take_digits_stop|..];
    cbn [take_digits]; rewrite IHd; reflexivity.
Qed.

Lemma N_to_uint_nonnil n : N.to_uint n ≠ Decimal.Nil.
Proof.
  rewrite <- (DecimalN.Unsigned.of_to n) at 1.
  rewrite DecimalN.Unsigned.to_of. apply DecimalFacts.unorm_nonnil.
Qed.

(** [N.to_uint] never writes a leading zero. *)
Lemma N_to_uint_ok n : int_digits_ok (N.to_uint n) = true.
Proof.
  pose proof (DecimalN.Unsigned.to_of (N.to_uint n)) as Hnorm.
  rewrite DecimalN.Unsigned.of_to in Hnorm.
  pose proof (N_to_uint_nonnil n) as Hnil.
  destruct (N.to_uint n) as [|d| | | | | | | | |]; try done.
  destruct d; try done;
    rewrite DecimalFacts.unorm_D0 in Hnorm;
    match type of Hnorm with
    | Decimal.D0 ?x = _ =>
      pose proof (DecimalFacts.nb_digits_unorm x ltac:(done)) as Hlen;
      rewrite <- Hnorm in Hlen; simpl in Hlen; lia
    end.
Qed.

Lemma hex_value_digit d : d < 16 → hex_value (hex_digit d) = Some d.
Proof.
  intros Hd. unfold hex_value, hex_digit, is_digit.
  destruct (N.ltb_spec d 10).
  - destruct (N.leb_spec 48 (48 + d)); [|lia].
    destruct (N.leb_spec (48 + d) 57); [|lia]. simpl. f_equal. lia.
  - destruct (N.leb_spec (87 + d) 57); [lia|]. rewrite andb_false_r.
    destruct (N.leb_spec 97 (87 + d)); [|lia].
    destruct (N.leb_spec (87 + d) 102); [|lia]. simpl. f_equal. lia.
Qed.

Lemma parse_hex4_hex4 x rest :
  parse_hex4 (hex4 x ++ rest) = Some (x mod 0x10000, rest).
Proof.
  unfold hex4, hex2. cbn [app]. unfold parse_hex4.
  rewrite !hex_value_digit by (apply N.mod_upper_bound; lia).
  f_equal. f_equal.
  rewrite N.Div0.div_div. change (256 * 16) with 4096.
  assert (E1 : x mod 65536 = x mod 4096 + 4096 * (x / 4096 mod 16))
    by (change 65536 with (4096 * 16); apply N.Div0.mod_mul_r).
  assert (E2 : x mod 4096 = x mod 256 + 256 * (x / 256 mod 16))
    by (change 4096 with (256 * 16); apply N.Div0.mod_mul_r).
  assert (E3 : x mod 256 = x mod 16 + 16 * (x / 16 mod 16))
    by (change 256 with (16 * 16); apply N.Div0.mod_mul_r).
  rewrite E1, E2, E3.
  generalize (x / 4096 mod 16) (x / 256 mod 16) (x / 16 mod 16) (x mod 16).
  intros. lia.
Qed.
End Tokens.

Section Strings.
Local Open Scope N_scope.

Lemma parse_chars_u_escape x tail units rest :
  parse_chars tail = Some (units, rest) →
  parse_chars (u_escape x ++ tail) = Some (x mod 0x10000 :: units, rest).
Proof.
  intros Htail. unfold u_escape.
  pose proof (parse_hex4_hex4 x []) as Hhex. rewrite app_nil_r in Hhex.
  unfold hex4, hex2 in *. cbn [app] in *.
  cbn [parse_chars]. change (92 =? 34) with false. change (92 =? 92) with true.
  change (117 =? 117) with true. cbv iota.
  by rewrite Hhex, Htail.
Qed.

Lemma short_escape_unescape c e :
  short_escape c = Some e →
  e ≠ 117 ∧ unescape e = Some c ∧ c < 0x10000.
Proof.
  unfold short_escape.
  repeat match goal with
  | |- context [c =? ?k] => destruct (N.eqb_spec c k) as [->|?]
  end; intros [= <-]; (split; [done|split; [reflexivity|done]]).
Qed.

Lemma short_escape_none c :
  short_escape c = None → c ≠ 34 ∧ c ≠ 92.
Proof.
  unfold short_escape.
  destruct (N.eqb_spec c 34); [done|]. destruct (N.eqb_spec c 92); [done|].
  done.
Qed.

(** One character, escaped by the ASCII encoder, reads back as its
    UTF-16 code units. *)
Lemma parse_chars_escape_ascii c tail units rest :
  parse_chars tail = Some (units, rest) →
  parse_chars (escape_ascii c ++ tail) = Some (utf16_units c ++ units, rest).
Proof.
  intros Htail. unfold escape_ascii.
  destruct (short_escape c) as [e|] eqn:He.
  - apply short_escape_unescape in He as (He & Hun & Hc).
    cbn [app parse_chars]. change (92 =? 34) with false.
    change (92 =? 92) with true. cbv iota.
    destruct (N.eqb_spec e 117); [done|].
    rewrite Hun, Htail. unfold utf16_units.
    by destruct (N.ltb_spec c 0x10000); [|lia].
  - apply short_escape_none in He as [H34 H92].
    destruct ((32 <=? c) && (c <=? 126)) eqn:Hp.
    + apply andb_true_iff in Hp as [Hlo%N.leb_le Hhi%N.leb_le].
      cbn [app parse_chars].
      destruct (N.eqb_spec c 34); [done|]. destruct (N.eqb_spec c 92); [done|].
      destruct (N.ltb_spec c 32); [lia|]. by rewrite Htail.
    + destruct (N.leb_spec 0x10000 c) as [Hbig|Hsmall].
      * rewrite <- app_assoc.
        erewrite parse_chars_u_escape;
          [|erewrite parse_chars_u_escape; [reflexivity|exact Htail]].
        unfold utf16_units. destruct (N.ltb_spec c 0x10000); [lia|].
        cbn [app]. repeat f_equal.
        apply N.mod_small.
        pose proof (N.mod_upper_bound (c - 65536) 1024). lia.
      * erewrite parse_chars_u_escape; [|exact Htail].
        unfold utf16_units. destruct (N.ltb_spec c 0x10000); [|lia].
        cbn [app]. by rewrite N.mod_small.
Qed.

(** A string written with [ensure_ascii=True] reads back as the UTF-16
    code units of the text. *)
Lemma parse_chars_encode_string s rest :
  parse_chars (concat (map (escape_char true) s) ++ 34 :: rest)
  = Some (utf16 s, rest).
Proof.
  induction s as [|c s IH]; cbn [map concat app].
  - cbn [parse_chars]. by change (34 =? 34) with true.
  - rewrite <- app_assoc. unfold escape_char at 1.
    by apply parse_chars_escape_ascii.
Qed.
End Strings.

Section Numbers.
Local Open Scope N_scope.

Lemma uint_chars_head d :
  d ≠ Decimal.Nil → ∃ c r, uint_chars d = c :: r ∧ is_digit c = true.
Proof. destruct d; [done|..]; intros _; simpl; eauto. Qed.

Lemma parse_frac_none rest :
  ends_value rest → parse_frac rest = Some (Decimal.Nil, rest).
Proof.
  destruct rest as [|c r]; [done|]. by intros [->| [->| ->]].
Qed.

Lemma parse_exp_none rest :
  ends_value rest → parse_exp rest = Some (None, rest).
Proof.
  destruct rest as [|c r]; [done|]. by intros [->| [->| ->]].
Qed.

Lemma parse_exp_digits_chars negative n (pad : bool) rest :
  no_digit_ahead rest →
  parse_exp_digits negative
    ((if pad then 48 :: N_chars n else N_chars n) ++ rest)
  = Some (Some (if negative then (- Z.of_N n)%Z else Z.of_N n), rest).
Proof.
  intros Hrest. unfold parse_exp_digits, N_chars.
  assert (take_digits ((if pad then 48 :: uint_chars (N.to_uint n)
                        else uint_chars (N.to_uint n)) ++ rest)
          = (if pad then Decimal.D0 (N.to_uint n) else N.to_uint n, rest)) as ->.
  { destruct pad.
    - apply (take_digits_uint_chars (Decimal.D0 (N.to_uint n))); done.
    - by apply take_digits_uint_chars. }
  cbn [fst snd].
  assert (N.of_uint (if pad then Decimal.D0 (N.to_uint n) else N.to_uint n) = n)
    as Hn by (destruct pad; apply DecimalN.Unsigned.of_to).
  pose proof (N_to_uint_nonnil n).
  destruct pad; [by rewrite Hn|].
  destruct (N.to_uint n) eqn:E; try done; by rewrite Hn.
Qed.

Lemma parse_exp_chars e rest :
  ends_value rest →
  parse_exp (exp_chars e ++ rest) = Some (Some e, rest).
Proof.
  intros Hrest%ends_value_no_digit. unfold exp_chars. cbn [app parse_exp].
  change ((101 =? 101) || (101 =? 69)) with true. cbv iota.
  destruct (Z.ltb_spec e 0).
  - change (45 =? 45) with true. cbv iota.
    rewrite (parse_exp_digits_chars true (Z.abs_N e) (Z.abs e <? 10)%Z) by done.
    do 3 f_equal. lia.
  - change (43 =? 45) with false. change (43 =? 43) with true. cbv iota.
    rewrite (parse_exp_digits_chars false (Z.abs_N e) (Z.abs e <? 10)%Z) by done.
    do 3 f_equal. lia.
Qed.

Lemma parse_exp_part e rest :
  ends_value rest →
  parse_exp (match e with Some e => exp_chars e | None => [] end ++ rest)
  = Some (e, rest).
Proof.
  destruct e as [e|]; [apply parse_exp_chars | apply parse_exp_none].
Qed.

Lemma exp_part_no_digit e rest :
  ends_value rest →
  no_digit_ahead (match e with Some e => exp_chars e | None => [] end ++ rest).
Proof.
  destruct e as [e|]; [done | apply ends_value_no_digit].
Qed.

Lemma exp_part_no_dot e rest :
  ends_value rest →
  parse_frac (match e with Some e => exp_chars e | None => [] end ++ rest)
  = Some (Decimal.Nil,
          match e with Some e => exp_chars e | None => [] end ++ rest).
Proof.
  destruct e as [e|]; [done | apply parse_frac_none].
Qed.

Lemma parse_frac_chars frac tail :
  frac ≠ Decimal.Nil → no_digit_ahead tail →
  parse_frac (46 :: uint_chars frac ++ tail) = Some (frac, tail).
Proof.
  intros Hfrac Htail. cbn [parse_frac]. change (46 =? 46) with true. cbv iota.
  rewrite take_digits_uint_chars by done. cbn [fst]. by destruct frac.
Qed.

(** A finite number literal reads back as its parts. *)
Lemma parse_number_finite negative i frac e rest :
  ends_value rest →
  parse_number (finite_chars negative i frac e ++ rest)
  = Some (JNumber negative i frac e, rest).
Proof.
  intros Hrest. unfold finite_chars. rewrite <- !app_assoc.
  set (exp_text := match e with Some e => exp_chars e | None => [] end).
  set (frac_text := match frac with
                    | Decimal.Nil => []
                    | _ => 46 :: uint_chars frac
                    end).
  assert (Htail : no_digit_ahead (frac_text ++ exp_text ++ rest)).
  { subst frac_text. destruct frac; try done. by apply exp_part_no_digit. }
  assert (Hfrac : parse_frac (frac_text ++ exp_text ++ rest)
                  = Some (frac, exp_text ++ rest)).
  { subst frac_text. destruct frac;
      [by apply exp_part_no_dot|..];
      (apply parse_frac_chars; [done | by apply exp_part_no_digit]). }
  assert (Hdigits : take_digits (N_chars i ++ frac_text ++ exp_text ++ rest)
                    = (N.to_uint i, frac_text ++ exp_text ++ rest))
    by (by apply take_digits_uint_chars).
  assert (Hsign : match (if negative then [45] else [])
                        ++ N_chars i ++ frac_text ++ exp_text ++ rest with
                  | c :: r =>
                    if c =? 45 then (true, r)
                    else (false, (if negative then [45] else [])
                                 ++ N_chars i ++ frac_text ++ exp_text ++ rest)
                  | [] => (false, [])
                  end
                  = (negative, N_chars i ++ frac_text ++ exp_text ++ rest)).
  { destruct negative; [done|]. cbn [app].
    destruct (uint_chars_head _ (N_to_uint_nonnil i)) as (c & r & Hc & Hdigit).
    unfold N_chars. rewrite Hc. cbn [app].
    unfold is_digit in Hdigit.
    apply andb_true_iff in Hdigit as [Hlo%N.leb_le _].
    destruct (N.eqb_spec c 45); [lia|done]. }
  unfold parse_number. rewrite Hsign. cbn [fst snd]. rewrite Hdigits.
  cbn [fst snd]. rewrite N_to_uint_ok, Hfrac.
  subst exp_text. rewrite parse_exp_part by done.
  by rewrite DecimalN.Unsigned.of_to.
Qed.

Lemma parse_number_int z rest :
  ends_value rest →
  parse_number (int_repr z ++ rest)
  = Some (JNumber (z <? 0)%Z (Z.abs_N z) Decimal.Nil None, rest).
Proof.
  intros Hrest.
  rewrite <- (parse_number_finite (z <? 0)%Z (Z.abs_N z) Decimal.Nil None rest)
    by done.
  unfold int_repr, finite_chars. rewrite !app_nil_r.
  by destruct (z <? 0)%Z.
Qed.
End Numbers.

Section Values.
Local Open Scope N_scope.

Lemma parse_value_string fuel r :
  parse_value (S fuel) (34 :: r)
  = match parse_chars r with
    | Some (units, rest) => Some (JString units, rest)
    | None => None
    end.
Proof. reflexivity. Qed.

Lemma parse_value_array fuel r :
  parse_value (S fuel) (91 :: r)
  = match skip_ws r with
    | c' :: r' =>
      if c' =? 93 then Some (JArray [], r')
      else match parse_items fuel r with
           | Some (items, rest) => Some (JArray items, rest)
           | None => None
           end
    | [] => None
    end.
Proof. reflexivity. Qed.

Lemma parse_value_object fuel r :
  parse_value (S fuel) (123 :: r)
  = match skip_ws r with
    | c' :: r' =>
      if c' =? 125 then Some (JObject [], r')
      else match parse_members fuel r with
           | Some (members, rest) => Some (JObject members, rest)
           | None => None
           end
    | [] => None
    end.
Proof. reflexivity. Qed.

Lemma parse_value_number fuel c r :
  c = 45 ∨ is_digit c = true →
  parse_value (S fuel) (c :: r) = parse_number (c :: r).
Proof.
  intros [->|Hc]; [reflexivity|].
  unfold is_digit in Hc. apply andb_true_iff in Hc as [Hlo%N.leb_le Hhi%N.leb_le].
  cbn [parse_value skip_ws]. unfold is_ws.
  repeat match goal with
  | |- context [c =? ?k] => destruct (N.eqb_spec c k); [lia|]
  end.
  cbn [orb]. cbv iota.
  repeat match goal with
  | |- context [c =? ?k] => destruct (N.eqb_spec c k); [lia|]
  end.
  reflexivity.
Qed.

Lemma parse_value_space fuel s : parse_value fuel (32 :: s) = parse_value fuel s.
Proof. by destruct fuel. Qed.

Lemma parse_items_space fuel s : parse_items fuel (32 :: s) = parse_items fuel s.
Proof. destruct fuel; [done|]. cbn [parse_items]. by rewrite parse_value_space. Qed.

Lemma parse_members_space fuel s :
  parse_members fuel (32 :: s) = parse_members fuel s.
Proof. by destruct fuel. Qed.

Lemma finite_chars_head negative i frac e :
  ∃ c r, finite_chars negative i frac e = c :: r
         ∧ (c = 45 ∨ is_digit c = true).
Proof.
  unfold finite_chars. destruct negative; cbn [app]; [eauto|].
  destruct (uint_chars_head _ (N_to_uint_nonnil i)) as (c & r & Hc & Hdigit).
  unfold N_chars. rewrite Hc. cbn [app]. eauto.
Qed.

Lemma int_repr_head z :
  ∃ c r, int_repr z = c :: r ∧ (c = 45 ∨ is_digit c = true).
Proof.
  unfold int_repr. destruct (z <? 0)%Z; [eauto|].
  destruct (uint_chars_head _ (N_to_uint_nonnil (Z.abs_N z)))
    as (c & r & Hc & Hdigit).
  unfold N_chars. rewrite Hc. eauto.
Qed.

(** No encoding starts with white space or with a closing bracket. *)
Lemma json_encode_head ea v enc :
  json_encode ea v = Some enc →
  ∃ c r, enc = c :: r ∧ is_ws c = false ∧ c ≠ 93 ∧ c ≠ 125.
Proof.
  assert (Hnum : ∀ c, c = 45 ∨ is_digit c = true →
                      is_ws c = false ∧ c ≠ 93 ∧ c ≠ 125).
  { intros c [->|Hc]; [done|]. unfold is_digit in Hc.
    apply andb_true_iff in Hc as [Hlo%N.leb_le Hhi%N.leb_le].
    unfold is_ws.
    repeat match goal with
    | |- context [c =? ?k] => destruct (N.eqb_spec c k); [lia|]
    end.
    split; [done|]. lia. }
  destruct v as [|[]|z|[|[]|negative i frac e]|s|b|l|l|d|c r];
    cbn [json_encode]; try discriminate;
    try (intros [= <-]; eexists _, _; split; [reflexivity|]; done).
  - intros [= <-]. destruct (int_repr_head z) as (c & r & -> & Hc).
    eexists _, _. split; [reflexivity|]. by apply Hnum.
  - intros [= <-]. simpl.
    destruct (finite_chars_head negative i frac e) as (c & r & -> & Hc).
    eexists _, _. split; [reflexivity|]. by apply Hnum.
  - destruct (sequence_opt _); [|done]. intros [= <-].
    eexists _, _. split; [reflexivity|]. done.
  - destruct (sequence_opt _); [|done]. intros [= <-].
    eexists _, _. split; [reflexivity|]. done.
  - destruct (sequence_opt _); [|done]. intros [= <-].
    eexists _, _. split; [reflexivity|]. done.
Qed.

Lemma join_cons2 (sep p q : str) qs :
  join sep (p :: q :: qs) = p ++ sep ++ join sep (q :: qs).
Proof. simpl. by rewrite <- app_assoc. Qed.

Lemma parse_items_encode l :
  Forall reads_back l →
  ∀ items js rest fuel,
    Forall2 (λ x y, json_encode true x = Some y) l items →
    Forall2 (λ x j, to_json x = Some j) l js →
    l ≠ [] →
    (List.length (join (u ", ") items) < fuel)%nat →
    parse_items fuel (join (u ", ") items ++ 93 :: rest) = Some (js, rest).
Proof.
  induction 1 as [|x l Hx Hl IH]; [done|].
  intros items js rest fuel Henc Hjs _ Hfuel.
  inversion Henc as [|? enc ? items' Hxenc Hrest]; subst.
  inversion Hjs as [|? j ? js' Hxj Hrestj]; subst.
  destruct fuel as [|fuel]; [lia|]. cbn [parse_items].
  destruct l as [|x' l'].
  - inversion Hrest; subst. inversion Hrestj; subst.
    cbn [join map concat] in *. rewrite app_nil_r in *.
    rewrite (Hx enc j (93 :: rest) fuel) by (done || (right; by left) || lia).
    reflexivity.
  - inversion Hrest as [|? enc' ? items'' Hx'enc Hrest']; subst.
    rewrite join_cons2 in *. rewrite <- !app_assoc.
    change (u ", ") with [44; 32] in *. cbn [app] in *.
    rewrite length_app in Hfuel. cbn [List.length] in Hfuel.
    rewrite (Hx enc j (44 :: 32 :: join [44; 32] (enc' :: items'') ++ 93 :: rest)
               fuel) by (done || (by left) || lia).
    cbn [skip_ws]. change (is_ws 44) with false. cbv iota.
    change (44 =? 44) with true. cbv iota.
    rewrite parse_items_space.
    rewrite (IH (enc' :: items'') js' rest fuel) by (done || lia).
    reflexivity.
Qed.

Lemma parse_members_step fuel key venc j tail :
  parse_value fuel (venc ++ tail) = Some (j, tail) →
  parse_members (S fuel) (encode_member true key venc ++ tail)
  = match skip_ws tail with
    | c :: r2 =>
      if c =? 44 then
        match parse_members fuel r2 with
        | Some (members, rest') => Some ((utf16 key, j) :: members, rest')
        | None => None
        end
      else if c =? 125 then Some ([(utf16 key, j)], r2)
      else None
    | [] => None
    end.
Proof.
  intros Hvalue. unfold encode_member, encode_string.
  change (u ": ") with [58; 32]. rewrite <- !app_assoc. cbn [app].
  cbn [parse_members skip_ws]. change (is_ws 34) with false. cbv iota.
  change (34 =? 34) with true. cbv iota.
  rewrite <- app_assoc. cbn [app]. rewrite parse_chars_encode_string.
  cbn [skip_ws]. change (is_ws 58) with false. cbv iota.
  change (58 =? 58) with true. cbv iota.
  by rewrite parse_value_space, Hvalue.
Qed.

Lemma parse_members_encode d :
  Forall (λ kv, reads_back kv.1 ∧ reads_back kv.2) d →
  ∀ members jm rest fuel,
    Forall2 (λ kv y,
      match kv with
      | (k, x) =>
        match json_key k, json_encode true x with
        | Some ks, Some xs => Some (encode_member true ks xs)
        | _, _ => None
        end
      end = Some y) d members →
    Forall2 (λ kv m,
      match kv with
      | (k, x) =>
        match json_key k, to_json x with
        | Some ks, Some j => Some (utf16 ks, j)
        | _, _ => None
        end
      end = Some m) d jm →
    d ≠ [] →
    (List.length (join (u ", ") members) < fuel)%nat →
    parse_members fuel (join (u ", ") members ++ 125 :: rest) = Some (jm, rest).
Proof.
  induction 1 as [|[k x] d [_ Hx] Hd IH]; [done|].
  intros members jm rest fuel Henc Hjm _ Hfuel.
  inversion Henc as [|? member ? members' Hmember Hrest]; subst.
  inversion Hjm as [|? m ? jm' Hm Hrestj]; subst.
  destruct (json_key k) as [ks|]; [|done].
  destruct (json_encode true x) as [xs|] eqn:Hxs; [|done].
  destruct (to_json x) as [j|] eqn:Hj; [|done].
  injection Hmember as <-. injection Hm as <-.
  destruct fuel as [|fuel]; [lia|].
  assert (Hlen : (List.length xs ≤ List.length (encode_member true ks xs))%nat).
  { unfold encode_member. rewrite !length_app. lia. }
  destruct d as [|kv' d'].
  - inversion Hrest; subst. inversion Hrestj; subst.
    cbn [join map concat] in *. rewrite app_nil_r in *.
    rewrite (parse_members_step fuel ks xs j (125 :: rest)).
    + reflexivity.
    + apply Hx; try done; [right; by right | lia].
  - inversion Hrest as [|? member' ? members'' Hmember' Hrest']; subst.
    rewrite join_cons2 in *. rewrite <- !app_assoc.
    change (u ", ") with [44; 32] in *. cbn [app] in *.
    rewrite length_app in Hfuel. cbn [List.length] in Hfuel.
    rewrite (parse_members_step fuel ks xs j).
    + cbn [skip_ws]. change (is_ws 44) with false. cbv iota.
      change (44 =? 44) with true. cbv iota.
      rewrite parse_members_space.
      rewrite (IH (member' :: members'') jm' rest fuel) by (done || lia).
      reflexivity.
    + apply Hx; try done; [by left | lia].
Qed.

Lemma join_head sep (p : str) ps c r :
  p = c :: r → ∃ r', join sep (p :: ps) = c :: r'.
Proof. intros ->. simpl. eauto. Qed.

(** Reading back the encoder: every value that [json.dumps] encodes and
    that has a JSON value reads back as that value. *)
Lemma json_encode_reads_back v : reads_back v.
Proof.
  induction v as [|b|z|f|s|b|l IH|l IH|d IH|c r] using pyval_nested_ind;
    intros enc j rest fuel; cbn [json_encode to_json].
  - intros [= <-] [= <-] Hrest Hfuel.
    destruct fuel as [|fuel]; [simpl in Hfuel; lia|]. reflexivity.
  - destruct b; intros [= <-] [= <-] Hrest Hfuel;
      (destruct fuel as [|fuel]; [simpl in Hfuel; lia|]); reflexivity.
  - intros [= <-] [= <-] Hrest Hfuel.
    destruct (int_repr_head z) as (c & r & Hz & Hc).
    destruct fuel as [|fuel]; [rewrite Hz in Hfuel; simpl in Hfuel; lia|].
    rewrite Hz. cbn [app]. rewrite parse_value_number by done.
    change (c :: r ++ rest) with ((c :: r) ++ rest). rewrite <- Hz.
    by apply parse_number_int.
  - destruct f as [|negative|negative i frac e]; [done..|].
    intros [= <-] [= <-] Hrest Hfuel. cbn [floatstr float_repr] in *.
    destruct (finite_chars_head negative i frac e) as (c & r & Hz & Hc).
    destruct fuel as [|fuel]; [rewrite Hz in Hfuel; simpl in Hfuel; lia|].
    rewrite Hz. cbn [app]. rewrite parse_value_number by done.
    change (c :: r ++ rest) with ((c :: r) ++ rest). rewrite <- Hz.
    by apply parse_number_finite.
  - intros [= <-] [= <-] Hrest Hfuel.
    destruct fuel as [|fuel]; [simpl in Hfuel; lia|].
    unfold encode_string. cbn [app]. rewrite parse_value_string.
    rewrite <- app_assoc. cbn [app]. by rewrite parse_chars_encode_string.
  - done.
  - destruct (sequence_opt (map (json_encode true) l)) as [items|] eqn:Hitems;
      [|done].
    destruct (sequence_opt (map to_json l)) as [js|] eqn:Hjs; [|done].
    intros [= <-] [= <-] Hrest Hfuel.
    apply sequence_opt_map in Hitems. apply sequence_opt_map in Hjs.
    unfold encode_array in *. change (u "[") with [91] in *.
    change (u "]") with [93] in *. rewrite <- !app_assoc. cbn [app] in *.
    destruct fuel as [|fuel]; [simpl in Hfuel; lia|].
    rewrite parse_value_array.
    destruct l as [|x l].
    + inversion Hitems; subst. inversion Hjs; subst. reflexivity.
    + inversion Hitems as [|? enc ? items' Hxenc Hrest']; subst.
      destruct (json_encode_head _ _ _ Hxenc) as (c & r & Henc & Hws & H93 & _).
      destruct (join_head (u ", ") enc items' c r Henc) as [r' Hjoin].
      cbn [List.length] in Hfuel. rewrite length_app in Hfuel.
      cbn [List.length] in Hfuel.
      rewrite (parse_items_encode (x :: l) IH (enc :: items') js rest fuel)
        by (done || lia).
      rewrite Hjoin. cbn [app skip_ws]. rewrite Hws.
      by destruct (N.eqb_spec c 93).
  - destruct (sequence_opt (map (json_encode true) l)) as [items|] eqn:Hitems;
      [|done].
    destruct (sequence_opt (map to_json l)) as [js|] eqn:Hjs; [|done].
    intros [= <-] [= <-] Hrest Hfuel.
    apply sequence_opt_map in Hitems. apply sequence_opt_map in Hjs.
    unfold encode_array in *. change (u "[") with [91] in *.
    change (u "]") with [93] in *. rewrite <- !app_assoc. cbn [app] in *.
    destruct fuel as [|fuel]; [simpl in Hfuel; lia|].
    rewrite parse_value_array.
    destruct l as [|x l].
    + inversion Hitems; subst. inversion Hjs; subst. reflexivity.
    + inversion Hitems as [|? enc ? items' Hxenc Hrest']; subst.
      destruct (json_encode_head _ _ _ Hxenc) as (c & r & Henc & Hws & H93 & _).
      destruct (join_head (u ", ") enc items' c r Henc) as [r' Hjoin].
      cbn [List.length] in Hfuel. rewrite length_app in Hfuel.
      cbn [List.length] in Hfuel.
      rewrite (parse_items_encode (x :: l) IH (enc :: items') js rest fuel)
        by (done || lia).
      rewrite Hjoin. cbn [app skip_ws]. rewrite Hws.
      by destruct (N.eqb_spec c 93).
  - destruct (sequence_opt (map _ d)) as [members|] eqn:Hmembers; [|done].
    destruct (sequence_opt (map _ d)) as [jm|] eqn:Hjm in |- *; [|done].
    intros [= <-] [= <-] Hrest Hfuel.
    apply sequence_opt_map in Hmembers. apply sequence_opt_map in Hjm.
    unfold encode_object in *. change (u "{") with [123] in *.
    change (u "}") with [125] in *. rewrite <- !app_assoc. cbn [app] in *.
    destruct fuel as [|fuel]; [simpl in Hfuel; lia|].
    rewrite parse_value_object.
    destruct d as [|[k x] d].
    + inversion Hmembers; subst. inversion Hjm; subst. reflexivity.
    + inversion Hmembers as [|? member ? members' Hmember Hrest']; subst.
      assert (∃ r, member = 34 :: r) as [r Hmem].
      { destruct (json_key k); [|done].
        destruct (json_encode true x); [|done]. injection Hmember as <-.
        unfold encode_member, encode_string. cbn [app]. eauto. }
      destruct (join_head (u ", ") member members' 34 r Hmem) as [r' Hjoin].
      cbn [List.length] in Hfuel. rewrite length_app in Hfuel.
      cbn [List.length] in Hfuel.
      rewrite (parse_members_encode ((k, x) :: d) IH (member :: members') jm
                 rest fuel) by (done || lia).
      rewrite Hjoin. reflexivity.
  - done.
Qed.

(** [json.loads(json.dumps(v))], for the texts of the escaping encoder. *)
Lemma json_loads_dumps v enc j :
  json_dumps true v = Some enc → to_json v = Some j →
  json_loads enc = Some j.
Proof.
  intros Henc Hj. unfold json_loads.
  pose proof (json_encode_reads_back v enc j [] (S (List.length enc))
                Henc Hj I ltac:(lia)) as Hparse.
  rewrite app_nil_r in Hparse. by rewrite Hparse.
Qed.
End Values.

(** ** The lines of CSV to JSONL *)

Section CsvJsonl.
Context `{UnicodeData, Pandas, Openpyxl, Network}.
Local Open Scope N_scope.




Lemma utf16_bmp s : Forall (λ c, c < 0x10000) s → utf16 s = s.
Proof.
  induction 1 as [|c s Hc _ IH]; [done|].
  unfold utf16 in *. cbn [map concat]. rewrite IH. unfold utf16_units.
  by destruct (N.ltb_spec c 0x10000); [|lia].
Qed.

Lemma utf16_plain s : is_plain s → utf16 s = s.
Proof.
  intros Hs. apply utf16_bmp. eapply Forall_impl; [exact Hs|]. simpl. lia.
Qed.

(** A value that is encoded and has finite floats only has a JSON value. *)
Lemma to_json_finite ea v enc :
  json_encode ea v = Some enc → all_finite v = true → is_Some (to_json v).
Proof.
  revert enc. induction v as [|b|z|f|s|b|l IH|l IH|d IH|c r]
    using pyval_nested_ind; intros enc; cbn [json_encode to_json all_finite];
    try done; try (intros; eexists; reflexivity).
  - destruct f as [| |]; done.
  - destruct (sequence_opt (map (json_encode ea) l)) as [items|] eqn:Hitems;
      [|done].
    intros _ Hfin. apply sequence_opt_map in Hitems.
    destruct (sequence_opt_map_some to_json l) as [js Hjs]; [|by rewrite Hjs].
    rewrite forallb_forall in Hfin.
    apply Forall_forall. intros x Hx.
    apply list_elem_of_lookup in Hx as Hi. destruct Hi as [i Hi].
    destruct (Forall2_lookup_l _ _ _ _ _ Hitems Hi) as (y & _ & Hy).
    eapply Forall_forall in IH; [|exact Hx].
    eapply IH; [exact Hy|]. apply Hfin. by apply list_elem_of_In.
  - destruct (sequence_opt (map (json_encode ea) l)) as [items|] eqn:Hitems;
      [|done].
    intros _ Hfin. apply sequence_opt_map in Hitems.
    destruct (sequence_opt_map_some to_json l) as [js Hjs]; [|by rewrite Hjs].
    rewrite forallb_forall in Hfin.
    apply Forall_forall. intros x Hx.
    apply list_elem_of_lookup in Hx as Hi. destruct Hi as [i Hi].
    destruct (Forall2_lookup_l _ _ _ _ _ Hitems Hi) as (y & _ & Hy).
    eapply Forall_forall in IH; [|exact Hx].
    eapply IH; [exact Hy|]. apply Hfin. by apply list_elem_of_In.
  - destruct (sequence_opt (map _ d)) as [members|] eqn:Hmembers; [|done].
    intros _ Hfin. apply sequence_opt_map in Hmembers.
    match goal with
    | |- is_Some (match sequence_opt (map ?f d) with _ => _ end) =>
      destruct (sequence_opt_map_some f d) as [jm Hjm]; [|by rewrite Hjm]
    end.
    rewrite forallb_forall in Hfin.
    apply Forall_forall. intros [k x] Hkx.
    apply list_elem_of_lookup in Hkx as Hi. destruct Hi as [i Hi].
    destruct (Forall2_lookup_l _ _ _ _ _ Hmembers Hi) as (y & _ & Hy).
    eapply Forall_forall in IH as [_ IHx]; [|exact Hkx].
    destruct (json_key k) as [ks|]; [|done].
    destruct (json_encode ea x) as [xs|] eqn:Hxs; [|done].
    cbn [snd] in IHx. destruct (IHx xs Hxs) as [j Hj].
    { apply (Hfin (k, x)). by apply list_elem_of_In. }
    rewrite Hj. by eexists.
Qed.
End CsvJsonl.

Section CsvJsonlLines.
Context `{UnicodeData, Pandas, Openpyxl, Network}.
Local Open Scope N_scope.

(** A line of [metadata.jsonl] read as JSON. *)
Lemma row_line_loads columns row line :
  row_line columns row line →
  ∃ ground_truth,
    json_dumps true (PDict (row_mapping columns row)) = Some ground_truth
    ∧ (all_finite (row_file_name columns row) = true →
       ∃ name,
         to_json (row_file_name columns row) = Some name
         ∧ json_loads line
           = Some (JObject [(u "file_name", name);
                            (u "ground_truth", JString ground_truth)]))
    ∧ (all_finite (PDict (row_mapping columns row)) = true →
       ∃ mapping,
         to_json (PDict (row_mapping columns row)) = Some mapping
         ∧ json_loads ground_truth = Some mapping).
Proof.
  intros (_ & gt & Hgt & Hline). exists gt. split; [done|]. split.
  - intros Hfin.
    destruct (row_file_name_encodes _ _ _ Hgt) as [enc Henc].
    destruct (to_json_finite _ _ _ Henc Hfin) as [name Hname].
    exists name. split; [done|].
    apply (json_loads_dumps _ _ _ Hline).
    cbn [to_json map json_key sequence_opt]. rewrite Hname.
    rewrite (utf16_plain gt) by (by eapply json_encode_plain).
    reflexivity.
  - intros Hfin.
    destruct (to_json_finite _ _ _ Hgt Hfin) as [mapping Hmapping].
    exists mapping. split; [done|]. by eapply json_loads_dumps.
Qed.
End CsvJsonlLines.

(** C1, as stated, fails on a row whose [file_name] cell is empty: pandas
    reads the cell as NaN, [json.dumps] writes the token [NaN], and the
    line is not JSON. *)
Lemma nan_file_name_line_is_not_json :
  let run :=
    @dataset_converter plain_unicode unnamed_pandas strict_openpyxl
       (table_network [])
       (Some (FileObject (u "unnamed.csv") unnamed_csv))
       (Some (u "CSV to JSONL")) None empty_world in
  let line :=
    u "{" ++ quoted "file_name" ++ u ": NaN, " ++ quoted "ground_truth"
      ++ u ": " ++ [34%N] ++ u "{" ++ escaped_quoted "file_name" ++ u ": NaN, "
      ++ escaped_quoted "label" ++ u ": " ++ escaped_quoted "cat" ++ u "}"
      ++ [34%N] ++ u "}" in
  (∃ message, run.1 = Ok (u "metadata.jsonl", message))
  ∧ (∃ data, disk run.2 !! u "metadata.jsonl" = Some data
             ∧ file_lines (map Byte.to_N data) = [line])
  ∧ json_loads line = None.
Proof.
  intros run line. split; [|split].
  - eexists. vm_compute. reflexivity.
  - eexists. split; vm_compute; reflexivity.
  - vm_compute. reflexivity.
Qed.

(** C1, amended. When CSV to JSONL succeeds, [metadata.jsonl] has exactly
    one line per row of the table.  The line of a row is the
    serialization of a dictionary with exactly the keys [file_name] and
    [ground_truth]: [ground_truth] is the text [json.dumps] gives for the
    full column-to-value mapping of the row, and [file_name] is the value
    of the column named [file_name], or [None] when there is no such
    column.  The line parses as the JSON object with these two members
    whenever the [file_name] value holds no NaN or infinity, and
    [ground_truth] parses as the mapping whenever the row holds none. *)
Theorem csv_to_jsonl_lines `{UnicodeData, Pandas, Openpyxl, Network}
    (input_file : option file_input) (parquet_url : option str)
    (w w' : world) (out message : str) :
  dataset_converter input_file (type_of CsvToJsonl) parquet_url w
    = (Ok (out, message), w') →
  ∃ s df data,
    resolve_input input_file w = (Ok (Some s), w)
    ∧ read_csv (file_bytes s) (Some "latin1"%string) = Ok df
    ∧ out = u "metadata.jsonl"
    ∧ disk w' !! u "metadata.jsonl" = Some data
    ∧ List.length (file_lines (map Byte.to_N data)) = List.length (iterrows df)
    ∧ Forall2 (λ row line,
        row_line (df_columns df) row line
        ∧ (u "file_name" ∉ df_columns df →
           row_file_name (df_columns df) row = PNone)
        ∧ (u "file_name" ∈ df_columns df →
           series_getitem row (u "file_name")
           = Ok (row_file_name (df_columns df) row))
        ∧ ∃ ground_truth,
            json_dumps true (PDict (row_mapping (df_columns df) row))
              = Some ground_truth
            ∧ (all_finite (row_file_name (df_columns df) row) = true →
               ∃ name,
                 to_json (row_file_name (df_columns df) row) = Some name
                 ∧ json_loads line
                   = Some (JObject [(u "file_name", name);
                                    (u "ground_truth", JString ground_truth)]))
            ∧ (all_finite (PDict (row_mapping (df_columns df) row)) = true →
               ∃ mapping,
                 to_json (PDict (row_mapping (df_columns df) row)) = Some mapping
                 ∧ json_loads ground_truth = Some mapping))
        (iterrows df) (file_lines (map Byte.to_N data)).
Proof.
  unfold dataset_converter. unfold bind at 1.
  destruct (resolve_input input_file w) as [r w0] eqn:Hres.
  pose proof (resolve_input_world _ _ _ _ Hres) as ->.
  destruct r as [src|e0]; [|done].
  rewrite run_selected_dispatch. unfold dispatch_by_type, bind.
  rewrite conversion_of_label. cbn [run_conversion].
  pose proof (csv_to_jsonl_run src w) as Hrun.
  destruct (csv_to_jsonl src w) as [[o|e1] w1]; [|done].
  destruct Hrun as (s & df & lines & -> & Hdf & Hrows & Hplain & Hout & ->).
  intros [= <- _ <-].
  pose proof (metadata_lines lines Hplain) as Hlines.
  exists s, df. eexists. split; [done|]. split; [done|]. split; [done|].
  split; [apply lookup_insert_eq|]. rewrite Hlines.
  split; [symmetry; by eapply Forall2_length|].
  eapply Forall2_impl; [exact Hrows|]. intros row line Hline.
  split; [done|]. split; [|split].
  - intros Hno. unfold row_file_name. by rewrite bool_decide_eq_false_2.
  - intros Hin. unfold row_file_name. rewrite bool_decide_eq_true_2 by done.
    destruct Hline as [Hget _]. eapply Forall_forall in Hget; [|exact Hin]. done.
  - by apply row_line_loads.
Qed.

(** The scenario of the specification: two rows, two lines. *)
Lemma csv_to_jsonl_lines_witness :
  let w' :=
    (@dataset_converter plain_unicode demo_pandas strict_openpyxl
       (table_network [])
       (Some (FileObject (u "animals.csv") animals_csv))
       (Some (u "CSV to JSONL")) None empty_world).2 in
  ∃ s df data,
    @resolve_input plain_unicode (Some (FileObject (u "animals.csv") animals_csv))
      empty_world = (Ok (Some s), empty_world)
    ∧ @read_csv demo_pandas (file_bytes s) (Some "latin1"%string) = Ok df
    ∧ u "metadata.jsonl" = u "metadata.jsonl"
    ∧ disk w' !! u "metadata.jsonl" = Some data
    ∧ List.length (file_lines (map Byte.to_N data))
      = List.length (@iterrows demo_pandas df)
    ∧ Forall2 (λ row line,
        row_line (@df_columns demo_pandas df) row line
        ∧ (u "file_name" ∉ @df_columns demo_pandas df →
           row_file_name (@df_columns demo_pandas df) row = PNone)
        ∧ (u "file_name" ∈ @df_columns demo_pandas df →
           series_getitem row (u "file_name")
           = Ok (row_file_name (@df_columns demo_pandas df) row))
        ∧ ∃ ground_truth,
            json_dumps true (PDict (row_mapping (@df_columns demo_pandas df) row))
              = Some ground_truth
            ∧ (all_finite (row_file_name (@df_columns demo_pandas df) row) = true →
               ∃ name,
                 to_json (row_file_name (@df_columns demo_pandas df) row) = Some name
                 ∧ json_loads line
                   = Some (JObject [(u "file_name", name);
                                    (u "ground_truth", JString ground_truth)]))
            ∧ (all_finite (PDict (row_mapping (@df_columns demo_pandas df) row))
                 = true →
               ∃ mapping,
                 to_json (PDict (row_mapping (@df_columns demo_pandas df) row))
                   = Some mapping
                 ∧ json_loads ground_truth = Some mapping))
        (@iterrows demo_pandas df) (file_lines (map Byte.to_N data)).
Proof.
  intros w'.
  apply (@csv_to_jsonl_lines plain_unicode demo_pandas strict_openpyxl
           (table_network [])
           (Some (FileObject (u "animals.csv") animals_csv)) None
           empty_world w' (u "metadata.jsonl")
           (match (@dataset_converter plain_unicode demo_pandas strict_openpyxl
                     (table_network [])
                     (Some (FileObject (u "animals.csv") animals_csv))
                     (Some (u "CSV to JSONL")) None empty_world).1 with
            | Ok r => r.2
            | Raise _ => []
            end)).
  vm_compute. reflexivity.
Defined.

Example csv_to_jsonl_scenario :
  let w' :=
    (@dataset_converter plain_unicode demo_pandas strict_openpyxl
       (table_network [])
       (Some (FileObject (u "animals.csv") animals_csv))
       (Some (u "CSV to JSONL")) None empty_world).2 in
  (file_lines ∘ map Byte.to_N) <$> (disk w' !! u "metadata.jsonl")
  = Some
      [u "{" ++ quoted "file_name" ++ u ": " ++ quoted "a.png" ++ u ", "
         ++ quoted "ground_truth" ++ u ": " ++ [34%N] ++ u "{"
         ++ escaped_quoted "file_name" ++ u ": " ++ escaped_quoted "a.png"
         ++ u ", " ++ escaped_quoted "label" ++ u ": " ++ escaped_quoted "cat"
         ++ u "}" ++ [34%N] ++ u "}";
       u "{" ++ quoted "file_name" ++ u ": " ++ quoted "b.png" ++ u ", "
         ++ quoted "ground_truth" ++ u ": " ++ [34%N] ++ u "{"
         ++ escaped_quoted "file_name" ++ u ": " ++ escaped_quoted "b.png"
         ++ u ", " ++ escaped_quoted "label" ++ u ": " ++ escaped_quoted "dog"
         ++ u "}" ++ [34%N] ++ u "}"].
Proof. vm_compute. reflexivity. Qed.

(** ** Requests seen from the world *)

Section Effects.
Context `{UnicodeData, Pandas, Openpyxl, Network}.

Lemma world_after_nothing w path : world_after w path None [] = w.
Proof. unfold world_after. rewrite app_nil_r. by destruct w. Qed.

(** Loading the table of a URL conversion: the result and the request
    issued do not depend on the world. *)
Lemma load_parquet_effect src url msg :
  ∃ r fetched,
    (∀ w, load_parquet src url msg w
          = (r, World (disk w) (net_log w ++ fetched)))
    ∧ (fetched = []
       ∨ (src = None ∧ ∃ target, truthy url = Some target ∧ fetched = [target]))
    ∧ (∀ df name, r = Ok (df, name) →
         name = Some (match src with
                      | Some s => file_name s
                      | None => u "from_url.parquet"
                      end)).
Proof.
  unfold load_parquet. destruct src as [s|].
  - destruct (read_parquet (file_bytes s)) as [df|e] eqn:Hdf.
    + exists (Ok (df, Some (file_name s))), []. split; [|split].
      * intros w. rewrite bind_lift, ?Hdf. unfold ret.
        by rewrite app_nil_r, world_eta.
      * by left.
      * by intros ?? [= _ <-].
    + exists (Raise e), []. split; [|split].
      * intros w. rewrite bind_lift, ?Hdf. by rewrite app_nil_r, world_eta.
      * by left.
      * done.
  - destruct (truthy url) as [target|] eqn:Hurl.
    2:{ exists (Raise (ValueError msg)), []. split; [|split].
        - intros w. unfold raise. by rewrite app_nil_r, world_eta.
        - by left.
        - done. }
    unfold requests_get.
    destruct (http_get target) as [response|] eqn:Hget.
    2:{ destruct (http_failure target) as [e sent] eqn:Hfail.
        exists (Raise e), (if sent then [target] else []). split; [|split].
        - intros w. unfold bind. rewrite ?Hget, ?Hfail. cbn [fst snd].
          destruct sent; [done|]. by rewrite app_nil_r, world_eta.
        - destruct sent; [right; eauto | by left].
        - done. }
    destruct (raise_for_status response) as [[]|e] eqn:Hstatus.
    2:{ exists (Raise e), [target]. split; [|split].
        - intros w. unfold bind. rewrite ?Hget. unfold lift. by rewrite ?Hstatus.
        - right. eauto.
        - done. }
    destruct (read_parquet (content response)) as [df|e] eqn:Hdf.
    + exists (Ok (df, Some (u "from_url.parquet"))), [target]. split; [|split].
      * intros w. unfold bind. rewrite ?Hget. unfold lift. rewrite ?Hstatus.
        by rewrite ?Hdf.
      * right. eauto.
      * by intros ?? [= _ <-].
    + exists (Raise e), [target]. split; [|split].
      * intros w. unfold bind. rewrite ?Hget. unfold lift. rewrite ?Hstatus.
        by rewrite ?Hdf.
      * right. eauto.
      * done.
Qed.

(** A conversion, seen from the world: its result, the bytes it leaves
    in its output file and the URL it fetches are the same in every
    world. *)
Lemma run_conversion_effect c src url :
  ∃ r written fetched,
    (∀ w, run_conversion c src url w
          = (r, world_after w (output_name c) written fetched))
    ∧ (fetched = []
       ∨ (src = None ∧ accepts_url c = true
          ∧ ∃ target, truthy url = Some target ∧ fetched = [target]))
    ∧ (∀ o, r = Ok o →
         is_Some written
         ∧ output_file o = output_name c
         ∧ converted_format o = format_label c
         ∧ shown_name o = Some (match src with
                                | Some s => file_name s
                                | None => u "from_url.parquet"
                                end)).
Proof.
  assert (Hfail : ∀ e m,
    (∀ w, m w = (Raise e, w)) →
    ∃ r written fetched,
      (∀ w, m w = (r, world_after w (output_name c) written fetched))
      ∧ (fetched = []
         ∨ (src = None ∧ accepts_url c = true
            ∧ ∃ target, truthy url = Some target ∧ fetched = [target]))
      ∧ (∀ o, r = Ok o →
           is_Some written
           ∧ output_file o = output_name c
           ∧ converted_format o = format_label c
           ∧ shown_name o = Some (match src with
                                  | Some s => file_name s
                                  | None => u "from_url.parquet"
                                  end))).
  { intros e m Hm. exists (Raise e), None, []. split; [|split].
    - intros w. by rewrite Hm, world_after_nothing.
    - by left.
    - done. }
  destruct c; cbn [run_conversion output_name].
  - unfold csv_to_parquet. destruct src as [s|]; [|by eapply Hfail].
    destruct (str_eqb (file_extension s) (u "csv")); [|by eapply Hfail].
    destruct (read_csv (file_bytes s) None) as [df|e] eqn:Hdf.
    2:{ eapply Hfail. intros w. by rewrite bind_lift, ?Hdf. }
    destruct (to_parquet df) as [data|e] eqn:Hdata.
    2:{ eapply Hfail. intros w. by rewrite bind_lift, ?Hdf, bind_lift, ?Hdata. }
    eexists (Ok _), (Some data), []. split; [|split].
    + intros w. rewrite bind_lift, ?Hdf, bind_lift, ?Hdata.
      unfold bind, write_file, ret, world_after. by rewrite app_nil_r.
    + by left.
    + intros o [= <-]. by split; [eauto|].
  - unfold parquet_to_csv. destruct src as [s|]; [|by eapply Hfail].
    destruct (str_eqb (file_extension s) (u "parquet")); [|by eapply Hfail].
    destruct (read_parquet (file_bytes s)) as [df|e] eqn:Hdf.
    2:{ eapply Hfail. intros w. by rewrite bind_lift, ?Hdf. }
    destruct (to_csv df) as [data|e] eqn:Hdata.
    2:{ eapply Hfail. intros w. by rewrite bind_lift, ?Hdf, bind_lift, ?Hdata. }
    eexists (Ok _), (Some data), []. split; [|split].
    + intros w. rewrite bind_lift, ?Hdf, bind_lift, ?Hdata.
      unfold bind, write_file, ret, world_after. by rewrite app_nil_r.
    + by left.
    + intros o [= <-]. by split; [eauto|].
  - unfold csv_to_jsonl. destruct src as [s|]; [|by eapply Hfail].
    destruct (str_eqb (file_extension s) (u "csv")); [|by eapply Hfail].
    destruct (read_csv (file_bytes s) (Some "latin1"%string)) as [df|e] eqn:Hdf.
    2:{ eapply Hfail. intros w. by rewrite bind_lift, ?Hdf. }
    destruct (make_total_data (df_columns df) (iterrows df)) as [total|e] eqn:Ht.
    2:{ eapply Hfail. intros w. by rewrite bind_lift, ?Hdf, bind_lift, ?Ht. }
    destruct (encode_lines true id total) as [data [[]|e]] eqn:Henc.
    + eexists (Ok _), (Some data), []. split; [|split].
      * intros w. rewrite bind_lift, ?Hdf, bind_lift, ?Ht, open_then_write, ?Henc.
        cbn [fst snd]. unfold ret, world_after. by rewrite app_nil_r.
      * by left.
      * intros o [= <-]. by split; [eauto|].
    + exists (Raise e), (Some data), []. split; [|split].
      * intros w. rewrite bind_lift, ?Hdf, bind_lift, ?Ht, open_then_write, ?Henc.
        cbn [fst snd]. unfold world_after. by rewrite app_nil_r.
      * by left.
      * done.
  - unfold parquet_to_jsonl.
    destruct (load_parquet_effect src url
      (u "For Parquet to JSONL conversion, please upload a file or provide a URL. "
         ++ globe_emoji)) as (r & fetched & Hload & Hfetched & Hname).
    assert (Hf : fetched = []
       ∨ (src = None ∧ true = true
          ∧ ∃ target, truthy url = Some target ∧ fetched = [target])).
    { destruct Hfetched as [->|(-> & target & ? & ->)]; [by left|].
      right. eauto. }
    destruct r as [[df name]|e].
    2:{ exists (Raise e), None, fetched. split; [|split; [done|done]].
        intros w. unfold bind. by rewrite Hload. }
    destruct (encode_lines false recursive_sanitize
                (map record_dict (to_dict_records df))) as [data [[]|e]] eqn:Henc.
    + eexists (Ok _), (Some data), fetched. split; [|split; [done|]].
      * intros w. unfold bind at 1. rewrite Hload. cbn [fst snd].
        rewrite open_then_write, ?Henc. cbn [fst snd]. unfold ret, world_after.
        reflexivity.
      * intros o [= <-]. split; [eauto|]. split; [done|]. split; [done|].
        cbn [shown_name]. by eapply Hname.
    + exists (Raise e), (Some data), fetched. split; [|split; [done|done]].
      intros w. unfold bind at 1. rewrite Hload. cbn [fst snd].
      rewrite open_then_write, ?Henc. cbn [fst snd]. reflexivity.
  - unfold parquet_to_xls.
    destruct (load_parquet_effect src url
      (u "For Parquet to XLS conversion, please upload a file or provide a URL. "
         ++ globe_emoji)) as (r & fetched & Hload & Hfetched & Hname).
    assert (Hf : fetched = []
       ∨ (src = None ∧ true = true
          ∧ ∃ target, truthy url = Some target ∧ fetched = [target])).
    { destruct Hfetched as [->|(-> & target & ? & ->)]; [by left|].
      right. eauto. }
    destruct r as [[df name]|e].
    2:{ exists (Raise e), None, fetched. split; [|split; [done|done]].
        intros w. unfold bind. by rewrite Hload. }
    destruct (save_workbook
                (map PStr (df_columns df)
                 :: map (map sanitize_value) (itertuples df))) as [data|e] eqn:Hsave.
    + eexists (Ok _), (Some data), fetched. split; [|split; [done|]].
      * intros w. unfold bind at 1. rewrite Hload. cbn [fst snd].
        rewrite bind_lift, ?Hsave. unfold bind, write_file, ret, world_after.
        reflexivity.
      * intros o [= <-]. split; [eauto|]. split; [done|]. split; [done|].
        cbn [shown_name]. by eapply Hname.
    + exists (Raise e), None, fetched. split; [|split; [done|done]].
      intros w. unfold bind at 1. rewrite Hload. cbn [fst snd].
      by rewrite bind_lift, ?Hsave.
Qed.
End Effects.

Section Requests.
Context `{UnicodeData, Pandas, Openpyxl, Network}.

(** The request as a whole: resolver, dispatch, summary. *)
Lemma dataset_converter_run input t url w :
  dataset_converter input t url w
  = match resolve_input input w with
    | (Ok src, _) =>
      match conversion_of t with
      | Some c =>
        match run_conversion c src url w with
        | (Ok o, w') => (Ok (output_file o, info_message o), w')
        | (Raise e, w') => (Raise e, w')
        end
      | None => (Raise (ValueError invalid_type_message), w)
      end
    | (Raise e, _) => (Raise e, w)
    end.
Proof.
  unfold dataset_converter. unfold bind at 1.
  destruct (resolve_input input w) as [r w0] eqn:Hres.
  pose proof (resolve_input_world _ _ _ _ Hres) as ->.
  destruct r as [src|e]; [|done].
  rewrite run_selected_dispatch. unfold dispatch_by_type, bind.
  destruct (conversion_of t) as [c|]; [|done].
  by destruct (run_conversion c src url w) as [[o|e] w1].
Qed.

Lemma resolve_input_name input w src :
  resolve_input input w = (Ok src, w) →
  match src with
  | Some s => input = Some (FileObject (file_name s) (file_bytes s))
              ∨ (input = Some (FilePath (file_name s))
                 ∧ disk w !! file_name s = Some (file_bytes s))
  | None => input = None
  end.
Proof.
  destruct input as [[name data|path]|]; unfold resolve_input; run_monad.
  - intros [= <-]. by left.
  - destruct (disk w !! path) eqn:Hd; intros [= <-]. right. done.
  - by intros [= <-].
Qed.

Lemma resolve_input_in_memory input :
  in_memory input = true →
  ∃ src, ∀ w, resolve_input input w = (Ok src, w).
Proof.
  destruct input as [[name data|path]|]; [| done |]; intros _; eexists; intros w;
    reflexivity.
Qed.
End Requests.

(** X1.  The file name a successful request returns is the name of a
    file that exists afterwards, and no other file has been created,
    changed or removed. *)
Theorem returned_file_exists `{UnicodeData, Pandas, Openpyxl, Network}
    (input_file : option file_input) (conversion_type parquet_url : option str)
    (w w' : world) (out message : str) :
  dataset_converter input_file conversion_type parquet_url w
    = (Ok (out, message), w') →
  is_Some (disk w' !! out)
  ∧ ∀ path, path ≠ out → disk w' !! path = disk w !! path.
Proof.
  rewrite dataset_converter_run.
  destruct (resolve_input input_file w) as [[src|e] w0]; [|done].
  destruct (conversion_of conversion_type) as [c|]; [|done].
  destruct (run_conversion_effect c src parquet_url)
    as (r & written & fetched & Hrun & _ & Hok).
  rewrite Hrun. destruct r as [o|e]; [|done].
  destruct (Hok o eq_refl) as ([data ->] & Hout & _).
  intros [= <- _ <-]. rewrite Hout. unfold world_after. cbn [disk]. split.
  - rewrite lookup_insert_eq. eauto.
  - intros path Hpath. by rewrite lookup_insert_ne.
Qed.

Lemma returned_file_exists_witness :
  let run :=
    @dataset_converter plain_unicode demo_pandas strict_openpyxl
       (table_network [])
       (Some (FileObject (u "animals.csv") animals_csv))
       (Some (u "CSV to Parquet")) None empty_world in
  is_Some (disk run.2 !! u "output.parquet")
  ∧ ∀ path, path ≠ u "output.parquet" →
            disk run.2 !! path = disk empty_world !! path.
Proof.
  intros run.
  apply (@returned_file_exists plain_unicode demo_pandas strict_openpyxl
           (table_network [])
           (Some (FileObject (u "animals.csv") animals_csv))
           (Some (u "CSV to Parquet")) None empty_world run.2
           (u "output.parquet")
           (match run.1 with Ok p => p.2 | Raise _ => [] end)).
  vm_compute. reflexivity.
Defined.

(** X2.  The summary of a successful request names as input file the
    name of the file object, the path, or from_url.parquet for a table
    fetched from a URL (the N/A alternative of the source is never
    shown), then the format label of the conversion selected, the
    preview and the community line. *)
Theorem info_message_layout `{UnicodeData, Pandas, Openpyxl, Network}
    (input_file : option file_input) (conversion_type parquet_url : option str)
    (w w' : world) (out message : str) :
  dataset_converter input_file conversion_type parquet_url w
    = (Ok (out, message), w') →
  ∃ c preview,
    conversion_of conversion_type = Some c
    ∧ message
      = u "Input file: " ++ input_name input_file ++ [10%N]
        ++ u "Converted file format: " ++ format_label c ++ [10%N; 10%N]
        ++ u "Preview (Top 10 Rows):" ++ [10%N] ++ preview ++ [10%N; 10%N]
        ++ u "Community: https://discord.gg/openfreeai " ++ rocket_emoji.
Proof.
  rewrite dataset_converter_run.
  destruct (resolve_input input_file w) as [[src|e] w0] eqn:Hres; [|done].
  pose proof (resolve_input_world _ _ _ _ Hres) as ->.
  apply resolve_input_name in Hres.
  destruct (conversion_of conversion_type) as [c|]; [|done].
  destruct (run_conversion_effect c src parquet_url)
    as (r & written & fetched & Hrun & _ & Hok).
  rewrite Hrun. destruct r as [o|e]; [|done].
  destruct (Hok o eq_refl) as (_ & _ & Hformat & Hname).
  intros [= _ <- _]. exists c, (preview_str o). split; [done|].
  unfold info_message. rewrite Hname, Hformat.
  assert (match src with
          | Some s => file_name s
          | None => u "from_url.parquet"
          end = input_name input_file) as ->; [|done].
  destruct src as [s|]; [destruct Hres as [->|[-> _]]|subst]; done.
Qed.

Lemma info_message_layout_witness :
  let run :=
    @dataset_converter plain_unicode notes_pandas strict_openpyxl notes_network
       None (Some (u "Parquet to XLS")) (Some notes_url) empty_world in
  ∃ c preview,
    conversion_of (Some (u "Parquet to XLS")) = Some c
    ∧ match run.1 with Ok p => p.2 | Raise _ => [] end
      = u "Input file: " ++ input_name None ++ [10%N]
        ++ u "Converted file format: " ++ format_label c ++ [10%N; 10%N]
        ++ u "Preview (Top 10 Rows):" ++ [10%N] ++ preview ++ [10%N; 10%N]
        ++ u "Community: https://discord.gg/openfreeai " ++ rocket_emoji.
Proof.
  intros run.
  apply (@info_message_layout plain_unicode notes_pandas strict_openpyxl
           notes_network None (Some (u "Parquet to XLS")) (Some notes_url)
           empty_world run.2 (u "output.xlsx")).
  vm_compute. reflexivity.
Defined.



(** X4.  For an input that is not a path (a file object, or none),
    the result of a request and the content of the file it returns are
    the same in any two worlds: what an earlier request left on the disk,
    in the output file or elsewhere, does not show; the output file is
    replaced, never appended to. *)
Theorem output_replaces_previous `{UnicodeData, Pandas, Openpyxl, Network}
    (input_file : option file_input) (conversion_type parquet_url : option str)
    (w1 w2 : world) :
  in_memory input_file = true →
  (dataset_converter input_file conversion_type parquet_url w1).1
  = (dataset_converter input_file conversion_type parquet_url w2).1
  ∧ ∀ out message,
      (dataset_converter input_file conversion_type parquet_url w1).1
        = Ok (out, message) →
      disk (dataset_converter input_file conversion_type parquet_url w1).2 !! out
      = disk (dataset_converter input_file conversion_type parquet_url w2).2 !! out.
Proof.
  intros Hmem. destruct (resolve_input_in_memory _ Hmem) as [src Hsrc].
  rewrite !dataset_converter_run, !Hsrc.
  destruct (conversion_of conversion_type) as [c|]; [|done].
  destruct (run_conversion_effect c src parquet_url)
    as (r & written & fetched & Hrun & _ & Hok).
  rewrite !Hrun. destruct r as [o|e]; [|done]. cbn [fst snd].
  split; [done|]. intros out message [= <- _].
  destruct (Hok o eq_refl) as ([data ->] & -> & _).
  unfold world_after. cbn [disk]. by rewrite !lookup_insert_eq.
Qed.

Lemma output_replaces_previous_witness :
  let run w :=
    @dataset_converter plain_unicode demo_pandas strict_openpyxl
       (table_network [])
       (Some (FileObject (u "animals.csv") animals_csv))
       (Some (u "CSV to JSONL")) None w in
  let used := World {[u "metadata.jsonl" := [x6f; x6c; x64; x0a]]} [] in
  (run empty_world).1 = (run used).1
  ∧ ∀ out message,
      (run empty_world).1 = Ok (out, message) →
      disk (run empty_world).2 !! out = disk (run used).2 !! out.
Proof.
  intros run used.
  apply (@output_replaces_previous plain_unicode demo_pandas strict_openpyxl
           (table_network [])
           (Some (FileObject (u "animals.csv") animals_csv))
           (Some (u "CSV to JSONL")) None empty_world used).
  reflexivity.
Defined.

(** X6.  CSV to Parquet, Parquet to CSV and CSV to JSONL need an uploaded
    file: without one the request fails with the [ValueError] of that
    conversion whether or not a URL is given, and nothing is fetched or
    written. *)
Theorem upload_is_required `{UnicodeData, Pandas, Openpyxl, Network}
    (c : conversion) (parquet_url : option str) (w : world) :
  accepts_url c = false →
  dataset_converter None (type_of c) parquet_url w
  = (Raise (ValueError (upload_message c)), w).
Proof.
  intros Hc. rewrite dataset_converter_run. cbn [resolve_input]. unfold ret.
  rewrite conversion_of_label. by destruct c.
Qed.

Lemma upload_is_required_witness :
  @dataset_converter plain_unicode demo_pandas strict_openpyxl notes_network
     None (type_of CsvToJsonl) (Some notes_url) empty_world
  = (Raise (ValueError (upload_message CsvToJsonl)), empty_world).
Proof.
  apply (@upload_is_required plain_unicode demo_pandas strict_openpyxl
           notes_network CsvToJsonl (Some notes_url) empty_world).
  reflexivity.
Defined.

(** X7.  When [requests.get] raises instead of answering, Parquet to
    JSONL and Parquet to XLS without a file end with that very
    exception, whatever it is: nothing catches it.  The URL has been
    requested once if the request went out and not at all if the URL was
    refused before; no file is created or changed either way. *)
Theorem fetch_failure_propagates `{UnicodeData, Pandas, Openpyxl, Network}
    (c : conversion) (url : str) (w : world) :
  accepts_url c = true → url ≠ [] → http_get url = None →
  dataset_converter None (type_of c) (Some url) w
  = (Raise (http_failure url).1,
     World (disk w)
           (if (http_failure url).2 then net_log w ++ [url] else net_log w)).
Proof.
  intros Hc Hurl Hget. rewrite dataset_converter_run. cbn [resolve_input].
  unfold ret. rewrite conversion_of_label.
  assert (truthy (Some url) = Some url) as Htruthy by (by destruct url).
  destruct c; try discriminate; cbn [run_conversion];
    unfold parquet_to_jsonl, parquet_to_xls, load_parquet, requests_get;
    run_monad; rewrite Htruthy, Hget;
    destruct (http_failure url).2; by rewrite ?world_eta.
Qed.

Lemma fetch_failure_propagates_witness :
  @dataset_converter plain_unicode notes_pandas strict_openpyxl
     (table_network []) None (type_of ParquetToXls)
     (Some (u "example.org/notes.parquet")) empty_world
  = (Raise (RequestException "MissingSchema"), World (disk empty_world) [])
  ∧ @dataset_converter plain_unicode notes_pandas strict_openpyxl
      (table_network []) None (type_of ParquetToJsonl) (Some notes_url)
      empty_world
    = (Raise (ConnectionError notes_url),
       World (disk empty_world) [notes_url]).
Proof.
  split.
  - apply (@fetch_failure_propagates plain_unicode notes_pandas
             strict_openpyxl (table_network []) ParquetToXls
             (u "example.org/notes.parquet") empty_world).
    + reflexivity.
    + discriminate.
    + reflexivity.
  - apply (@fetch_failure_propagates plain_unicode notes_pandas
             strict_openpyxl (table_network []) ParquetToJsonl notes_url
             empty_world).
    + reflexivity.
    + discriminate.
    + reflexivity.
Defined.

(** X8.  A successful CSV to Parquet request had a file whose extension
    is csv, read it with [read_csv] under the default encoding, and left
    in output.parquet exactly what [to_parquet] gives for that table;
    likewise Parquet to CSV with the extension parquet, [read_parquet],
    [to_csv] and output.csv.  Nothing is fetched, no other file changes,
    and the summary carries the name of the input, the format and the
    preview of that table. *)
Theorem table_conversions_write_the_table `{UnicodeData, Pandas, Openpyxl, Network}
    (input_file : option file_input) (parquet_url : option str)
    (w w' : world) (out message : str) :
  (dataset_converter input_file (type_of CsvToParquet) parquet_url w
     = (Ok (out, message), w') →
   ∃ s df data,
     resolve_input input_file w = (Ok (Some s), w)
     ∧ file_extension s = u "csv"
     ∧ read_csv (file_bytes s) None = Ok df
     ∧ to_parquet df = Ok data
     ∧ out = u "output.parquet"
     ∧ message = info_message (Outcome out (u "Parquet") (head_to_string df)
                                 (Some (file_name s)))
     ∧ w' = World (<[out := data]> (disk w)) (net_log w))
  ∧ (dataset_converter input_file (type_of ParquetToCsv) parquet_url w
       = (Ok (out, message), w') →
     ∃ s df data,
       resolve_input input_file w = (Ok (Some s), w)
       ∧ file_extension s = u "parquet"
       ∧ read_parquet (file_bytes s) = Ok df
       ∧ to_csv df = Ok data
       ∧ out = u "output.csv"
       ∧ message = info_message (Outcome out (u "CSV") (head_to_string df)
                                   (Some (file_name s)))
       ∧ w' = World (<[out := data]> (disk w)) (net_log w)).
Proof.
  split; rewrite dataset_converter_run;
    (destruct (resolve_input input_file w) as [[src|e] w0] eqn:Hres; [|done]);
    pose proof (resolve_input_world _ _ _ _ Hres) as ->;
    rewrite conversion_of_label; cbn [run_conversion];
    unfold csv_to_parquet, parquet_to_csv;
    (destruct src as [s|]; [|done]);
    match goal with
    | |- context [str_eqb ?a ?b] => destruct (str_eqb a b) eqn:E; [|done]
    end;
    apply str_eqb_eq in E; rewrite bind_lift.
  - destruct (read_csv (file_bytes s) None) as [df|e] eqn:Hdf; [|done].
    rewrite bind_lift. destruct (to_parquet df) as [data|e] eqn:Hdata; [|done].
    unfold bind, write_file, ret. intros [= <- <- <-].
    exists s, df, data. done.
  - destruct (read_parquet (file_bytes s)) as [df|e] eqn:Hdf; [|done].
    rewrite bind_lift. destruct (to_csv df) as [data|e] eqn:Hdata; [|done].
    unfold bind, write_file, ret. intros [= <- <- <-].
    exists s, df, data. done.
Qed.

Lemma table_conversions_write_the_table_witness :
  let run :=
    @dataset_converter plain_unicode demo_pandas strict_openpyxl
       (table_network [])
       (Some (FileObject (u "animals.CSV") animals_csv))
       (type_of CsvToParquet) None empty_world in
  let back :=
    @dataset_converter plain_unicode notes_pandas strict_openpyxl
       (table_network [])
       (Some (FileObject (u "notes.parquet") notes_parquet))
       (type_of ParquetToCsv) None empty_world in
  (∃ s df data,
     @resolve_input plain_unicode
       (Some (FileObject (u "animals.CSV") animals_csv)) empty_world
     = (Ok (Some s), empty_world)
     ∧ file_extension s = u "csv"
     ∧ @read_csv demo_pandas (file_bytes s) None = Ok df
     ∧ @to_parquet demo_pandas df = Ok data
     ∧ u "output.parquet" = u "output.parquet"
     ∧ match run.1 with Ok p => p.2 | Raise _ => [] end
       = info_message (Outcome (u "output.parquet") (u "Parquet")
                         (@head_to_string demo_pandas df) (Some (file_name s)))
     ∧ run.2 = World (<[u "output.parquet" := data]> (disk empty_world))
                     (net_log empty_world))
  ∧ (∃ s df data,
       @resolve_input plain_unicode
         (Some (FileObject (u "notes.parquet") notes_parquet)) empty_world
       = (Ok (Some s), empty_world)
       ∧ file_extension s = u "parquet"
       ∧ @read_parquet notes_pandas (file_bytes s) = Ok df
       ∧ @to_csv notes_pandas df = Ok data
       ∧ u "output.csv" = u "output.csv"
       ∧ match back.1 with Ok p => p.2 | Raise _ => [] end
         = info_message (Outcome (u "output.csv") (u "CSV")
                           (@head_to_string notes_pandas df)
                           (Some (file_name s)))
       ∧ back.2 = World (<[u "output.csv" := data]> (disk empty_world))
                        (net_log empty_world)).
Proof.
  intros run back. split.
  - apply (proj1 (@table_conversions_write_the_table plain_unicode demo_pandas
                    strict_openpyxl (table_network [])
                    (Some (FileObject (u "animals.CSV") animals_csv)) None
                    empty_world run.2 (u "output.parquet")
                    (match run.1 with Ok p => p.2 | Raise _ => [] end))).
    vm_compute. reflexivity.
  - apply (proj2 (@table_conversions_write_the_table plain_unicode notes_pandas
                    strict_openpyxl (table_network [])
                    (Some (FileObject (u "notes.parquet") notes_parquet)) None
                    empty_world back.2 (u "output.csv")
                    (match back.1 with Ok p => p.2 | Raise _ => [] end))).
    vm_compute. reflexivity.
Defined.


(** ** UTF-8: what is decoded can be encoded, and back *)

Section Utf8Facts.
Local Open Scope N_scope.

Ltac numeric_tests :=
  repeat match goal with
  | H : (_ <? _) = true |- _ => apply N.ltb_lt in H
  | H : (_ <? _) = false |- _ => apply N.ltb_ge in H
  | H : (_ <=? _) = true |- _ => apply N.leb_le in H
  | H : (_ <=? _) = false |- _ => apply N.leb_gt in H
  | H : (_ =? _) = true |- _ => apply N.eqb_eq in H
  | H : (_ =? _) = false |- _ => apply N.eqb_neq in H
  | H : (_ && _) = true |- _ => apply andb_true_iff in H as [? ?]
  | H : negb _ = true |- _ => apply negb_true_iff in H
  end.

Lemma is_scalar_spec c :
  is_scalar c = true ↔ c < 0x110000 ∧ ¬ (0xD800 <= c <= 0xDFFF).
Proof.
  unfold is_scalar, is_surrogate.
  destruct (N.ltb_spec c 0x110000), (N.leb_spec 0xD800 c), (N.leb_spec c 0xDFFF);
    cbn; split; (lia || done || (intros; split; [lia|lia])).
Qed.

Lemma byte_to_N_bound b : Byte.to_N b < 256.
Proof. pose proof (Byte.to_N_bounded b). lia. Qed.

(** One step of the decoder: it emits one scalar value and resumes at a
    proper suffix of the data. *)
Lemma utf8_decode_step b0 r0 :
  ∃ c consumed rest,
    utf8_decode_replace (b0 :: r0) = c :: utf8_decode_replace rest
    ∧ b0 :: r0 = consumed ++ rest ∧ consumed ≠ []
    ∧ is_scalar c = true.
Proof.
  assert (HR : is_scalar REPLACEMENT = true) by reflexivity.
  assert (Hone : ∃ c consumed rest,
    REPLACEMENT :: utf8_decode_replace r0 = c :: utf8_decode_replace rest
    ∧ b0 :: r0 = consumed ++ rest ∧ consumed ≠ [] ∧ is_scalar c = true).
  { by exists REPLACEMENT, [b0], r0. }
  assert (Hend : ∀ bs, bs ≠ [] → ∃ c consumed rest,
    [REPLACEMENT] = c :: utf8_decode_replace rest
    ∧ bs = consumed ++ rest ∧ consumed ≠ [] ∧ is_scalar c = true).
  { intros bs Hbs. exists REPLACEMENT, bs, []. by rewrite app_nil_r. }
  pose proof (byte_to_N_bound b0) as Hb0.
  cbn [utf8_decode_replace].
  destruct (Byte.to_N b0 <? 0x80) eqn:E0.
  { exists (Byte.to_N b0), [b0], r0. split; [done|]. split; [done|].
    split; [done|]. numeric_tests. apply is_scalar_spec. lia. }
  destruct (Byte.to_N b0 <? 0xC2) eqn:E1; [done|].
  destruct (Byte.to_N b0 <? 0xE0) eqn:E2.
  { destruct r0 as [|b1 r1]; [by apply Hend|].
    destruct (is_continuation (Byte.to_N b1)) eqn:C1; [|done].
    exists (cp2 (Byte.to_N b0) (Byte.to_N b1)), [b0; b1], r1.
    split; [done|]. split; [done|]. split; [done|].
    unfold is_continuation in C1. numeric_tests.
    apply is_scalar_spec. unfold cp2. lia. }
  destruct (Byte.to_N b0 <? 0xF0) eqn:E3.
  { destruct r0 as [|b1 r1]; [by apply Hend|].
    destruct (second_of_3 (Byte.to_N b0) (Byte.to_N b1)) eqn:C1; [|done].
    destruct r1 as [|b2 r2]; [by apply Hend|].
    destruct (is_continuation (Byte.to_N b2)) eqn:C2.
    2:{ by exists REPLACEMENT, [b0; b1], (b2 :: r2). }
    exists (cp3 (Byte.to_N b0) (Byte.to_N b1) (Byte.to_N b2)), [b0; b1; b2], r2.
    split; [done|]. split; [done|]. split; [done|].
    unfold second_of_3, is_continuation in *. numeric_tests.
    apply is_scalar_spec. unfold cp3.
    destruct (Byte.to_N b1 <? 0xA0) eqn:EA; numeric_tests; lia. }
  destruct (Byte.to_N b0 <? 0xF5) eqn:E4; [|done].
  destruct r0 as [|b1 r1]; [by apply Hend|].
  destruct (second_of_4 (Byte.to_N b0) (Byte.to_N b1)) eqn:C1; [|done].
  destruct r1 as [|b2 r2]; [by apply Hend|].
  destruct (is_continuation (Byte.to_N b2)) eqn:C2.
  2:{ by exists REPLACEMENT, [b0; b1], (b2 :: r2). }
  destruct r2 as [|b3 r3]; [by apply Hend|].
  destruct (is_continuation (Byte.to_N b3)) eqn:C3.
  2:{ by exists REPLACEMENT, [b0; b1; b2], (b3 :: r3). }
  exists (cp4 (Byte.to_N b0) (Byte.to_N b1) (Byte.to_N b2) (Byte.to_N b3)),
    [b0; b1; b2; b3], r3.
  split; [done|]. split; [done|]. split; [done|].
  unfold second_of_4, is_continuation in *. numeric_tests.
  apply is_scalar_spec. unfold cp4.
  destruct (Byte.to_N b1 <? 0x90) eqn:EA; numeric_tests; lia.
Qed.

(** Induction along the decoder. *)
Lemma utf8_decode_ind (P : bytes → str → Prop) :
  P [] [] →
  (∀ c consumed rest,
     consumed ≠ [] → is_scalar c = true →
     P rest (utf8_decode_replace rest) →
     utf8_decode_replace (consumed ++ rest) = c :: utf8_decode_replace rest →
     P (consumed ++ rest) (c :: utf8_decode_replace rest)) →
  ∀ bs, P bs (utf8_decode_replace bs).
Proof.
  intros Hnil Hstep bs.
  remember (List.length bs) as n eqn:Hn.
  revert bs Hn. induction n as [n IH] using lt_wf_ind. intros bs Hn.
  destruct bs as [|b0 r0]; [done|].
  destruct (utf8_decode_step b0 r0) as (c & consumed & rest & Hdec & Hsplit & Hne & Hc).
  rewrite Hdec, Hsplit. apply Hstep; try done.
  - eapply IH; [|reflexivity]. subst n. rewrite Hsplit, length_app.
    destruct consumed; [done|]. simpl. lia.
  - by rewrite <- Hsplit.
Qed.

Lemma utf8_decode_scalar bs :
  Forall (λ c, is_scalar c = true) (utf8_decode_replace bs).
Proof.
  apply (utf8_decode_ind (λ _ s, Forall (λ c, is_scalar c = true) s)).
  - constructor.
  - intros c consumed rest _ Hc IH _. by constructor.
Qed.

Lemma utf8_decode_length bs :
  (List.length (utf8_decode_replace bs) ≤ List.length bs)%nat.
Proof.
  apply (utf8_decode_ind (λ bs s, (List.length s ≤ List.length bs)%nat)).
  - done.
  - intros c consumed rest Hne _ IH _. rewrite length_app. cbn [List.length].
    destruct consumed; [done|]. simpl. lia.
Qed.

Lemma utf8_encode_char_scalar c :
  is_scalar c = true → is_Some (utf8_encode_char c).
Proof.
  intros [Hc Hs]%is_scalar_spec. unfold utf8_encode_char, is_surrogate.
  destruct (N.ltb_spec c 0x80); [eauto|].
  destruct (N.ltb_spec c 0x800); [eauto|].
  destruct (N.leb_spec 0xD800 c), (N.leb_spec c 0xDFFF); cbn; try lia;
    (destruct (N.ltb_spec c 0x10000); [eauto|]);
    (destruct (N.ltb_spec c 0x110000); [eauto|lia]).
Qed.

Lemma utf8_encode_scalar s :
  Forall (λ c, is_scalar c = true) s ↔ is_Some (utf8_encode s).
Proof.
  split.
  - induction 1 as [|c s Hc _ [bs IH]]; [by eexists|].
    destruct (utf8_encode_char_scalar c Hc) as [b Hb].
    cbn [utf8_encode]. rewrite Hb, IH. eauto.
  - induction s as [|c s IH]; [constructor|].
    cbn [utf8_encode]. intros [bs Hbs].
    destruct (utf8_encode_char c) as [b|] eqn:Hb; [|done].
    destruct (utf8_encode s) as [br|]; [|done].
    constructor; [|apply IH; eauto].
    apply is_scalar_spec. revert Hb. unfold utf8_encode_char, is_surrogate.
    destruct (N.ltb_spec c 0x80); [lia|].
    destruct (N.ltb_spec c 0x800); [lia|].
    destruct (N.leb_spec 0xD800 c), (N.leb_spec c 0xDFFF); cbn; try done;
      (destruct (N.ltb_spec c 0x10000); [lia|]);
      (destruct (N.ltb_spec c 0x110000); [lia|done]).
Qed.

Lemma utf8_encode_app s t :
  utf8_encode (s ++ t)
  = match utf8_encode s, utf8_encode t with
    | Some a, Some b => Some (a ++ b)
    | _, _ => None
    end.
Proof.
  induction s as [|c s IH]; cbn [app utf8_encode].
  - by destruct (utf8_encode t).
  - rewrite IH. destruct (utf8_encode_char c), (utf8_encode s), (utf8_encode t);
      try done. by rewrite app_assoc.
Qed.

(** Decoding what the encoder wrote for one character gives the
    character back. *)
Lemma utf8_decode_encode_char c bc rest :
  utf8_encode_char c = Some bc →
  utf8_decode_replace (bc ++ rest) = c :: utf8_decode_replace rest.
Proof.
  unfold utf8_encode_char.
  destruct (N.ltb_spec c 0x80) as [H1|H1].
  { intros [= <-]. cbn [app utf8_decode_replace].
    rewrite to_N_byte_of by lia.
    by destruct (N.ltb_spec c 0x80); [|lia]. }
  pose proof (N.div_mod c 64 ltac:(lia)) as Hc.
  pose proof (N.mod_upper_bound c 64 ltac:(lia)) as Hr.
  destruct (N.ltb_spec c 0x800) as [H2|H2].
  { intros [= <-]. cbn [app utf8_decode_replace].
    assert (c / 64 < 32) as Hq by (apply N.Div0.div_lt_upper_bound; lia).
    generalize dependent (c mod 64). generalize dependent (c / 64).
    intros q Hq r Hc Hr.
    rewrite !to_N_byte_of by lia.
    destruct (N.ltb_spec (192 + q) 0x80); [lia|].
    destruct (N.ltb_spec (192 + q) 0xC2); [lia|].
    destruct (N.ltb_spec (192 + q) 0xE0); [|lia].
    unfold is_continuation.
    destruct (N.leb_spec 0x80 (128 + r)); [|lia].
    destruct (N.leb_spec (128 + r) 0xBF); [|lia].
    cbn [andb]. f_equal. unfold cp2. lia. }
  unfold is_surrogate.
  destruct (N.leb_spec 0xD800 c) as [H3|H3], (N.leb_spec c 0xDFFF) as [H4|H4];
    cbn [andb]; try done.
  all: replace (c / 4096) with (c / 64 / 64)
         by (rewrite N.Div0.div_div; reflexivity).
  all: replace (c / 262144) with (c / 64 / 64 / 64)
         by (rewrite !N.Div0.div_div; reflexivity).
  all: pose proof (N.div_mod (c / 64) 64 ltac:(lia)) as Hc1.
  all: pose proof (N.mod_upper_bound (c / 64) 64 ltac:(lia)) as Hr1.
  all: pose proof (N.div_mod (c / 64 / 64) 64 ltac:(lia)) as Hc2.
  all: pose proof (N.mod_upper_bound (c / 64 / 64) 64 ltac:(lia)) as Hr2.
  all: generalize dependent (c mod 64); intros r0 Hc Hr.
  all: generalize dependent ((c / 64) mod 64); intros r1 Hc1 Hr1.
  all: generalize dependent ((c / 64 / 64) mod 64); intros r2 Hc2 Hr2.
  all: generalize dependent (c / 64 / 64 / 64); intros q3 Hc2.
  all: generalize dependent (c / 64 / 64); intros q2 Hc1 Hc2.
  all: generalize dependent (c / 64); intros q1 Hc Hc1.
  all: destruct (N.ltb_spec c 0x10000) as [H5|H5].
  all: try (destruct (N.ltb_spec c 0x110000) as [H6|H6]; [|done]).
  all: intros [= <-]; cbn [app utf8_decode_replace].
  all: rewrite !to_N_byte_of by lia.
  all: unfold second_of_3, second_of_4, is_continuation.
  all: repeat match goal with
       | |- context [?a <? ?b] => destruct (N.ltb_spec a b); try lia
       | |- context [?a <=? ?b] => destruct (N.leb_spec a b); try lia
       | |- context [?a =? ?b] => destruct (N.eqb_spec a b); try lia
       end.
  all: cbn [andb negb]; f_equal; unfold cp3, cp4; lia.
Qed.

(** [data.decode("utf-8")] undoes [text.encode("utf-8")]. *)
Lemma utf8_decode_encode s data :
  utf8_encode s = Some data → utf8_decode_replace data = s.
Proof.
  revert data. induction s as [|c s IH]; intros data; cbn [utf8_encode].
  - by intros [= <-].
  - destruct (utf8_encode_char c) as [bc|] eqn:Hc; [|done].
    destruct (utf8_encode s) as [br|]; [|done]. intros [= <-].
    erewrite utf8_decode_encode_char by done. f_equal. by apply IH.
Qed.
End Utf8Facts.


(** ** The sanitizers on text, bytes and representations *)

Section ReprFacts.
Context `{UnicodeData}.
Local Open Scope N_scope.

Lemma legal_app s t : legal s → legal t → legal (s ++ t).
Proof. apply Forall_app_2. Qed.

Lemma legal_printable s : Forall (λ c, 32 <= c) s → legal s.
Proof.
  intros Hs. eapply Forall_impl; [exact Hs|]. intros c Hc. simpl in Hc.
  unfold illegal_char.
  destruct (N.leb_spec c 8); [lia|]. destruct (N.eqb_spec c 11); [lia|].
  destruct (N.eqb_spec c 12); [lia|]. destruct (N.leb_spec 14 c); [|done].
  destruct (N.leb_spec c 31); [lia|done].
Qed.

Lemma legal_plain s : is_plain s → legal s.
Proof.
  intros Hs. apply legal_printable. eapply Forall_impl; [exact Hs|].
  simpl. lia.
Qed.

Lemma legal_u s :
  forallb (λ c, negb (illegal_char c)) (u s) = true → legal (u s).
Proof.
  intros Hs. apply Forall_forall. intros c Hc.
  rewrite forallb_forall in Hs. apply list_elem_of_In, Hs in Hc.
  by apply negb_true_iff.
Qed.

Lemma legal_concat (parts : list str) : Forall legal parts → legal (concat parts).
Proof. induction 1; simpl; [constructor | by apply legal_app]. Qed.

Lemma legal_join sep parts :
  legal sep → Forall legal parts → legal (join sep parts).
Proof.
  intros Hsep [|p ps Hp Hps]; simpl; [constructor|].
  apply legal_app; [done|]. apply legal_concat.
  apply Forall_map. eapply Forall_impl; [exact Hps|].
  intros q Hq. by apply legal_app.
Qed.

Lemma strip_illegal_fixed s : strip_illegal s = s ↔ legal s.
Proof.
  split.
  - intros <-. apply strip_illegal_legal.
  - unfold strip_illegal. induction 1 as [|c s Hc _ IH]; [done|].
    cbn [List.filter]. by rewrite Hc, IH.
Qed.

Lemma strip_illegal_sublist s : sublist (strip_illegal s) s.
Proof.
  unfold strip_illegal. induction s as [|c s IH]; cbn [List.filter].
  - constructor.
  - destruct (illegal_char c); cbn [negb]; by constructor.
Qed.

Lemma strip_illegal_Forall (P : N → Prop) s :
  Forall P s → Forall P (strip_illegal s).
Proof.
  unfold strip_illegal. induction 1 as [|c s Hc _ IH]; cbn [List.filter].
  - constructor.
  - destruct (illegal_char c); cbn [negb]; [done | by constructor].
Qed.

Lemma legal_hex8 c : legal (hex8 c).
Proof.
  unfold hex8. apply legal_app; apply legal_plain, is_plain_hex4.
Qed.

Lemma repr_quote_printable s : 32 <= repr_quote s.
Proof. unfold repr_quote. destruct (_ && _); lia. Qed.

Lemma legal_str_repr_char q c : 32 <= q → legal (str_repr_char q c).
Proof.
  intros Hq. unfold str_repr_char.
  destruct (N.eqb_spec c q) as [->|Hcq]; cbn [orb].
  { apply legal_printable. repeat constructor; lia. }
  destruct (N.eqb_spec c 92) as [->|H92].
  { apply legal_printable. repeat constructor; lia. }
  destruct (N.eqb_spec c 9); [by apply legal_printable; repeat constructor|].
  destruct (N.eqb_spec c 10); [by apply legal_printable; repeat constructor|].
  destruct (N.eqb_spec c 13); [by apply legal_printable; repeat constructor|].
  assert (Hx : legal (92 :: 120 :: hex2 c)).
  { apply (legal_app [92; 120]); [by apply legal_printable; repeat constructor|].
    apply legal_plain, is_plain_hex2. }
  destruct (N.ltb_spec c 32); cbn [orb]; [done|].
  destruct (N.eqb_spec c 127); [done|].
  destruct (N.ltb_spec c 127).
  { apply legal_printable. repeat constructor; lia. }
  destruct (isprintable c).
  { apply legal_printable. repeat constructor; lia. }
  destruct (c <=? 255); [done|].
  destruct (c <=? 65535).
  - apply (legal_app [92; 117]); [by apply legal_printable; repeat constructor|].
    apply legal_plain, is_plain_hex4.
  - apply (legal_app [92; 85]); [by apply legal_printable; repeat constructor|].
    apply legal_hex8.
Qed.

Lemma legal_bytes_repr_char q c : 32 <= q → legal (bytes_repr_char q c).
Proof.
  intros Hq. unfold bytes_repr_char.
  destruct (N.eqb_spec c q) as [->|Hcq]; cbn [orb].
  { apply legal_printable. repeat constructor; lia. }
  destruct (N.eqb_spec c 92) as [->|H92].
  { apply legal_printable. repeat constructor; lia. }
  destruct (N.eqb_spec c 9); [by apply legal_printable; repeat constructor|].
  destruct (N.eqb_spec c 10); [by apply legal_printable; repeat constructor|].
  destruct (N.eqb_spec c 13); [by apply legal_printable; repeat constructor|].
  assert (Hx : legal (92 :: 120 :: hex2 c)).
  { apply (legal_app [92; 120]); [by apply legal_printable; repeat constructor|].
    apply legal_plain, is_plain_hex2. }
  destruct (N.ltb_spec c 32); cbn [orb]; [done|].
  destruct (N.leb_spec 127 c); [done|].
  apply legal_printable. repeat constructor; lia.
Qed.

Lemma legal_str_repr s : legal (str_repr s).
Proof.
  unfold str_repr. pose proof (repr_quote_printable s) as Hq.
  apply (legal_app [_]); [apply legal_printable; by repeat constructor|].
  apply legal_app; [|apply legal_printable; by repeat constructor].
  apply legal_concat, Forall_map, Forall_forall. intros c _.
  by apply legal_str_repr_char.
Qed.

Lemma legal_bytes_repr b : legal (bytes_repr b).
Proof.
  unfold bytes_repr. pose proof (repr_quote_printable (map Byte.to_N b)) as Hq.
  apply (legal_app [98; _]); [apply legal_printable; repeat constructor; lia|].
  apply legal_app; [|apply legal_printable; by repeat constructor].
  apply legal_concat, Forall_map, Forall_forall. intros c _.
  by apply legal_bytes_repr_char.
Qed.

Lemma legal_float_repr f : legal (float_repr f).
Proof.
  destruct f as [|[]|negative i frac e]; try (apply legal_u; reflexivity).
  apply legal_plain. apply (is_plain_floatstr (FFinite negative i frac e)).
Qed.

(** [repr] escapes the control characters of text and bytes: what it
    prints has none, unless an object of another class prints one. *)
Lemma legal_py_repr v : clean_objects v = true → legal (py_repr v).
Proof.
  induction v as [|[]|z|f|s|b|l IH|l IH|d IH|c r] using pyval_nested_ind;
    cbn [py_repr clean_objects]; intros Hv;
    try (apply legal_u; reflexivity).
  - apply legal_plain, is_plain_int_repr.
  - apply legal_float_repr.
  - apply legal_str_repr.
  - apply legal_bytes_repr.
  - repeat apply legal_app; try (apply legal_u; reflexivity).
    apply legal_join; [apply legal_u; reflexivity|].
    apply Forall_map, Forall_forall. intros x Hx. rewrite forallb_forall in Hv.
    eapply Forall_forall in IH; [|exact Hx]. apply IH.
    by apply Hv, list_elem_of_In.
  - repeat apply legal_app; try (apply legal_u; reflexivity).
    + apply legal_join; [apply legal_u; reflexivity|].
      apply Forall_map, Forall_forall. intros x Hx. rewrite forallb_forall in Hv.
      eapply Forall_forall in IH; [|exact Hx]. apply IH.
      by apply Hv, list_elem_of_In.
    + destruct l as [|? [|]];
        [constructor | apply legal_u; reflexivity | constructor].
  - repeat apply legal_app; try (apply legal_u; reflexivity).
    apply legal_join; [apply legal_u; reflexivity|].
    apply Forall_map, Forall_forall. intros [k x] Hkx.
    rewrite forallb_forall in Hv.
    eapply Forall_forall in IH as [Hk Hx]; [|exact Hkx]. cbn [fst snd] in *.
    apply list_elem_of_In, Hv, andb_true_iff in Hkx as [Hck Hcx].
    repeat apply legal_app; try (apply legal_u; reflexivity); eauto.
  - apply Forall_forall. intros x Hx. rewrite forallb_forall in Hv.
    apply list_elem_of_In, Hv in Hx. by apply negb_true_iff.
Qed.
End ReprFacts.

(** X9.  On text [sanitize_value] only deletes: the result is a
    subsequence of the input that keeps every character outside the
    stripped ranges, and it is the input itself exactly when the input
    has no character of those ranges. *)
Theorem sanitize_value_only_deletes `{UnicodeData} (s : str) :
  ∃ t, sanitize_value (PStr s) = PStr t
       ∧ sublist t s
       ∧ (∀ c, c ∈ s → illegal_char c = false → c ∈ t)
       ∧ (t = s ↔ Forall (λ c, illegal_char c = false) s).
Proof.
  exists (strip_illegal s). split; [done|]. split; [apply strip_illegal_sublist|].
  split; [|apply strip_illegal_fixed].
  intros c Hc Hlegal. unfold strip_illegal.
  apply list_elem_of_In, filter_In. split; [by apply list_elem_of_In|].
  by rewrite Hlegal.
Qed.

(** X10.  Bytes that are the UTF-8 encoding of a text are read as that
    text: [recursive_sanitize] returns the text, and [sanitize_value]
    what it returns for the text. *)
Theorem encoded_text_is_read_back `{UnicodeData} (s : str) (data : bytes) :
  utf8_encode s = Some data →
  sanitize_value (PBytes data) = sanitize_value (PStr s)
  ∧ recursive_sanitize (PBytes data) = PStr s.
Proof.
  intros Hdata%utf8_decode_encode. cbn [sanitize_value recursive_sanitize].
  by rewrite Hdata.
Qed.

Lemma encoded_text_is_read_back_witness :
  @sanitize_value plain_unicode (PBytes [x63; x61; x66; xc3; xa9; x07])
  = @sanitize_value plain_unicode (PStr [0x63; 0x61; 0x66; 0xE9; 0x07]%N)
  ∧ recursive_sanitize (PBytes [x63; x61; x66; xc3; xa9; x07])
    = PStr [0x63; 0x61; 0x66; 0xE9; 0x07]%N.
Proof.
  apply (@encoded_text_is_read_back plain_unicode). reflexivity.
Defined.

(** X11.  Whatever the bytes, valid UTF-8 or not, both sanitizers turn
    them into text without lone surrogates, which a file opened for
    writing in UTF-8 accepts; the text is no longer than the bytes. *)
Theorem decoded_bytes_can_be_written `{UnicodeData} (data : bytes) :
  ∃ s t,
    recursive_sanitize (PBytes data) = PStr s
    ∧ sanitize_value (PBytes data) = PStr t
    ∧ is_Some (utf8_encode s) ∧ is_Some (utf8_encode t)
    ∧ (List.length t ≤ List.length s ≤ List.length data)%nat.
Proof.
  exists (utf8_decode_replace data), (strip_illegal (utf8_decode_replace data)).
  split; [done|]. split; [done|].
  pose proof (utf8_decode_scalar data) as Hs.
  split; [by apply utf8_encode_scalar|]. split.
  - by apply utf8_encode_scalar, strip_illegal_Forall.
  - split; [apply sublist_length, strip_illegal_sublist|].
    apply utf8_decode_length.
Qed.

(** X12.  For a dict or a list built from [None], booleans, numbers,
    text, bytes, lists, tuples and dicts (and objects whose own
    representation is clean), [sanitize_value] returns [str(val)]
    unchanged: the representation already escapes every control
    character, so the substitution of line 33 removes nothing. *)
Theorem sanitize_value_keeps_repr `{UnicodeData} (val : pyval) :
  is_dict_or_list val = true → clean_objects val = true →
  sanitize_value val = PStr (py_str val).
Proof.
  intros Hv Hc.
  assert (strip_illegal (py_repr val) = py_repr val) as Hr
    by (by apply strip_illegal_fixed, legal_py_repr).
  destruct val; try discriminate; cbn [sanitize_value py_str]; by rewrite Hr.
Qed.

Lemma sanitize_value_keeps_repr_witness :
  @sanitize_value plain_unicode
     (PDict [(PStr (u "k"), PList [PStr [0x61; 0x00; 0x0A]%N; PBytes [x07]])])
  = PStr (@py_str plain_unicode
     (PDict [(PStr (u "k"), PList [PStr [0x61; 0x00; 0x0A]%N; PBytes [x07]])])).
Proof.
  apply (@sanitize_value_keeps_repr plain_unicode); reflexivity.
Defined.

(** X13.  [recursive_sanitize] is idempotent: bytes become text at every
    depth of lists and dict values, and a second pass changes nothing. *)
Theorem recursive_sanitize_idempotent (val : pyval) :
  recursive_sanitize (recursive_sanitize val) = recursive_sanitize val.
Proof.
  induction val as [|b|z|f|s|b|l IH|l IH|d IH|c r] using pyval_nested_ind;
    cbn [recursive_sanitize]; try reflexivity.
  - f_equal. rewrite map_map. apply map_ext_Forall. exact IH.
  - f_equal. rewrite map_map. apply map_ext_Forall.
    eapply Forall_impl; [exact IH|]. intros [k x] [_ Hx]. cbn [snd] in Hx.
    by rewrite Hx.
Qed.


(** ** Reading back what either encoder writes *)

Section RawStrings.
Local Open Scope N_scope.

(** One character, written by the encoder that keeps non-ASCII text,
    reads back as its UTF-16 code units. *)
Lemma parse_chars_escape_unicode c tail units rest :
  parse_chars tail = Some (units, rest) →
  parse_chars (escape_unicode c ++ tail) = Some (utf16_units c ++ units, rest).
Proof.
  intros Htail. unfold escape_unicode.
  destruct (short_escape c) as [e|] eqn:He.
  - apply short_escape_unescape in He as (He & Hun & Hc).
    cbn [app parse_chars]. change (92 =? 34) with false.
    change (92 =? 92) with true. cbv iota.
    destruct (N.eqb_spec e 117); [done|].
    rewrite Hun, Htail. unfold utf16_units.
    by destruct (N.ltb_spec c 0x10000); [|lia].
  - apply short_escape_none in He as [H34 H92].
    destruct (N.leb_spec c 0x1F) as [Hlow|Hhigh].
    + erewrite parse_chars_u_escape; [|exact Htail].
      unfold utf16_units. destruct (N.ltb_spec c 0x10000); [|lia].
      cbn [app]. rewrite N.mod_small by lia. done.
    + cbn [app parse_chars].
      destruct (N.eqb_spec c 34); [done|]. destruct (N.eqb_spec c 92); [done|].
      destruct (N.ltb_spec c 32); [lia|]. by rewrite Htail.
Qed.

(** A string written by either encoder reads back as the UTF-16 code
    units of the text. *)
Lemma parse_chars_encode_string_as ea s rest :
  parse_chars (concat (map (escape_char ea) s) ++ 34 :: rest)
  = Some (utf16 s, rest).
Proof.
  induction s as [|c s IH]; cbn [map concat app].
  - cbn [parse_chars]. by change (34 =? 34) with true.
  - rewrite <- app_assoc. unfold escape_char at 1. destruct ea.
    + by apply parse_chars_escape_ascii.
    + by apply parse_chars_escape_unicode.
Qed.

Lemma escape_char_printable ea c : Forall (λ x, 32 <= x) (escape_char ea c).
Proof.
  unfold escape_char. destruct ea.
  - eapply Forall_impl; [apply is_plain_escape_ascii|]. simpl. lia.
  - unfold escape_unicode. destruct (short_escape c) as [e|] eqn:He.
    + apply short_escape_ascii in He. repeat constructor; lia.
    + destruct (N.leb_spec c 0x1F).
      * eapply Forall_impl; [apply is_plain_u_escape|]. simpl. lia.
      * repeat constructor. lia.
Qed.

Lemma encode_string_printable ea s : Forall (λ x, 32 <= x) (encode_string ea s).
Proof.
  unfold encode_string. constructor; [lia|]. apply Forall_app_2.
  - apply Forall_concat, Forall_map, Forall_forall. intros c _.
    apply escape_char_printable.
  - repeat constructor. lia.
Qed.
End RawStrings.

Section RawValues.
Local Open Scope N_scope.
Variable ea : bool.

Lemma parse_items_encode_as l :
  Forall (reads_back_as ea) l →
  ∀ items js rest fuel,
    Forall2 (λ x y, json_encode ea x = Some y) l items →
    Forall2 (λ x j, to_json x = Some j) l js →
    l ≠ [] →
    (List.length (join (u ", ") items) < fuel)%nat →
    parse_items fuel (join (u ", ") items ++ 93 :: rest) = Some (js, rest).
Proof.
  induction 1 as [|x l Hx Hl IH]; [done|].
  intros items js rest fuel Henc Hjs _ Hfuel.
  inversion Henc as [|? enc ? items' Hxenc Hrest]; subst.
  inversion Hjs as [|? j ? js' Hxj Hrestj]; subst.
  destruct fuel as [|fuel]; [lia|]. cbn [parse_items].
  destruct l as [|x' l'].
  - inversion Hrest; subst. inversion Hrestj; subst.
    cbn [join map concat] in *. rewrite app_nil_r in *.
    rewrite (Hx enc j (93 :: rest) fuel) by (done || (right; by left) || lia).
    reflexivity.
  - inversion Hrest as [|? enc' ? items'' Hx'enc Hrest']; subst.
    rewrite join_cons2 in *. rewrite <- !app_assoc.
    change (u ", ") with [44; 32] in *. cbn [app] in *.
    rewrite length_app in Hfuel. cbn [List.length] in Hfuel.
    rewrite (Hx enc j (44 :: 32 :: join [44; 32] (enc' :: items'') ++ 93 :: rest)
               fuel) by (done || (by left) || lia).
    cbn [skip_ws]. change (is_ws 44) with false. cbv iota.
    change (44 =? 44) with true. cbv iota.
    rewrite parse_items_space.
    rewrite (IH (enc' :: items'') js' rest fuel) by (done || lia).
    reflexivity.
Qed.

Lemma parse_members_step_as fuel key venc j tail :
  parse_value fuel (venc ++ tail) = Some (j, tail) →
  parse_members (S fuel) (encode_member ea key venc ++ tail)
  = match skip_ws tail with
    | c :: r2 =>
      if c =? 44 then
        match parse_members fuel r2 with
        | Some (members, rest') => Some ((utf16 key, j) :: members, rest')
        | None => None
        end
      else if c =? 125 then Some ([(utf16 key, j)], r2)
      else None
    | [] => None
    end.
Proof.
  intros Hvalue. unfold encode_member, encode_string.
  change (u ": ") with [58; 32]. rewrite <- !app_assoc. cbn [app].
  cbn [parse_members skip_ws]. change (is_ws 34) with false. cbv iota.
  change (34 =? 34) with true. cbv iota.
  rewrite <- app_assoc. cbn [app]. rewrite parse_chars_encode_string_as.
  cbn [skip_ws]. change (is_ws 58) with false. cbv iota.
  change (58 =? 58) with true. cbv iota.
  by rewrite parse_value_space, Hvalue.
Qed.

Lemma parse_members_encode_as d :
  Forall (λ kv, reads_back_as ea kv.1 ∧ reads_back_as ea kv.2) d →
  ∀ members jm rest fuel,
    Forall2 (λ kv y,
      match kv with
      | (k, x) =>
        match json_key k, json_encode ea x with
        | Some ks, Some xs => Some (encode_member ea ks xs)
        | _, _ => None
        end
      end = Some y) d members →
    Forall2 (λ kv m,
      match kv with
      | (k, x) =>
        match json_key k, to_json x with
        | Some ks, Some j => Some (utf16 ks, j)
        | _, _ => None
        end
      end = Some m) d jm →
    d ≠ [] →
    (List.length (join (u ", ") members) < fuel)%nat →
    parse_members fuel (join (u ", ") members ++ 125 :: rest) = Some (jm, rest).
Proof.
  induction 1 as [|[k x] d [_ Hx] Hd IH]; [done|].
  intros members jm rest fuel Henc Hjm _ Hfuel.
  inversion Henc as [|? member ? members' Hmember Hrest]; subst.
  inversion Hjm as [|? m ? jm' Hm Hrestj]; subst.
  destruct (json_key k) as [ks|]; [|done].
  destruct (json_encode ea x) as [xs|] eqn:Hxs; [|done].
  destruct (to_json x) as [j|] eqn:Hj; [|done].
  injection Hmember as <-. injection Hm as <-.
  destruct fuel as [|fuel]; [lia|].
  assert (Hlen : (List.length xs ≤ List.length (encode_member ea ks xs))%nat).
  { unfold encode_member. rewrite !length_app. lia. }
  destruct d as [|kv' d'].
  - inversion Hrest; subst. inversion Hrestj; subst.
    cbn [join map concat] in *. rewrite app_nil_r in *.
    rewrite (parse_members_step_as fuel ks xs j (125 :: rest)).
    + reflexivity.
    + apply Hx; try done; [right; by right | lia].
  - inversion Hrest as [|? member' ? members'' Hmember' Hrest']; subst.
    rewrite join_cons2 in *. rewrite <- !app_assoc.
    change (u ", ") with [44; 32] in *. cbn [app] in *.
    rewrite length_app in Hfuel. cbn [List.length] in Hfuel.
    rewrite (parse_members_step_as fuel ks xs j).
    + cbn [skip_ws]. change (is_ws 44) with false. cbv iota.
      change (44 =? 44) with true. cbv iota.
      rewrite parse_members_space.
      rewrite (IH (member' :: members'') jm' rest fuel) by (done || lia).
      reflexivity.
    + apply Hx; try done; [by left | lia].
Qed.

(** Reading back either encoder: every value that [json.dumps] encodes
    and that has a JSON value reads back as that value. *)
Lemma json_encode_reads_back_as v : reads_back_as ea v.
Proof.
  induction v as [|b|z|f|s|b|l IH|l IH|d IH|c r] using pyval_nested_ind;
    intros enc j rest fuel; cbn [json_encode to_json].
  - intros [= <-] [= <-] Hrest Hfuel.
    destruct fuel as [|fuel]; [simpl in Hfuel; lia|]. reflexivity.
  - destruct b; intros [= <-] [= <-] Hrest Hfuel;
      (destruct fuel as [|fuel]; [simpl in Hfuel; lia|]); reflexivity.
  - intros [= <-] [= <-] Hrest Hfuel.
    destruct (int_repr_head z) as (c & r & Hz & Hc).
    destruct fuel as [|fuel]; [rewrite Hz in Hfuel; simpl in Hfuel; lia|].
    rewrite Hz. cbn [app]. rewrite parse_value_number by done.
    change (c :: r ++ rest) with ((c :: r) ++ rest). rewrite <- Hz.
    by apply parse_number_int.
  - destruct f as [|negative|negative i frac e]; [done..|].
    intros [= <-] [= <-] Hrest Hfuel. cbn [floatstr float_repr] in *.
    destruct (finite_chars_head negative i frac e) as (c & r & Hz & Hc).
    destruct fuel as [|fuel]; [rewrite Hz in Hfuel; simpl in Hfuel; lia|].
    rewrite Hz. cbn [app]. rewrite parse_value_number by done.
    change (c :: r ++ rest) with ((c :: r) ++ rest). rewrite <- Hz.
    by apply parse_number_finite.
  - intros [= <-] [= <-] Hrest Hfuel.
    destruct fuel as [|fuel]; [simpl in Hfuel; lia|].
    unfold encode_string. cbn [app]. rewrite parse_value_string.
    rewrite <- app_assoc. cbn [app]. by rewrite parse_chars_encode_string_as.
  - done.
  - destruct (sequence_opt (map (json_encode ea) l)) as [items|] eqn:Hitems;
      [|done].
    destruct (sequence_opt (map to_json l)) as [js|] eqn:Hjs; [|done].
    intros [= <-] [= <-] Hrest Hfuel.
    apply sequence_opt_map in Hitems. apply sequence_opt_map in Hjs.
    unfold encode_array in *. change (u "[") with [91] in *.
    change (u "]") with [93] in *. rewrite <- !app_assoc. cbn [app] in *.
    destruct fuel as [|fuel]; [simpl in Hfuel; lia|].
    rewrite parse_value_array.
    destruct l as [|x l].
    + inversion Hitems; subst. inversion Hjs; subst. reflexivity.
    + inversion Hitems as [|? enc ? items' Hxenc Hrest']; subst.
      destruct (json_encode_head _ _ _ Hxenc) as (c & r & Henc & Hws & H93 & _).
      destruct (join_head (u ", ") enc items' c r Henc) as [r' Hjoin].
      cbn [List.length] in Hfuel. rewrite length_app in Hfuel.
      cbn [List.length] in Hfuel.
      rewrite (parse_items_encode_as (x :: l) IH (enc :: items') js rest fuel)
        by (done || lia).
      rewrite Hjoin. cbn [app skip_ws]. rewrite Hws.
      by destruct (N.eqb_spec c 93).
  - destruct (sequence_opt (map (json_encode ea) l)) as [items|] eqn:Hitems;
      [|done].
    destruct (sequence_opt (map to_json l)) as [js|] eqn:Hjs; [|done].
    intros [= <-] [= <-] Hrest Hfuel.
    apply sequence_opt_map in Hitems. apply sequence_opt_map in Hjs.
    unfold encode_array in *. change (u "[") with [91] in *.
    change (u "]") with [93] in *. rewrite <- !app_assoc. cbn [app] in *.
    destruct fuel as [|fuel]; [simpl in Hfuel; lia|].
    rewrite parse_value_array.
    destruct l as [|x l].
    + inversion Hitems; subst. inversion Hjs; subst. reflexivity.
    + inversion Hitems as [|? enc ? items' Hxenc Hrest']; subst.
      destruct (json_encode_head _ _ _ Hxenc) as (c & r & Henc & Hws & H93 & _).
      destruct (join_head (u ", ") enc items' c r Henc) as [r' Hjoin].
      cbn [List.length] in Hfuel. rewrite length_app in Hfuel.
      cbn [List.length] in Hfuel.
      rewrite (parse_items_encode_as (x :: l) IH (enc :: items') js rest fuel)
        by (done || lia).
      rewrite Hjoin. cbn [app skip_ws]. rewrite Hws.
      by destruct (N.eqb_spec c 93).
  - destruct (sequence_opt (map _ d)) as [members|] eqn:Hmembers; [|done].
    destruct (sequence_opt (map _ d)) as [jm|] eqn:Hjm in |- *; [|done].
    intros [= <-] [= <-] Hrest Hfuel.
    apply sequence_opt_map in Hmembers. apply sequence_opt_map in Hjm.
    unfold encode_object in *. change (u "{") with [123] in *.
    change (u "}") with [125] in *. rewrite <- !app_assoc. cbn [app] in *.
    destruct fuel as [|fuel]; [simpl in Hfuel; lia|].
    rewrite parse_value_object.
    destruct d as [|[k x] d].
    + inversion Hmembers; subst. inversion Hjm; subst. reflexivity.
    + inversion Hmembers as [|? member ? members' Hmember Hrest']; subst.
      assert (∃ r, member = 34 :: r) as [r Hmem].
      { destruct (json_key k); [|done].
        destruct (json_encode ea x); [|done]. injection Hmember as <-.
        unfold encode_member, encode_string. cbn [app]. eauto. }
      destruct (join_head (u ", ") member members' 34 r Hmem) as [r' Hjoin].
      cbn [List.length] in Hfuel. rewrite length_app in Hfuel.
      cbn [List.length] in Hfuel.
      rewrite (parse_members_encode_as ((k, x) :: d) IH (member :: members') jm
                 rest fuel) by (done || lia).
      rewrite Hjoin. reflexivity.
  - done.
Qed.

(** [json.loads(json.dumps(v, ensure_ascii=...))] *)
Lemma json_loads_dumps_as v enc j :
  json_dumps ea v = Some enc → to_json v = Some j →
  json_loads enc = Some j.
Proof.
  intros Henc Hj. unfold json_loads.
  pose proof (json_encode_reads_back_as v enc j [] (S (List.length enc))
                Henc Hj I ltac:(lia)) as Hparse.
  rewrite app_nil_r in Hparse. by rewrite Hparse.
Qed.

(** Neither encoder writes a control character: a line feed inside a
    text is written as the two characters of its escape. *)
Lemma json_encode_printable v enc :
  json_encode ea v = Some enc → Forall (λ c, 32 <= c) enc.
Proof.
  assert (Hplain : ∀ s, is_plain s → Forall (λ c, 32 <= c) s).
  { intros s Hs. eapply Forall_impl; [exact Hs|]. simpl. lia. }
  assert (Hu : ∀ s, forallb (λ c, (32 <=? c) && (c <=? 126)) (u s) = true →
                    Forall (λ c, 32 <= c) (u s)).
  { intros s Hs. by apply Hplain, is_plain_u. }
  assert (Hjoin : ∀ parts, Forall (Forall (λ c, 32 <= c)) parts →
                           Forall (λ c, 32 <= c) (join (u ", ") parts)).
  { intros [|p ps] Hps; [constructor|]. inversion Hps; subst. cbn [join].
    apply Forall_app_2; [done|]. apply Forall_concat, Forall_map.
    eapply Forall_impl; [eassumption|]. intros q Hq.
    change (u ", ") with [44; 32].
    apply (Forall_app_2 _ [44; 32] q); [|done]. repeat constructor; lia. }
  revert enc. induction v as [|b|z|f|t|b|l IH|l IH|d IH|c r]
    using pyval_nested_ind; intros enc; cbn [json_encode].
  - intros [= <-]. by apply Hu.
  - destruct b; intros [= <-]; by apply Hu.
  - intros [= <-]. apply Hplain, is_plain_int_repr.
  - intros [= <-]. apply Hplain, is_plain_floatstr.
  - intros [= <-]. apply encode_string_printable.
  - done.
  - destruct (sequence_opt _) as [items|] eqn:Hitems; [|done].
    intros [= <-]. apply sequence_opt_map in Hitems.
    unfold encode_array. repeat apply Forall_app_2; try (by apply Hu).
    apply Hjoin. clear -IH Hitems.
    induction Hitems as [|x y l ys Hxy _ IH']; [constructor|].
    inversion IH; subst. constructor; eauto.
  - destruct (sequence_opt _) as [items|] eqn:Hitems; [|done].
    intros [= <-]. apply sequence_opt_map in Hitems.
    unfold encode_array. repeat apply Forall_app_2; try (by apply Hu).
    apply Hjoin. clear -IH Hitems.
    induction Hitems as [|x y l ys Hxy _ IH']; [constructor|].
    inversion IH; subst. constructor; eauto.
  - destruct (sequence_opt _) as [members|] eqn:Hm; [|done].
    intros [= <-]. apply sequence_opt_map in Hm.
    unfold encode_object. repeat apply Forall_app_2; try (by apply Hu).
    apply Hjoin. clear -IH Hm Hu.
    induction Hm as [|[k x] y l ys Hxy _ IH']; [constructor|].
    inversion IH as [|? ? [_ Hx] Hrest]; subst. constructor; [|eauto].
    destruct (json_key k) as [ks|]; [|done].
    destruct (json_encode ea x) as [xs|] eqn:Hxs; [|done].
    injection Hxy as <-. unfold encode_member.
    repeat apply Forall_app_2; try (by apply Hu).
    + apply encode_string_printable.
    + by apply Hx.
  - done.
Qed.
End RawValues.


(** ** Parquet to JSONL and Parquet to XLS *)

Section Writable.
Local Open Scope N_scope.

Lemma is_scalar_plain s : is_plain s → Forall (λ c, is_scalar c = true) s.
Proof.
  intros Hs. eapply Forall_impl; [exact Hs|]. intros c Hc. simpl in Hc.
  apply is_scalar_spec. lia.
Qed.

Lemma is_scalar_u s :
  forallb (λ c, (32 <=? c) && (c <=? 126)) (u s) = true →
  Forall (λ c, is_scalar c = true) (u s).
Proof. intros Hs. by apply is_scalar_plain, is_plain_u. Qed.

Lemma escape_char_scalar ea c :
  is_scalar c = true → Forall (λ x, is_scalar x = true) (escape_char ea c).
Proof.
  intros Hc. unfold escape_char. destruct ea.
  - apply is_scalar_plain, is_plain_escape_ascii.
  - unfold escape_unicode. destruct (short_escape c) as [e|] eqn:He.
    + apply short_escape_ascii in He.
      repeat constructor; apply is_scalar_spec; lia.
    + destruct (c <=? 0x1F).
      * apply is_scalar_plain, is_plain_u_escape.
      * by repeat constructor.
Qed.

Lemma encode_string_scalar ea s :
  Forall (λ c, is_scalar c = true) s →
  Forall (λ c, is_scalar c = true) (encode_string ea s).
Proof.
  intros Hs. unfold encode_string. constructor; [done|]. apply Forall_app_2.
  - apply Forall_concat, Forall_map. eapply Forall_impl; [exact Hs|].
    intros c Hc. by apply escape_char_scalar.
  - by repeat constructor.
Qed.

Lemma json_key_plain k :
  plain_key k = true →
  ∃ text, json_key k = Some text ∧ Forall (λ c, is_scalar c = true) text.
Proof.
  unfold plain_key. destruct (json_key k) as [text|]; [|done].
  intros Ht. exists text. split; [done|].
  apply Forall_forall. intros c Hc. rewrite forallb_forall in Ht.
  by apply Ht, list_elem_of_In.
Qed.

Lemma scalar_join parts :
  Forall (Forall (λ c, is_scalar c = true)) parts →
  Forall (λ c, is_scalar c = true) (join (u ", ") parts).
Proof.
  intros [|p ps Hp Hps]; cbn [join]; [constructor|].
  apply Forall_app_2; [done|]. apply Forall_concat, Forall_map.
  eapply Forall_impl; [exact Hps|]. intros q Hq.
  apply Forall_app_2; [by apply is_scalar_u|done].
Qed.

(** After [recursive_sanitize], plain data is serialized by either
    encoder, to text that UTF-8 encodes. *)
Lemma json_encode_plain_data ea v :
  plain_data v = true →
  ∃ enc, json_encode ea (recursive_sanitize v) = Some enc
         ∧ Forall (λ c, is_scalar c = true) enc.
Proof.
  induction v as [|b|z|f|s|b|l IH|l IH|d IH|c r] using pyval_nested_ind;
    cbn [plain_data recursive_sanitize json_encode]; intros Hv; try done.
  - eexists. split; [done|]. by apply is_scalar_u.
  - destruct b; (eexists; split; [done|]; by apply is_scalar_u).
  - eexists. split; [done|]. apply is_scalar_plain, is_plain_int_repr.
  - eexists. split; [done|]. apply is_scalar_plain, is_plain_floatstr.
  - eexists. split; [done|]. apply encode_string_scalar.
    apply Forall_forall. intros c Hc. rewrite forallb_forall in Hv.
    by apply Hv, list_elem_of_In.
  - eexists. split; [done|]. apply encode_string_scalar, utf8_decode_scalar.
  - assert (∃ items,
      sequence_opt (map (json_encode ea) (map recursive_sanitize l)) = Some items
      ∧ Forall (Forall (λ c, is_scalar c = true)) items) as (items & -> & Hitems).
    { clear -IH Hv. induction l as [|x l IHl]; [by exists []|].
      cbn [forallb] in Hv. apply andb_true_iff in Hv as [Hx Hl].
      inversion IH as [|? ? IHx IHrest]; subst.
      destruct (IHx Hx) as (enc & Henc & Hs).
      destruct (IHl IHrest Hl) as (items & Hitems & Hss).
      exists (enc :: items). cbn [map sequence_opt]. rewrite Henc, Hitems.
      split; [done|]. by constructor. }
    eexists. split; [done|]. unfold encode_array.
    repeat apply Forall_app_2; try (by apply is_scalar_u).
    by apply scalar_join.
  - set (member := λ kv : pyval * pyval,
           match kv with
           | (k, x) =>
             match json_key k, json_encode ea x with
             | Some ks, Some xs => Some (encode_member ea ks xs)
             | _, _ => None
             end
           end).
    assert (∃ members,
      sequence_opt
        (map member
           (map (λ kv, match kv with (k, x) => (k, recursive_sanitize x) end) d))
      = Some members
      ∧ Forall (Forall (λ c, is_scalar c = true)) members)
      as (members & -> & Hmembers).
    { clear -IH Hv. induction d as [|[k x] d IHd]; [by exists []|].
      cbn [forallb] in Hv. apply andb_true_iff in Hv as [Hkx Hd].
      apply andb_true_iff in Hkx as [Hk Hx].
      inversion IH as [|? ? [_ IHx] IHrest]; subst. cbn [snd] in IHx.
      destruct (IHx Hx) as (enc & Henc & Hs).
      destruct (json_key_plain k Hk) as (text & Hkey & Htext).
      destruct (IHd IHrest Hd) as (members & Hm & Hss).
      exists (encode_member ea text enc :: members).
      cbn [map sequence_opt]. unfold member at 1. rewrite Hkey, Henc, Hm.
      split; [done|]. constructor; [|done]. unfold encode_member.
      repeat apply Forall_app_2; try (by apply is_scalar_u); [|done].
      by apply encode_string_scalar. }
    eexists. split; [done|]. unfold encode_object.
    repeat apply Forall_app_2; try (by apply is_scalar_u).
    by apply scalar_join.
Qed.

(** The loop over plain records runs to its end. *)
Lemma encode_lines_plain_data ea items :
  Forall (λ item, plain_data item = true) items →
  (encode_lines ea recursive_sanitize items).2 = Ok tt.
Proof.
  induction 1 as [|item items Hitem _ IH]; [done|]. cbn [encode_lines].
  destruct (json_encode_plain_data ea item Hitem) as (line & Hline & Hs).
  unfold json_dumps. rewrite Hline.
  assert (is_Some (utf8_encode (line ++ [10]))) as [data ->]; [|done].
  apply utf8_encode_scalar, Forall_app_2; [done|]. by repeat constructor.
Qed.

(** What a finished loop has written: the UTF-8 encoding of the lines,
    one per item, each ended by a line feed. *)
Lemma encode_lines_ok ea prepare items data :
  encode_lines ea prepare items = (data, Ok tt) →
  ∃ lines,
    Forall2 (λ item line, json_dumps ea (prepare item) = Some line) items lines
    ∧ utf8_encode (concat (map (λ l, l ++ [10]) lines)) = Some data.
Proof.
  revert data. induction items as [|item items IH]; intros data;
    cbn [encode_lines].
  - intros [= <-]. exists []. split; [constructor|done].
  - destruct (json_dumps ea (prepare item)) as [line|] eqn:Hline; [|done].
    destruct (utf8_encode (line ++ [10])) as [bs|] eqn:Hbs; [|done].
    destruct (encode_lines ea prepare items) as [more r] eqn:Hrest.
    cbn [fst snd]. intros [= <- ->].
    destruct (IH more eq_refl) as (lines & Hlines & Hmore).
    exists (line :: lines). split; [by constructor|].
    cbn [map concat]. by rewrite utf8_encode_app, Hbs, Hmore.
Qed.

Lemma all_finite_recursive_sanitize v :
  all_finite (recursive_sanitize v) = all_finite v.
Proof.
  induction v as [|b|z|f|s|b|l IH|l IH|d IH|c r] using pyval_nested_ind;
    cbn [recursive_sanitize all_finite]; try done.
  - induction IH as [|x l Hx _ IHl]; [done|]. cbn [map forallb].
    by rewrite Hx, IHl.
  - induction IH as [|[k x] d [_ Hx] _ IHd]; [done|]. cbn [map forallb].
    cbn [snd] in Hx. by rewrite Hx, IHd.
Qed.
End Writable.

Section Sheets.
Context `{UnicodeData}.

Lemma cell_ok_sanitize_value v :
  plain_cell v = true → cell_ok (sanitize_value v) = true.
Proof.
  assert (Hs : ∀ s, cell_ok (PStr (strip_illegal s)) = true).
  { intros s. cbn [cell_ok]. apply forallb_forall. intros c Hc.
    pose proof (strip_illegal_legal s) as Hl.
    eapply Forall_forall in Hl; [|by apply list_elem_of_In].
    by rewrite Hl. }
  destruct v; cbn [plain_cell sanitize_value]; try done; intros _; apply Hs.
Qed.
End Sheets.

Section UrlConversions.
Context `{UnicodeData, Pandas, Openpyxl, Network}.

Lemma load_parquet_ok src url missing w df name w1 :
  load_parquet src url missing w = (Ok (df, name), w1) →
  table_source src url df.
Proof.
  unfold load_parquet, table_source. destruct src as [s|].
  - rewrite bind_lift. destruct (read_parquet (file_bytes s)); [|done].
    by intros [= <- _ _].
  - destruct (truthy url) as [target|]; [|done].
    unfold bind, requests_get. destruct (http_get target) as [r|] eqn:Hget; [|done].
    unfold lift. destruct (raise_for_status r) as [[]|] eqn:Hstatus; [|done].
    destruct (read_parquet (content r)) eqn:Hdf; [|done].
    intros [= <- _ _]. eauto 10.
Qed.
End UrlConversions.

(** X14.  After a successful Parquet to JSONL request, output.jsonl read
    back as UTF-8 has exactly one line per record of the table (of the
    uploaded file, or of the response to the URL), in order; each line
    is [json.dumps(recursive_sanitize(record), ensure_ascii=False)], and
    it parses as JSON to the value of the sanitized record whenever the
    record holds no NaN and no infinity. *)
Theorem parquet_to_jsonl_lines `{UnicodeData, Pandas, Openpyxl, Network}
    (input_file : option file_input) (parquet_url : option str)
    (w w' : world) (out message : str) :
  dataset_converter input_file (type_of ParquetToJsonl) parquet_url w
    = (Ok (out, message), w') →
  ∃ src df data,
    resolve_input input_file w = (Ok src, w)
    ∧ table_source src parquet_url df
    ∧ out = u "output.jsonl"
    ∧ disk w' !! u "output.jsonl" = Some data
    ∧ List.length (file_lines (utf8_decode_replace data))
      = List.length (to_dict_records df)
    ∧ Forall2 (λ record line,
        json_dumps false (recursive_sanitize (record_dict record)) = Some line
        ∧ (all_finite (record_dict record) = true →
           ∃ j, to_json (recursive_sanitize (record_dict record)) = Some j
                ∧ json_loads line = Some j))
        (to_dict_records df) (file_lines (utf8_decode_replace data)).
Proof.
  rewrite dataset_converter_run.
  destruct (resolve_input input_file w) as [[src|e] w0] eqn:Hres; [|done].
  pose proof (resolve_input_world _ _ _ _ Hres) as ->.
  rewrite conversion_of_label. cbn [run_conversion].
  pose proof (parquet_to_jsonl_run src parquet_url w) as Hrun.
  destruct (parquet_to_jsonl src parquet_url w) as [[o|e1] w1]; [|done].
  destruct Hrun as (df & name & w2 & Hload & Hok & Hout & ->).
  intros [= <- _ <-].
  destruct (encode_lines false recursive_sanitize
              (map record_dict (to_dict_records df))) as [data r] eqn:Henc.
  cbn [fst snd] in *. subst r.
  apply encode_lines_ok in Henc as (lines & Hlines & Hdata).
  apply Forall2_fmap_l in Hlines.
  assert (Htext : file_lines (utf8_decode_replace data) = lines).
  { rewrite (utf8_decode_encode _ _ Hdata). apply file_lines_concat.
    clear -Hlines. induction Hlines as [|record line ? ? Hline _ IH];
      constructor; [|done].
    intros Hin. apply json_encode_printable in Hline.
    eapply Forall_forall in Hline; [|exact Hin]. lia. }
  exists src, df, data. split; [done|].
  split; [by eapply load_parquet_ok|]. split; [done|].
  split; [apply lookup_insert_eq|]. rewrite Htext.
  split; [symmetry; by eapply Forall2_length|].
  eapply Forall2_impl; [exact Hlines|]. intros record line Hline.
  split; [done|]. intros Hfin.
  destruct (to_json_finite false (recursive_sanitize (record_dict record)) line)
    as [j Hj]; [done | by rewrite all_finite_recursive_sanitize |].
  exists j. split; [done|]. by eapply json_loads_dumps_as.
Qed.

Lemma parquet_to_jsonl_lines_witness :
  let run :=
    @dataset_converter plain_unicode notes_pandas strict_openpyxl notes_network
       (Some (FileObject (u "notes.parquet") notes_parquet))
       (type_of ParquetToJsonl) None empty_world in
  ∃ src df data,
    @resolve_input plain_unicode
      (Some (FileObject (u "notes.parquet") notes_parquet)) empty_world
    = (Ok src, empty_world)
    ∧ @table_source notes_pandas notes_network src None df
    ∧ u "output.jsonl" = u "output.jsonl"
    ∧ disk run.2 !! u "output.jsonl" = Some data
    ∧ List.length (file_lines (utf8_decode_replace data))
      = List.length (@to_dict_records notes_pandas df)
    ∧ Forall2 (λ record line,
        json_dumps false (recursive_sanitize (record_dict record)) = Some line
        ∧ (all_finite (record_dict record) = true →
           ∃ j, to_json (recursive_sanitize (record_dict record)) = Some j
                ∧ json_loads line = Some j))
        (@to_dict_records notes_pandas df)
        (file_lines (utf8_decode_replace data)).
Proof.
  intros run.
  apply (@parquet_to_jsonl_lines plain_unicode notes_pandas strict_openpyxl
           notes_network
           (Some (FileObject (u "notes.parquet") notes_parquet)) None
           empty_world run.2 (u "output.jsonl")
           (match run.1 with Ok p => p.2 | Raise _ => [] end)).
  vm_compute. reflexivity.
Defined.

Section Sources.
Context `{UnicodeData, Pandas, Openpyxl, Network}.

Lemma load_parquet_table src url missing df w :
  table_source src url df →
  ∃ name w1,
    load_parquet src url missing w = (Ok (df, name), w1) ∧ disk w1 = disk w.
Proof.
  unfold table_source, load_parquet. destruct src as [s|].
  - intros Hdf. rewrite bind_lift, Hdf. unfold ret. eauto.
  - intros (target & r & -> & Hget & Hstatus & Hdf).
    unfold bind, requests_get, lift, ret. rewrite Hget, Hstatus, Hdf. eauto.
Qed.

Lemma strict_openpyxl_accepts rows :
  forallb (forallb cell_ok) rows = true →
  ∃ data, @save_workbook strict_openpyxl rows = Ok data.
Proof. intros Hrows. cbn [save_workbook strict_openpyxl]. rewrite Hrows. eauto. Qed.

Lemma strict_openpyxl_rejects rows row s :
  row ∈ rows → PStr s ∈ row → ¬ legal s →
  ∃ e, @save_workbook strict_openpyxl rows = Raise e.
Proof.
  intros Hrow Hs Hbad. cbn [save_workbook strict_openpyxl].
  destruct (forallb (forallb cell_ok) rows) eqn:Hrows; [|eauto].
  exfalso. apply Hbad. rewrite forallb_forall in Hrows.
  specialize (Hrows row (proj1 (list_elem_of_In _ _) Hrow)).
  rewrite forallb_forall in Hrows.
  specialize (Hrows (PStr s) (proj1 (list_elem_of_In _ _) Hs)).
  cbn [cell_ok] in Hrows. rewrite forallb_forall in Hrows.
  apply Forall_forall. intros c Hc%list_elem_of_In.
  specialize (Hrows c Hc). by destruct (illegal_char c).
Qed.
End Sources.

(** X15.  Parquet to JSONL succeeds whenever the table can be loaded and
    its records are plain data: [None], booleans, numbers, text without
    lone surrogates, bytes of any content, and lists and dicts of these
    under keys that [json.dumps] accepts. *)
Theorem parquet_to_jsonl_succeeds `{UnicodeData, Pandas, Openpyxl, Network}
    (input_file : option file_input) (parquet_url : option str) (w : world)
    (src : option source_file) (df : DataFrame) :
  resolve_input input_file w = (Ok src, w) →
  table_source src parquet_url df →
  Forall (λ record, plain_data (record_dict record) = true) (to_dict_records df) →
  ∃ message w',
    dataset_converter input_file (type_of ParquetToJsonl) parquet_url w
    = (Ok (u "output.jsonl", message), w').
Proof.
  intros Hres Hdf Hplain. rewrite dataset_converter_run, Hres, conversion_of_label.
  cbn [run_conversion]. unfold parquet_to_jsonl.
  destruct (load_parquet_table src parquet_url
    (u "For Parquet to JSONL conversion, please upload a file or provide a URL. "
       ++ globe_emoji) df w Hdf) as (name & w1 & Hload & _).
  unfold bind at 1. rewrite Hload. cbn [fst snd]. rewrite open_then_write.
  rewrite encode_lines_plain_data by (by apply Forall_map).
  unfold ret. cbn [output_file]. eauto.
Qed.

Lemma parquet_to_jsonl_succeeds_witness :
  ∃ message w',
    @dataset_converter plain_unicode notes_pandas strict_openpyxl notes_network
       None (type_of ParquetToJsonl) (Some notes_url) empty_world
    = (Ok (u "output.jsonl", message), w').
Proof.
  apply (@parquet_to_jsonl_succeeds plain_unicode notes_pandas strict_openpyxl
           notes_network None (Some notes_url) empty_world None notes).
  - reflexivity.
  - exists notes_url, (Response 200 notes_parquet). repeat split; reflexivity.
  - repeat constructor.
Defined.

(** X16.  With an openpyxl that accepts every sheet of numbers,
    booleans, [None] and text free of the stripped characters, Parquet
    to XLS succeeds whenever the table can be loaded, its column labels
    are free of those characters, and no cell is a tuple or an object of
    another class: [sanitize_value] makes every such cell acceptable.
    output.xlsx then holds the workbook of the header row and the
    sanitized rows. *)
Theorem parquet_to_xls_succeeds `{UnicodeData, Pandas, Openpyxl, Network}
    (input_file : option file_input) (parquet_url : option str) (w : world)
    (src : option source_file) (df : DataFrame) :
  (∀ rows, forallb (forallb cell_ok) rows = true →
           ∃ data, save_workbook rows = Ok data) →
  resolve_input input_file w = (Ok src, w) →
  table_source src parquet_url df →
  Forall legal (df_columns df) →
  Forall (Forall (λ cell, plain_cell cell = true)) (itertuples df) →
  ∃ data message w',
    dataset_converter input_file (type_of ParquetToXls) parquet_url w
    = (Ok (u "output.xlsx", message), w')
    ∧ save_workbook (map PStr (df_columns df)
                     :: map (map sanitize_value) (itertuples df)) = Ok data
    ∧ disk w' !! u "output.xlsx" = Some data.
Proof.
  intros Haccepts Hres Hdf Hlabels Hcells.
  destruct (Haccepts (map PStr (df_columns df)
                      :: map (map sanitize_value) (itertuples df)))
    as [data Hsave].
  { cbn [forallb]. apply andb_true_iff. split.
    - apply forallb_forall. intros cell Hcell%in_map_iff.
      destruct Hcell as (label & <- & Hlabel%list_elem_of_In).
      eapply Forall_forall in Hlabels; [|exact Hlabel]. cbn [cell_ok].
      apply forallb_forall. intros c Hc%list_elem_of_In.
      eapply Forall_forall in Hlabels; [|exact Hc]. by rewrite Hlabels.
    - apply forallb_forall. intros row Hrow%in_map_iff.
      destruct Hrow as (cells & <- & Hin%list_elem_of_In).
      eapply Forall_forall in Hcells; [|exact Hin].
      apply forallb_forall. intros cell Hcell%in_map_iff.
      destruct Hcell as (v & <- & Hv%list_elem_of_In).
      eapply Forall_forall in Hcells; [|exact Hv].
      by apply cell_ok_sanitize_value. }
  exists data. rewrite dataset_converter_run, Hres, conversion_of_label.
  cbn [run_conversion]. unfold parquet_to_xls.
  destruct (load_parquet_table src parquet_url
    (u "For Parquet to XLS conversion, please upload a file or provide a URL. "
       ++ globe_emoji) df w Hdf) as (name & w1 & Hload & _).
  unfold bind at 1. rewrite Hload. cbn [fst snd]. rewrite bind_lift, Hsave.
  unfold bind, write_file, ret. cbn [output_file]. do 2 eexists.
  split; [reflexivity|]. split; [done|]. cbn [disk]. apply lookup_insert_eq.
Qed.

Lemma parquet_to_xls_succeeds_witness :
  ∃ data message w',
    @dataset_converter plain_unicode notes_pandas strict_openpyxl notes_network
       (Some (FileObject (u "notes.parquet") notes_parquet))
       (type_of ParquetToXls) None empty_world
    = (Ok (u "output.xlsx", message), w')
    ∧ @save_workbook strict_openpyxl
        (map PStr (@df_columns notes_pandas notes)
         :: map (map (@sanitize_value plain_unicode))
              (@itertuples notes_pandas notes)) = Ok data
    ∧ disk w' !! u "output.xlsx" = Some data.
Proof.
  apply (@parquet_to_xls_succeeds plain_unicode notes_pandas strict_openpyxl
           notes_network
           (Some (FileObject (u "notes.parquet") notes_parquet)) None
           empty_world
           (Some (SourceFile notes_parquet (u "notes.parquet") (u "parquet")))
           notes).
  - exact strict_openpyxl_accepts.
  - reflexivity.
  - reflexivity.
  - repeat constructor.
  - repeat constructor.
Defined.

(** X17.  The header row is written as it is, not sanitized: with an
    openpyxl that refuses text holding a stripped character, a column
    label with such a character makes Parquet to XLS fail, whatever the
    cells are, and no file is written. *)
Theorem parquet_to_xls_keeps_labels `{UnicodeData, Pandas, Openpyxl, Network}
    (input_file : option file_input) (parquet_url : option str) (w : world)
    (src : option source_file) (df : DataFrame) (label : str) :
  (∀ rows row s, row ∈ rows → PStr s ∈ row → ¬ legal s →
                 ∃ e, save_workbook rows = Raise e) →
  resolve_input input_file w = (Ok src, w) →
  table_source src parquet_url df →
  label ∈ df_columns df → ¬ legal label →
  ∃ e w',
    dataset_converter input_file (type_of ParquetToXls) parquet_url w
    = (Raise e, w')
    ∧ disk w' = disk w.
Proof.
  intros Hrejects Hres Hdf Hlabel Hbad.
  destruct (Hrejects (map PStr (df_columns df)
                      :: map (map sanitize_value) (itertuples df))
              (map PStr (df_columns df)) label) as [e Hsave].
  { apply list_elem_of_here. }
  { by apply list_elem_of_fmap_2. }
  { done. }
  rewrite dataset_converter_run, Hres, conversion_of_label.
  cbn [run_conversion]. unfold parquet_to_xls.
  destruct (load_parquet_table src parquet_url
    (u "For Parquet to XLS conversion, please upload a file or provide a URL. "
       ++ globe_emoji) df w Hdf) as (name & w1 & Hload & Hdisk).
  unfold bind at 1. rewrite Hload. cbn [fst snd]. rewrite bind_lift, Hsave.
  eauto.
Qed.

Lemma parquet_to_xls_keeps_labels_witness :
  ∃ e w',
    @dataset_converter plain_unicode alarms_pandas strict_openpyxl
       (table_network [])
       (Some (FileObject (u "notes.parquet") notes_parquet))
       (type_of ParquetToXls) None empty_world
    = (Raise e, w')
    ∧ disk w' = disk empty_world.
Proof.
  apply (@parquet_to_xls_keeps_labels plain_unicode alarms_pandas
           strict_openpyxl (table_network [])
           (Some (FileObject (u "notes.parquet") notes_parquet)) None
           empty_world
           (Some (SourceFile notes_parquet (u "notes.parquet") (u "parquet")))
           alarms [0x62; 0x07]%N).
  - exact strict_openpyxl_rejects.
  - reflexivity.
  - reflexivity.
  - apply list_elem_of_further, list_elem_of_here.
  - intros Hlegal. apply Forall_cons in Hlegal as [_ Hlegal].
    apply Forall_cons in Hlegal as [Hbell _]. discriminate Hbell.
Defined.

Section Fetched.
Context `{UnicodeData, Pandas, Openpyxl, Network}.

Lemma bind_from {A B} (m m' : M A) (k : A → M B) w w' :
  m w = m' w' → bind m k w = bind m' k w'.
Proof. unfold bind. by intros ->. Qed.

Lemma load_parquet_fetched url r s other missing w :
  url ≠ [] → http_get url = Some r → raise_for_status r = Ok tt →
  file_bytes s = content r → file_name s = u "from_url.parquet" →
  load_parquet None (Some url) missing w
  = load_parquet (Some s) other missing (World (disk w) (net_log w ++ [url])).
Proof.
  intros Hurl Hget Hstatus Hbytes Hname. unfold load_parquet.
  assert (truthy (Some url) = Some url) as -> by (by destruct url).
  unfold bind, requests_get, lift, ret. rewrite Hget, Hstatus, Hbytes, Hname.
  by destruct (read_parquet (content r)).
Qed.

Lemma run_conversion_fetched c url r s other w :
  accepts_url c = true →
  url ≠ [] → http_get url = Some r → raise_for_status r = Ok tt →
  file_bytes s = content r → file_name s = u "from_url.parquet" →
  run_conversion c None (Some url) w
  = run_conversion c (Some s) other (World (disk w) (net_log w ++ [url])).
Proof.
  intros Hc Hurl Hget Hstatus Hbytes Hname.
  destruct c; try discriminate; cbn [run_conversion];
    unfold parquet_to_jsonl, parquet_to_xls;
    by eapply bind_from, load_parquet_fetched.
Qed.
End Fetched.

(** X18.  A table fetched from a URL is converted exactly as an upload
    of the response body under the name from_url.parquet: same result,
    same summary and same files; only the log of requests differs, by
    that URL. *)
Theorem url_same_as_upload `{UnicodeData, Pandas, Openpyxl, Network}
    (c : conversion) (url : str) (r : response) (other : option str)
    (w : world) :
  accepts_url c = true → url ≠ [] →
  http_get url = Some r → raise_for_status r = Ok tt →
  let upload :=
    dataset_converter (Some (FileObject (u "from_url.parquet") (content r)))
      (type_of c) other w in
  dataset_converter None (type_of c) (Some url) w
  = (upload.1, World (disk upload.2) (net_log upload.2 ++ [url])).
Proof.
  intros Hc Hurl Hget Hstatus upload. subst upload.
  rewrite !dataset_converter_run. cbn [resolve_input read_input].
  unfold bind, ret. cbn [fst snd]. rewrite conversion_of_label.
  rewrite (run_conversion_fetched c url r
             (SourceFile (content r) (u "from_url.parquet")
                (extension_of (u "from_url.parquet"))) other w)
    by done.
  destruct (run_conversion_effect c
              (Some (SourceFile (content r) (u "from_url.parquet")
                       (extension_of (u "from_url.parquet")))) other)
    as (res & written & fetched & Hrun & Hfetched & _).
  destruct Hfetched as [->|[? _]]; [|done].
  rewrite !Hrun. unfold world_after. cbn [disk net_log].
  rewrite !app_nil_r. by destruct res.
Qed.

Lemma url_same_as_upload_witness :
  let upload :=
    @dataset_converter plain_unicode notes_pandas strict_openpyxl notes_network
       (Some (FileObject (u "from_url.parquet") notes_parquet))
       (type_of ParquetToJsonl) None empty_world in
  @dataset_converter plain_unicode notes_pandas strict_openpyxl notes_network
     None (type_of ParquetToJsonl) (Some notes_url) empty_world
  = (upload.1, World (disk upload.2) (net_log upload.2 ++ [notes_url])).
Proof.
  apply (@url_same_as_upload plain_unicode notes_pandas strict_openpyxl
           notes_network ParquetToJsonl notes_url (Response 200 notes_parquet)
           None empty_world).
  - reflexivity.
  - discriminate.
  - reflexivity.
  - reflexivity.
Defined.


(** ** ASCII escaping in the two JSONL files *)

Section EscapedFiles.
Context `{UnicodeData, Pandas, Openpyxl, Network}.
Local Open Scope N_scope.

Lemma escape_ascii_units c :
  128 <= c → escape_char true c = concat (unicode_escapes c).
Proof.
  intros Hc. rewrite (proj2 (escape_char_non_ascii c Hc)).
  unfold unicode_escapes. destruct (c <? 0x10000); cbn [concat];
    by rewrite ?app_nil_r.
Qed.

Lemma unicode_escapes_form c e : e ∈ unicode_escapes c → ∃ x, e = u_escape x.
Proof.
  unfold unicode_escapes. destruct (c <? 0x10000);
    repeat (intros [->|Hin]%elem_of_cons; [eauto|revert Hin]);
    by intros ?%elem_of_nil.
Qed.

Lemma occurs_in_elem c s : occurs_in [c] s → c ∈ s.
Proof.
  intros (before & after & ->). apply elem_of_app. right. by left.
Qed.

(** The members of an object, with either encoder. *)
Lemma member_occurs_as ea (d : list (pyval * pyval)) members k v :
  Forall2 (λ kv y,
    match kv with
    | (k, x) =>
      match json_key k, json_encode ea x with
      | Some ks, Some xs => Some (encode_member ea ks xs)
      | _, _ => None
      end
    end = Some y) d members →
  (k, v) ∈ d →
  ∃ ks xs, json_key k = Some ks ∧ json_encode ea v = Some xs
           ∧ occurs_in (encode_string ea ks) (encode_object members)
           ∧ occurs_in xs (encode_object members).
Proof.
  intros Hm [i Hi]%list_elem_of_lookup.
  destruct (Forall2_lookup_l _ _ _ _ _ Hm Hi) as (y & Hy & Hxy).
  destruct (json_key k) as [ks|]; [|done].
  destruct (json_encode ea v) as [xs|]; [|done].
  injection Hxy as <-. exists ks, xs. split; [done|]. split; [done|].
  apply list_elem_of_lookup_2 in Hy.
  split; unfold encode_object;
    apply occurs_in_app_l, occurs_in_app_r;
    (eapply occurs_in_join; [exact Hy|]); unfold encode_member.
  - apply occurs_in_app_r, occurs_in_refl.
  - apply occurs_in_app_l, occurs_in_app_l, occurs_in_refl.
Qed.

(** In the line of a row, every character outside ASCII of a column
    label or of a text cell is there as its escapes, beyond the BMP
    too. *)
Lemma row_line_unicode_escapes columns row line k v s c :
  row_line columns row line →
  (k, v) ∈ row_mapping columns row →
  k = PStr s ∨ v = PStr s →
  c ∈ s → 128 <= c →
  Forall (λ e, occurs_in e line) (unicode_escapes c).
Proof.
  intros (_ & gt & Hgt & Hline) Hkv Hs Hc Hlo.
  assert (Hin_gt : occurs_in (escape_char true c) gt).
  { unfold json_dumps in Hgt. cbn [json_encode] in Hgt.
    destruct (sequence_opt _) as [members|] eqn:Hm; [|done].
    injection Hgt as <-. apply sequence_opt_map in Hm.
    destruct (member_occurs_as true _ _ _ _ Hm Hkv)
      as (ks & xs & Hks & Hxs & Hk & Hv).
    destruct Hs as [->| ->].
    - cbn [json_key] in Hks. injection Hks as <-.
      eapply occurs_in_trans; [|exact Hk]. by apply occurs_in_encode_string.
    - cbn [json_encode] in Hxs. injection Hxs as <-.
      eapply occurs_in_trans; [|exact Hv]. by apply occurs_in_encode_string. }
  destruct (row_data_dumps _ _ _ Hgt) as (name & _ & Hline').
  rewrite Hline in Hline'. injection Hline' as ->.
  assert (Hgt_line :
    occurs_in (encode_string true gt)
      (encode_object
         [encode_member true (u "file_name") name;
          encode_member true (u "ground_truth") (encode_string true gt)])).
  { unfold encode_object. apply occurs_in_app_l, occurs_in_app_r.
    apply (occurs_in_join _ _ _
             (encode_member true (u "ground_truth") (encode_string true gt))).
    - right. left.
    - unfold encode_member. apply occurs_in_app_l, occurs_in_app_l, occurs_in_refl. }
  apply Forall_forall. intros e He.
  destruct (unicode_escapes_form _ _ He) as [x ->].
  assert (Hx : occurs_in (u_escape x) gt).
  { eapply occurs_in_trans; [|exact Hin_gt]. rewrite escape_ascii_units by done.
    eapply occurs_in_concat; [exact He|apply occurs_in_refl]. }
  eapply occurs_in_trans; [|exact Hgt_line].
  eapply occurs_in_trans; [|by apply occurs_in_escaped].
  rewrite u_escape_escaped. apply (occurs_in_app_l _ _ [92]), occurs_in_refl.
Qed.

(** In the line of a record written without escaping, every character
    outside ASCII of a column label or of a text cell is there itself. *)
Lemma record_line_raw (record : list (str * pyval)) line label v t c :
  json_dumps false (recursive_sanitize (record_dict record)) = Some line →
  (label, v) ∈ record → label = t ∨ v = PStr t →
  c ∈ t → 128 <= c → c ∈ line.
Proof.
  intros Hline Hin Ht Hc Hhigh.
  unfold json_dumps, record_dict in Hline.
  cbn [recursive_sanitize json_encode] in Hline.
  destruct (sequence_opt _) as [members|] eqn:Hm; [|done].
  injection Hline as <-. apply sequence_opt_map in Hm.
  assert (Hmem : (PStr label, recursive_sanitize v)
                 ∈ map (λ kv : pyval * pyval,
                          match kv with (k, x) => (k, recursive_sanitize x) end)
                     (map (λ kv : str * pyval, (PStr kv.1, kv.2)) record)).
  { rewrite map_map.
    apply (list_elem_of_fmap_2
             (λ kv : str * pyval, (PStr kv.1, recursive_sanitize kv.2))
             record (label, v) Hin). }
  destruct (member_occurs_as false _ _ _ _ Hm Hmem)
    as (ks & xs & Hks & Hxs & Hk & Hv).
  apply occurs_in_elem.
  rewrite <- (proj1 (escape_char_non_ascii c Hhigh)).
  destruct Ht as [->| ->].
  - cbn [json_key] in Hks. injection Hks as <-.
    eapply occurs_in_trans; [|exact Hk]. by apply occurs_in_encode_string.
  - cbn [recursive_sanitize json_encode] in Hxs. injection Hxs as <-.
    eapply occurs_in_trans; [|exact Hv]. by apply occurs_in_encode_string.
Qed.

(** *** CSV to JSONL runs to its end *)

Lemma collect_columns_total row columns data fnv :
  Forall (λ column, ∃ x, series_getitem row column = Ok x) columns →
  ∃ r, collect_columns row columns data fnv = Ok r.
Proof.
  intros Hcols. revert data fnv.
  induction Hcols as [|column rest [x Hx] _ IH]; intros data fnv;
    cbn [collect_columns]; [eauto|].
  rewrite Hx. apply IH.
Qed.

Lemma merge_labels_from seen labels c :
  c ∈ merge_labels seen labels → c ∈ seen ∨ c ∈ labels.
Proof.
  revert seen. induction labels as [|a labels IH]; intros seen;
    unfold merge_labels; cbn [fold_left]; [by left|].
  intros Hc. apply IH in Hc as [Hc|Hc]; [|right; by right].
  destruct (bool_decide (a ∈ seen)); [by left|].
  apply elem_of_app in Hc as [Hc|Hc%list_elem_of_singleton]; [by left|].
  subst. right. by left.
Qed.

Lemma row_mapping_dumps columns row :
  Forall (λ column, ∃ x, series_getitem row column = Ok x
                         ∧ is_Some (json_dumps true x)) columns →
  is_Some (json_dumps true (PDict (row_mapping columns row))).
Proof.
  intros Hcols. unfold json_dumps. cbn [json_encode].
  destruct (sequence_opt_map_some
    (λ kv : pyval * pyval,
       match kv with
       | (k, x) =>
         match json_key k, json_encode true x with
         | Some ks, Some xs => Some (encode_member true ks xs)
         | _, _ => None
         end
       end) (row_mapping columns row)) as [members Hm].
  - unfold row_mapping. apply Forall_map, Forall_forall.
    intros column Hin. apply merge_labels_from in Hin as [Hin|Hin];
      [by apply elem_of_nil in Hin|].
    eapply Forall_forall in Hcols as (x & Hx & [enc Henc]); [|exact Hin].
    cbn [json_key]. unfold series_value. rewrite Hx.
    unfold json_dumps in Henc. rewrite Henc. by eexists.
  - rewrite Hm. by eexists.
Qed.

Lemma make_row_data_total columns row :
  Forall (λ column, ∃ x, series_getitem row column = Ok x
                         ∧ is_Some (json_dumps true x)) columns →
  ∃ row_data, make_row_data columns row = Ok row_data.
Proof.
  intros Hcols. unfold make_row_data.
  destruct (collect_columns_total row columns [] PNone) as [[data fnv] Hrun].
  { eapply Forall_impl; [exact Hcols|]. intros column (x & Hx & _). eauto. }
  rewrite Hrun. apply (collect_columns_run row columns []) in Hrun as [-> _].
  fold (distinct_labels columns). fold (row_mapping columns row).
  destruct (row_mapping_dumps columns row Hcols) as [gt ->]. eauto.
Qed.

Lemma make_total_data_total columns rows :
  Forall (λ row,
    Forall (λ column, ∃ x, series_getitem row column = Ok x
                           ∧ is_Some (json_dumps true x)) columns) rows →
  ∃ total, make_total_data columns rows = Ok total.
Proof.
  induction 1 as [|row rows Hrow _ [total IH]]; cbn [make_total_data];
    [eauto|].
  destruct (make_row_data_total columns row Hrow) as [rd ->].
  rewrite IH. eauto.
Qed.

(** With a table whose cells [json.dumps] accepts, CSV to JSONL writes
    the lines of its rows. *)
Lemma csv_to_jsonl_written s df w :
  file_extension s = u "csv" →
  read_csv (file_bytes s) (Some "latin1"%string) = Ok df →
  Forall (λ row,
    Forall (λ column, ∃ x, series_getitem row column = Ok x
                           ∧ is_Some (json_dumps true x)) (df_columns df))
    (iterrows df) →
  ∃ lines,
    Forall2 (row_line (df_columns df)) (iterrows df) lines
    ∧ Forall is_plain lines
    ∧ csv_to_jsonl (Some s) w
      = (Ok (Outcome (u "metadata.jsonl") (u "JSONL") (head_to_string df)
                     (Some (file_name s))),
         World (<[u "metadata.jsonl" :=
                   map byte_of (concat (map (λ l, l ++ [10]) lines))]> (disk w))
               (net_log w)).
Proof.
  intros Hext Hdf Hcells. unfold csv_to_jsonl.
  rewrite (proj2 (str_eqb_eq _ _) Hext), bind_lift, Hdf, bind_lift.
  destruct (make_total_data_total _ _ Hcells) as [total Ht]. rewrite Ht.
  destruct (total_data_lines _ _ _ Ht) as (lines & Hrows & Hplain & Hlines).
  rewrite open_then_write, Hlines. cbn [fst snd]. unfold ret.
  exists lines. done.
Qed.

(** What a finished loop leaves in its file, read back as UTF-8: the
    line of each item. *)
Lemma encode_lines_file ea prepare items data :
  encode_lines ea prepare items = (data, Ok tt) →
  Forall2 (λ item line, json_dumps ea (prepare item) = Some line)
    items (file_lines (utf8_decode_replace data)).
Proof.
  intros (lines & Hlines & Hdata)%encode_lines_ok.
  rewrite (utf8_decode_encode _ _ Hdata), file_lines_concat; [done|].
  clear -Hlines. induction Hlines as [|item line ? ? Hline _ IH];
    constructor; [|done].
  intros Hin. apply json_encode_printable in Hline.
  eapply Forall_forall in Hline; [|exact Hin]. lia.
Qed.

(** With a table of plain records, Parquet to JSONL writes the lines of
    its records. *)
Lemma parquet_to_jsonl_written src url df w :
  table_source src url df →
  Forall (λ record, plain_data (record_dict record) = true)
    (to_dict_records df) →
  ∃ name w1,
    disk w1 = disk w
    ∧ (encode_lines false recursive_sanitize
         (map record_dict (to_dict_records df))).2 = Ok tt
    ∧ parquet_to_jsonl src url w
      = (Ok (Outcome (u "output.jsonl") (u "JSONL") (head_to_string df) name),
         World (<[u "output.jsonl" :=
                   (encode_lines false recursive_sanitize
                      (map record_dict (to_dict_records df))).1]> (disk w))
               (net_log w1)).
Proof.
  intros Hdf Hplain. unfold parquet_to_jsonl.
  destruct (load_parquet_table src url
    (u "For Parquet to JSONL conversion, please upload a file or provide a URL. "
       ++ globe_emoji) df w Hdf) as (name & w1 & Hload & Hdisk).
  assert (Hok : (encode_lines false recursive_sanitize
                   (map record_dict (to_dict_records df))).2 = Ok tt)
    by (by apply encode_lines_plain_data, Forall_map).
  exists name, w1. split; [done|]. split; [done|].
  unfold bind at 1. rewrite Hload. cbn [fst snd].
  rewrite open_then_write, Hok. unfold ret. by rewrite Hdisk.
Qed.
End EscapedFiles.

(** C10.  CSV to JSONL writes its lines with ASCII escaping and Parquet
    to JSONL without.  Take a CSV request whose table is read and whose
    cells [json.dumps] accepts, and a Parquet request whose table is
    loaded, from the file or from the URL, and holds plain records.
    Both succeed.  Every byte of metadata.jsonl is below 0x80; it has
    the line of each row, and for every character outside ASCII of a
    column label or a text cell, the line does not hold the character
    and holds its escape [\uXXXX] (both escapes of the surrogate pair
    beyond U+FFFF).  output.jsonl, read as UTF-8, has the line of each
    record as [ensure_ascii=False] gives it, and that line holds every
    such character itself; so the file has a byte above 0x7F as soon as
    a record has a character outside ASCII.  On any one value with such
    a character the two encoders differ: the escaped text is all ASCII
    and the raw one is not. *)
Theorem ascii_escaping_differs `{UnicodeData, Pandas, Openpyxl, Network}
    (csv_file parquet_file : option file_input)
    (csv_url parquet_url : option str) (w : world)
    (s : source_file) (src : option source_file) (rows records : DataFrame) :
  resolve_input csv_file w = (Ok (Some s), w) →
  file_extension s = u "csv" →
  read_csv (file_bytes s) (Some "latin1"%string) = Ok rows →
  Forall (λ row,
    Forall (λ column, ∃ x, series_getitem row column = Ok x
                           ∧ is_Some (json_dumps true x)) (df_columns rows))
    (iterrows rows) →
  resolve_input parquet_file w = (Ok src, w) →
  table_source src parquet_url records →
  Forall (λ record, plain_data (record_dict record) = true)
    (to_dict_records records) →
  ∃ message1 w1 metadata message2 w2 output,
    dataset_converter csv_file (type_of CsvToJsonl) csv_url w
      = (Ok (u "metadata.jsonl", message1), w1)
    ∧ disk w1 !! u "metadata.jsonl" = Some metadata
    ∧ Forall (λ x, (Byte.to_N x < 128)%N) metadata
    ∧ Forall2 (λ row line,
        row_line (df_columns rows) row line
        ∧ ∀ k v t c,
            (k, v) ∈ row_mapping (df_columns rows) row →
            k = PStr t ∨ v = PStr t → c ∈ t → (128 ≤ c)%N →
            (c ∉ line) ∧ Forall (λ e, occurs_in e line) (unicode_escapes c))
        (iterrows rows) (file_lines (map Byte.to_N metadata))
    ∧ dataset_converter parquet_file (type_of ParquetToJsonl) parquet_url w
      = (Ok (u "output.jsonl", message2), w2)
    ∧ disk w2 !! u "output.jsonl" = Some output
    ∧ Forall2 (λ record line,
        json_dumps false (recursive_sanitize (record_dict record)) = Some line
        ∧ (has_non_ascii (record_dict record) = true → Exists non_ascii line)
        ∧ ∀ label v t c,
            (label, v) ∈ record → label = t ∨ v = PStr t → c ∈ t →
            (128 ≤ c)%N → c ∈ line)
        (to_dict_records records) (file_lines (utf8_decode_replace output))
    ∧ (∀ record, record ∈ to_dict_records records →
         has_non_ascii (record_dict record) = true →
         Exists (λ x, (128 ≤ Byte.to_N x)%N) output)
    ∧ (∀ value escaped raw,
         has_non_ascii value = true →
         json_dumps true value = Some escaped →
         json_dumps false value = Some raw →
         is_ascii escaped ∧ Exists non_ascii raw ∧ escaped ≠ raw)
    ∧ (∀ c, (128 ≤ c)%N →
         escape_char false c = [c]
         ∧ escape_char true c = concat (unicode_escapes c)).
Proof.
  intros Hcsv Hext Hrows Hcells Hparquet Hrecords Hplain.
  destruct (csv_to_jsonl_written s rows w Hext Hrows Hcells)
    as (lines & Hlines & Hascii & Hrun1).
  destruct (parquet_to_jsonl_written src parquet_url records w Hrecords Hplain)
    as (name & w0 & Hdisk & Hok & Hrun2).
  pose proof (encode_lines_high recursive_sanitize
                (map record_dict (to_dict_records records))) as Hbytes.
  destruct (encode_lines false recursive_sanitize
              (map record_dict (to_dict_records records)))
    as [output status] eqn:Henc.
  cbn [fst snd] in Hok, Hrun2, Hbytes. subst status.
  pose proof (encode_lines_file _ _ _ _ Henc) as Hfile.
  apply Forall2_fmap_l in Hfile.
  do 6 eexists.
  split.
  { rewrite dataset_converter_run, Hcsv, conversion_of_label.
    cbn [run_conversion]. rewrite Hrun1. cbn [output_file]. reflexivity. }
  split; [cbn [disk]; apply lookup_insert_eq|].
  split.
  { apply Forall_map, Forall_concat, Forall_map.
    eapply Forall_impl; [exact Hascii|]. intros line Hline.
    apply Forall_app_2.
    - eapply Forall_impl; [exact Hline|]. intros c Hc. simpl in Hc.
      rewrite to_N_byte_of; lia.
    - constructor; [|constructor]. rewrite to_N_byte_of; lia. }
  split.
  { rewrite metadata_lines by done.
    eapply Forall2_impl; [exact Hlines|]. intros row line Hline.
    split; [done|]. intros k v t c Hkv Ht Hc Hhigh. split.
    - intros Hin. destruct Hline as (_ & gt & _ & Hl).
      apply json_encode_plain in Hl.
      eapply Forall_forall in Hl; [|exact Hin]. simpl in Hl. lia.
    - by eapply row_line_unicode_escapes. }
  split.
  { rewrite dataset_converter_run, Hparquet, conversion_of_label.
    cbn [run_conversion]. rewrite Hrun2. cbn [output_file]. reflexivity. }
  split; [cbn [disk]; apply lookup_insert_eq|].
  split.
  { eapply Forall2_impl; [exact Hfile|]. intros record line Hline.
    split; [done|]. split.
    - intros Hhas. eapply json_encode_non_ascii; [|exact Hline].
      by apply recursive_sanitize_non_ascii.
    - intros label v t c Hin Ht Hc Hhigh. by eapply record_line_raw. }
  split.
  { intros record Hin Hhas. apply (Hbytes (record_dict record)); [done| |].
    - by apply list_elem_of_fmap_2.
    - by apply recursive_sanitize_non_ascii. }
  split.
  { intros value escaped raw Hvalue Hescaped Hraw.
    assert (Hplain' : is_ascii escaped)
      by (apply is_plain_ascii; by eapply json_encode_plain).
    assert (Hhigh : Exists non_ascii raw) by (by eapply json_encode_non_ascii).
    split; [done|]. split; [done|]. intros ->.
    apply Exists_exists in Hhigh as (c & Hc & Hge).
    eapply Forall_forall in Hplain'; [|exact Hc]. unfold non_ascii in Hge.
    simpl in Hplain'. lia. }
  intros c Hc. split.
  - apply (escape_char_non_ascii c Hc).
  - by apply escape_ascii_units.
Qed.

Lemma ascii_escaping_differs_witness :
  ∃ message1 w1 metadata message2 w2 output,
    @dataset_converter plain_unicode cafes_pandas strict_openpyxl notes_network
       (Some (FileObject (u "cafes.csv") cafes_csv)) (type_of CsvToJsonl)
       None empty_world
      = (Ok (u "metadata.jsonl", message1), w1)
    ∧ disk w1 !! u "metadata.jsonl" = Some metadata
    ∧ Forall (λ x, (Byte.to_N x < 128)%N) metadata
    ∧ Forall2 (λ row line,
        row_line (@df_columns cafes_pandas cafes) row line
        ∧ ∀ k v t c,
            (k, v) ∈ row_mapping (@df_columns cafes_pandas cafes) row →
            k = PStr t ∨ v = PStr t → c ∈ t → (128 ≤ c)%N →
            (c ∉ line) ∧ Forall (λ e, occurs_in e line) (unicode_escapes c))
        (@iterrows cafes_pandas cafes) (file_lines (map Byte.to_N metadata))
    ∧ @dataset_converter plain_unicode cafes_pandas strict_openpyxl
        notes_network None (type_of ParquetToJsonl) (Some notes_url)
        empty_world
      = (Ok (u "output.jsonl", message2), w2)
    ∧ disk w2 !! u "output.jsonl" = Some output
    ∧ Forall2 (λ record line,
        json_dumps false (recursive_sanitize (record_dict record)) = Some line
        ∧ (has_non_ascii (record_dict record) = true → Exists non_ascii line)
        ∧ ∀ label v t c,
            (label, v) ∈ record → label = t ∨ v = PStr t → c ∈ t →
            (128 ≤ c)%N → c ∈ line)
        (@to_dict_records cafes_pandas notes)
        (file_lines (utf8_decode_replace output))
    ∧ (∀ record, record ∈ @to_dict_records cafes_pandas notes →
         has_non_ascii (record_dict record) = true →
         Exists (λ x, (128 ≤ Byte.to_N x)%N) output)
    ∧ (∀ value escaped raw,
         has_non_ascii value = true →
         json_dumps true value = Some escaped →
         json_dumps false value = Some raw →
         is_ascii escaped ∧ Exists non_ascii raw ∧ escaped ≠ raw)
    ∧ (∀ c, (128 ≤ c)%N →
         escape_char false c = [c]
         ∧ escape_char true c = concat (unicode_escapes c)).
Proof.
  apply (@ascii_escaping_differs plain_unicode cafes_pandas strict_openpyxl
           notes_network
           (Some (FileObject (u "cafes.csv") cafes_csv)) None
           None (Some notes_url) empty_world
           (SourceFile cafes_csv (u "cafes.csv") (u "csv")) None cafes notes).
  - reflexivity.
  - reflexivity.
  - reflexivity.
  - repeat (constructor;
      [repeat (constructor;
         [eexists; split; [reflexivity | eexists; reflexivity]|]);
       constructor|]).
    constructor.
  - reflexivity.
  - exists notes_url, (Response 200 notes_parquet). repeat split; reflexivity.
  - repeat constructor.
Defined.

(** The two files of the scenario: the accents of the CSV table are
    escapes in metadata.jsonl (with the backslash doubled inside
    [ground_truth]); the accent of the Parquet table is in output.jsonl
    as it is, and only the control character is escaped. *)
Example ascii_escaping_scenario :
  let csv :=
    (@dataset_converter plain_unicode cafes_pandas strict_openpyxl notes_network
       (Some (FileObject (u "cafes.csv") cafes_csv)) (type_of CsvToJsonl)
       None empty_world).2 in
  let parquet :=
    (@dataset_converter plain_unicode cafes_pandas strict_openpyxl notes_network
       None (type_of ParquetToJsonl) (Some notes_url) empty_world).2 in
  (file_lines ∘ map Byte.to_N) <$> (disk csv !! u "metadata.jsonl")
  = Some
      [u "{" ++ quoted "file_name" ++ u ": " ++ quoted "a.png" ++ u ", "
         ++ quoted "ground_truth" ++ u ": " ++ [34%N] ++ u "{"
         ++ escaped_quoted "file_name" ++ u ": " ++ escaped_quoted "a.png"
         ++ u ", " ++ escaped_quoted "caf\\u00e9" ++ u ": "
         ++ escaped_quoted "cr\\u00e8me" ++ u "}" ++ [34%N] ++ u "}"]
  ∧ (file_lines ∘ utf8_decode_replace) <$> (disk parquet !! u "output.jsonl")
    = Some
        [u "{" ++ quoted "id" ++ u ": 1, " ++ quoted "note" ++ u ": "
           ++ [0x22; 0x63; 0x61; 0x66; 0xE9; 0x22]%N ++ u "}";
         u "{" ++ quoted "id" ++ u ": 2, " ++ quoted "note" ++ u ": "
           ++ quoted "h\u0007i" ++ u "}"].
Proof. vm_compute. split; reflexivity. Qed.
